(** * kakitoru: the note builder [NotesBase] of [notes_base.py]

    A shallow embedding of the class [NotesBase]: the field builders, the
    note assembler, template resolution and rendering, the file writer and
    [take_note], followed by the properties of the specification.

    Python objects are modelled as follows.
    - Scalars ([None], booleans, integers, strings) are values of [scalar].
    - A Python list is an object in a store ([heap]), named by a location;
      passing a list passes its location, so that in-place updates are seen
      by every holder of the list.
    - A dictionary with string keys is a [gmap string _].
    - A method is a function in the monad [M], which threads the mutable
      state ([state]) and either returns a value or raises an exception;
      the state reached when an exception is raised is kept, as in Python.
    - The file system maps a path to the text of the regular file stored
      there, on a POSIX platform: a text-mode write stores the characters
      as they are, and a text-mode read gives a carriage return, with or
      without a newline after it, as a newline.  The files hold text that
      the platform's character set can decode.  Directories are given by
      a predicate on paths, the same throughout a call.
    - Where the platform decides (the names [tempfile] draws, whether a
      move stays on one file system, where a copy fails) the decision is
      part of the state.
    - Calls to [logging] have no effect on results or files and are left
      out. *)

From stdpp Require Import gmap strings list fin_maps pretty.
From Stdlib Require Import ZArith Ascii.

Local Open Scope Z_scope.

(** ** Values *)

Inductive scalar :=
  | PyNone
  | PyBool (b : bool)
  | PyInt (n : Z)
  | PyStr (s : string).

Abbreviation loc := positive.

Inductive val :=
  | VScalar (a : scalar)
  | VList (l : loc).

#[global] Instance scalar_eq_dec : EqDecision scalar.
Proof. solve_decision. Defined.

#[global] Instance val_eq_dec : EqDecision val.
Proof. solve_decision. Defined.

(** [str(x)] *)
Definition py_str (a : scalar) : string :=
  match a with
  | PyNone => "None"
  | PyBool true => "True"
  | PyBool false => "False"
  | PyInt n => pretty n
  | PyStr s => s
  end.

(** [type(x) == str] *)
Definition is_str (a : scalar) : bool :=
  match a with PyStr _ => true | _ => false end.

(** [type(x).__name__] *)
Definition type_name (a : scalar) : string :=
  match a with
  | PyNone => "NoneType"
  | PyBool _ => "bool"
  | PyInt _ => "int"
  | PyStr _ => "str"
  end.

(** Truth value of a scalar, as tested by [if x] and [x or y]. *)
Definition truthy (a : scalar) : bool :=
  match a with
  | PyNone => false
  | PyBool b => b
  | PyInt n => negb (n =? 0)
  | PyStr s => negb (String.eqb s "")
  end.

(** ** Exceptions *)

(** The sites that raise [NotesErr], with the arguments their messages are
    built from.  The text of the exception that is wrapped is not kept. *)
Inductive notes_msg :=
  | UnableToCreateTempFile
  | UnableToGetConfigData (config_file : string)
  | FailedToReadTemplate (template_file : string)
  | PathToNotesFileNotDefined
  | NotesDirDoesNotExist (notes_dir : string)
  | FailedToReadFile (filename : string)
  | FailedToRename (src_file dest_file : string)
  | FailedToRenderTemplate (template_name : string)
  | TemplateFileNotFound (template_file : string)
  | FailedToWrite (filename : string).

(** The exceptions of the operating system that the code catches. *)
Inductive oserror :=
  | FileNotFoundError
  | IsADirectoryError
  | FileExistsError
  | DeviceError.

(** What a method can raise.  [BadRef] stands for the use of a location
    that names no list; no Python program can do that. *)
Inductive exn :=
  | NotesErr (msg : notes_msg)
  | KeyError (key : string)
  | AttributeError (type_of_object attribute : string)
  | IndexError
  | OSError (e : oserror)
  | YAMLError
  | BadRef (l : loc).

(** ** Configuration *)

(** [self.configs]: the recognised keys, each absent ([None]) or present
    with a value of its documented type.  A key that is present with the
    value [None], or with a value of another type, is not among these
    configurations: what the program does with one is outside this
    development. *)
Record config := mkConfig {
  cfg_default_content_type : option string;
  cfg_default_template_file : option string;
  cfg_append_date_to_header : option bool;
  cfg_auto_prepend_hashtag : option bool;
  cfg_notes_file : option string
}.

Definition empty_config : config := mkConfig None None None None None.

(** [configs.update(kwargs)], key by key. *)
Definition config_update (configs kwargs : config) : config :=
  let pick {A} (f : config → option A) :=
    match f kwargs with Some v => Some v | None => f configs end in
  mkConfig (pick cfg_default_content_type) (pick cfg_default_template_file)
           (pick cfg_append_date_to_header) (pick cfg_auto_prepend_hashtag)
           (pick cfg_notes_file).

(** ** State and the monad of methods *)

(** What it takes to move a regular file from one path to another.  On
    one file system [os.rename] does it in one step.  Across file systems
    [os.rename] fails and [shutil.move] copies the file onto the
    destination and then removes the source; the copy can fail after it
    has written some characters. *)
Inductive crossing :=
  | SameDevice
  | OtherDevice
  | OtherDeviceFails (written : nat).

Record state := mkWorld {
  files : gmap string string;       (* regular files: path to text *)
  heap : gmap loc (list scalar);    (* list objects *)
  self_date : scalar;               (* [self.date] *)
  rand : list string;               (* names the temp-file generator draws *)
  device : string → string → crossing   (* what a move between two paths takes *)
}.

(** A state on a single file system. *)
Definition mkState (files : gmap string string) (heap : gmap loc (list scalar))
    (self_date : scalar) (rand : list string) : state :=
  mkWorld files heap self_date rand (λ _ _, SameDevice).

Definition set_files (f : gmap string string → gmap string string) (s : state) :=
  mkWorld (f (files s)) (heap s) (self_date s) (rand s) (device s).
Definition set_heap (f : gmap loc (list scalar) → gmap loc (list scalar)) (s : state) :=
  mkWorld (files s) (f (heap s)) (self_date s) (rand s) (device s).
Definition set_self_date (d : scalar) (s : state) :=
  mkWorld (files s) (heap s) d (rand s) (device s).
Definition set_rand (r : list string) (s : state) :=
  mkWorld (files s) (heap s) (self_date s) r (device s).

Inductive outcome (A : Type) :=
  | Ok (a : A)
  | Raise (e : exn).
Arguments Ok {A} a.
Arguments Raise {A} e.

Definition M (A : Type) : Type := state → outcome A * state.

Definition ret {A} (a : A) : M A := λ s, (Ok a, s).
Definition raise {A} (e : exn) : M A := λ s, (Raise e, s).
Definition bind {A B} (c : M A) (k : A → M B) : M B :=
  λ s, match c s with
       | (Ok a, s') => k a s'
       | (Raise e, s') => (Raise e, s')
       end.
Definition gets {A} (f : state → A) : M A := λ s, (Ok (f s), s).
Definition modify (f : state → state) : M unit := λ s, (Ok tt, f s).

(** [try: c except Exception as e: h e] *)
Definition try_except {A} (c : M A) (h : exn → M A) : M A :=
  λ s, match c s with
       | (Ok a, s') => (Ok a, s')
       | (Raise e, s') => h e s'
       end.

Declare Scope py_scope.
Notation "x <- c ;; k" := (bind c (λ x, k))
  (at level 100, c at next level, right associativity) : py_scope.
Notation "c ;;; k" := (bind c (λ _, k))
  (at level 100, right associativity) : py_scope.
Local Open Scope py_scope.

(** [configs[key]] *)
Definition getitem {A} (field : option A) (key : string) : M A :=
  match field with
  | Some v => ret v
  | None => raise (KeyError key)
  end.

(** ** List objects *)

(** A new list object. *)
Definition alloc (xs : list scalar) : M loc :=
  λ s, let l := fresh (dom (heap s)) in (Ok l, set_heap <[l := xs]> s).

(** The elements of a list object. *)
Definition load (l : loc) : M (list scalar) :=
  λ s, match heap s !! l with
       | Some xs => (Ok xs, s)
       | None => (Raise (BadRef l), s)
       end.

(** [lst[idx] = v] *)
Definition setitem (l : loc) (idx : nat) (v : scalar) : M unit :=
  xs <- load l ;;
  if decide (idx < length xs)%nat
  then modify (set_heap <[l := <[idx := v]> xs]>)
  else raise IndexError.

(** Truth value of a value; a list is true when it has an element. *)
Definition truthy_val (v : val) : M bool :=
  match v with
  | VScalar a => ret (truthy a)
  | VList l => xs <- load l ;; ret (negb (bool_decide (xs = [])))
  end.

(** [lst or []] for an optional list argument. *)
Definition or_empty_list (arg : option loc) : M loc :=
  match arg with
  | None => alloc []
  | Some l =>
      xs <- load l ;;
      match xs with
      | [] => alloc []
      | _ :: _ => ret l
      end
  end.

(** [for x in xs: acc = body x acc] *)
Fixpoint for_each {A S} (xs : list A) (body : A → S → M S) (acc : S) : M S :=
  match xs with
  | [] => ret acc
  | x :: rest => acc' <- body x acc ;; for_each rest body acc'
  end.

(** [d[key]] for a dictionary. *)
Definition dict_getitem (d : gmap string val) (key : string) : M val :=
  match d !! key with
  | Some v => ret v
  | None => raise (KeyError key)
  end.

(** ** The clock *)

Inductive weekday := Mon | Tue | Wed | Thu | Fri | Sat | Sun.
Inductive month :=
  Jan | Feb | Mar | Apr | May | Jun | Jul | Aug | Sep | Oct | Nov | Dec.

(** What [current_datetime()] returns: the time of day in the zone
    'US/Pacific', with the abbreviation of the zone in force. *)
Record datetime := mkDatetime {
  dt_weekday : weekday;
  dt_month : month;
  dt_day : nat;
  dt_hour : nat;
  dt_minute : nat;
  dt_second : nat;
  dt_tzname : string;
  dt_year : nat
}.

Definition abbr_weekday (d : weekday) : string :=
  match d with
  | Mon => "Mon" | Tue => "Tue" | Wed => "Wed" | Thu => "Thu"
  | Fri => "Fri" | Sat => "Sat" | Sun => "Sun"
  end.

Definition abbr_month (m : month) : string :=
  match m with
  | Jan => "Jan" | Feb => "Feb" | Mar => "Mar" | Apr => "Apr"
  | May => "May" | Jun => "Jun" | Jul => "Jul" | Aug => "Aug"
  | Sep => "Sep" | Oct => "Oct" | Nov => "Nov" | Dec => "Dec"
  end.

(** A number in two digits, as [%d], [%H], [%M] and [%S] print it. *)
Definition two_digits (n : nat) : string :=
  if decide (n < 10)%nat then "0" +:+ pretty n else pretty n.

(** [strftime('%a %b %d %H:%M:%S %Z %Y')] *)
Definition strftime (t : datetime) : string :=
  abbr_weekday (dt_weekday t) +:+ " " +:+ abbr_month (dt_month t) +:+ " "
  +:+ two_digits (dt_day t) +:+ " "
  +:+ two_digits (dt_hour t) +:+ ":" +:+ two_digits (dt_minute t) +:+ ":"
  +:+ two_digits (dt_second t) +:+ " "
  +:+ dt_tzname t +:+ " " +:+ pretty (dt_year t).

(** ** Paths *)

Definition slash : ascii := "/"%char.

Definition all_slashes (cs : list ascii) : bool :=
  forallb (λ c, bool_decide (c = slash)) cs.

(** [s.rstrip('/')] on the reversed characters of [s]. *)
Fixpoint drop_slashes (rev_cs : list ascii) : list ascii :=
  match rev_cs with
  | c :: rest => if decide (c = slash) then drop_slashes rest else rev_cs
  | [] => []
  end.

(** The reversed characters of [p] after its last [/], and the reversed
    characters up to and including that [/]. *)
Fixpoint split_last_slash (rev_cs : list ascii) : list ascii * list ascii :=
  match rev_cs with
  | [] => ([], [])
  | c :: rest =>
      if decide (c = slash) then ([], rev_cs)
      else let '(tail, head) := split_last_slash rest in (c :: tail, head)
  end.

(** [os.path.dirname(p)] *)
Definition dirname (p : string) : string :=
  let rev_head := (split_last_slash (reverse (String.list_ascii_of_string p))).2 in
  if all_slashes rev_head
  then String.string_of_list_ascii (reverse rev_head)
  else String.string_of_list_ascii (reverse (drop_slashes rev_head)).

(** [os.path.basename(p)] *)
Definition basename (p : string) : string :=
  let rev_tail := (split_last_slash (reverse (String.list_ascii_of_string p))).1 in
  String.string_of_list_ascii (reverse rev_tail).

(** [s.rstrip('/')] *)
Definition rstrip_slash (p : string) : string :=
  String.string_of_list_ascii
    (reverse (drop_slashes (reverse (String.list_ascii_of_string p)))).

(** [os.path.join(a, b)] *)
Definition path_join (a b : string) : string :=
  if String.prefix "/" b then b
  else match reverse (String.list_ascii_of_string a) with
       | [] => b
       | c :: _ => if decide (c = slash) then a +:+ b else a +:+ "/" +:+ b
       end.

(** ** Outside the program *)

Definition newline : ascii := "010"%char.
Definition carriage_return : ascii := "013"%char.

(** What a text-mode read gives for the characters a file holds
    ([open(p, 'r')], universal newlines): a carriage return followed by a
    newline, and a carriage return alone, are read as one newline. *)
Fixpoint universal_newlines (stored : string) : string :=
  match stored with
  | EmptyString => EmptyString
  | String c rest =>
      if decide (c = carriage_return) then
        match rest with
        | String c' rest' =>
            if decide (c' = newline) then String newline (universal_newlines rest')
            else String newline (universal_newlines rest)
        | EmptyString => String newline EmptyString
        end
      else String c (universal_newlines rest)
  end.

(** The path of [p] below the directory [dir], when [p] lies there. *)
Definition below (dir p : string) : option string :=
  let d := dir +:+ "/" in
  if String.prefix d p
  then Some (String.substring (String.length d) (String.length p - String.length d) p)
  else None.

(** What [yaml.safe_load] does with the text of a file: it raises, or it
    returns [None] (an empty document) or a mapping.  A document that is
    a list or a scalar is not among the results: what the program does
    with such a configuration file is outside this development. *)
Inductive yaml_result :=
  | YamlRaises
  | YamlData (data : option config).

(** The template engine: whether [jinja2.Template(text)] accepts a text,
    and what [render] makes of an accepted text and its data, the note and
    the content type ([None] when rendering raises).  The engine sees the
    lists the note refers to. *)
Record engine := mkEngine {
  jinja_compiles : string → bool;
  jinja_render :
    string → gmap string val → string → gmap loc (list scalar) → option string
}.

Inductive io_result (A : Type) :=
  | Done (a : A)
  | Fail (e : oserror).
Arguments Done {A} a.
Arguments Fail {A} e.

(** An optional string argument as [x or y] tests it: [None] when it is
    absent or the empty string. *)
Definition given (arg : option string) : option string :=
  match arg with
  | Some x => if String.eqb x "" then None else Some x
  | None => None
  end.

(** ** Field builders *)

Section NotesBase.

(** [self.configs], fixed once the object is built. *)
Variable configs : config.

(** The reading of the clock, the directories that exist, the directory
    of temporary files and the template engine. *)
Variable now : datetime.
Variable isdir : string → bool.
Variable tmpdir : string.
Variable jinja : engine.

(** [comment(comment)] *)
Definition comment (comment : scalar) : M (gmap string val) :=
  ret {[ "comment" := VScalar comment ]}.

(** [content(content)] *)
Definition content (content : scalar) : M (gmap string val) :=
  ret {[ "content" := VScalar content ]}.

(** [content_type(content_type)]: the argument, or the configured
    default when the argument is absent or empty. *)
Definition content_type (content_type : option string) : M string :=
  match given content_type with
  | Some ct => ret ct
  | None => getitem (cfg_default_content_type configs) "default_content_type"
  end.

(** [tag.startswith("#")]; only strings have the method. *)
Definition startswith_hash (tag : scalar) : M bool :=
  match tag with
  | PyStr s => ret (String.prefix "#" s)
  | _ => raise (AttributeError (type_name tag) "startswith")
  end.

(** The body of the loop of [tags] for the element [tag] at index [idx]. *)
Definition tags_body (l : loc) (idx : nat) (tag : scalar) : M unit :=
  (if negb (is_str tag) then setitem l idx (PyStr (py_str tag)) else ret tt) ;;;
  flag <- getitem (cfg_auto_prepend_hashtag configs) "auto_prepend_hashtag" ;;
  if flag : bool then
    sw <- startswith_hash tag ;;
    if negb sw then setitem l idx (PyStr ("#" +:+ py_str tag)) else ret tt
  else ret tt.

(** The loop of [tags] over the elements [pending] that [enumerate] has
    yet to yield, the next one at index [idx].  The body assigns only at
    the index it is visiting and never changes the length, so the elements
    yielded are those the list held when the loop began. *)
Fixpoint tags_loop (l : loc) (idx : nat) (pending : list scalar) : M unit :=
  match pending with
  | [] => ret tt
  | tag :: rest => tags_body l idx tag ;;; tags_loop l (S idx) rest
  end.

(** The same loop as the iterator of the list runs it: at each step the
    element at [idx] is read from the list as it is then, and the loop
    ends when [idx] is past the end.  [steps] bounds the number of
    steps. *)
Fixpoint tags_iter (l : loc) (idx : nat) (steps : nat) : M unit :=
  match steps with
  | O => ret tt
  | S steps' =>
      xs <- load l ;;
      match xs !! idx with
      | None => ret tt
      | Some tag => tags_body l idx tag ;;; tags_iter l (S idx) steps'
      end
  end.

(** [tags(tags)] *)
Definition tags (tags : option loc) : M (gmap string val) :=
  l <- or_empty_list tags ;;
  xs <- load l ;;
  tags_loop l 0 xs ;;;
  ret {[ "tags" := VList l ]}.

(** [urls(urls)] *)
Definition urls (urls : option loc) : M (gmap string val) :=
  l <- or_empty_list urls ;;
  ret {[ "urls" := VList l ]}.

(** [header(header)] *)
Definition header (header : scalar) : M (gmap string val) :=
  date <- gets self_date ;;
  h <- (if truthy header then
          flag <- getitem (cfg_append_date_to_header configs) "append_date_to_header" ;;
          if flag : bool
          then ret (PyStr (py_str header +:+ " / " +:+ py_str date))
          else ret header
        else ret date) ;;
  ret {[ "header" := VScalar h ]}.


(** [get_date()] *)
Definition get_date : M string := ret (strftime now).

(** ** Note assembler *)

(** The inner loop of [note] for one builder result:
    [for value in element.values(): if value: note.update(element)]. *)
Definition update_if_truthy (element note : gmap string val) : M (gmap string val) :=
  for_each (map_to_list element).*2
    (λ value acc, b <- truthy_val value ;; ret (if b : bool then element ∪ acc else acc))
    note.

(** [note(date, comment, content, tags, urls, header, **kwargs)]; the
    extra keyword fields come in the order of the call.  (A call passes
    no key twice and none with the name of a parameter.) *)
Definition note (date comment_arg content_arg : scalar) (tags_arg urls_arg : option loc)
    (header_arg : scalar) (kwargs : list (string * val)) : M (gmap string val) :=
  d <- (if truthy date then ret date else t <- get_date ;; ret (PyStr t)) ;;
  modify (set_self_date d) ;;;
  comment_d <- comment comment_arg ;;
  content_d <- content content_arg ;;
  header_d <- header header_arg ;;
  tags_d <- tags tags_arg ;;
  urls_d <- urls urls_arg ;;
  n <- for_each [comment_d; content_d; header_d] update_if_truthy ∅ ;;
  tv <- dict_getitem tags_d "tags" ;;
  tb <- truthy_val tv ;;
  let n := if tb : bool then tags_d ∪ n else n in
  uv <- dict_getitem urls_d "urls" ;;
  ub <- truthy_val uv ;;
  let n := if ub : bool then urls_d ∪ n else n in
  for_each kwargs (λ kv acc, ret ({[ kv.1 := kv.2 ]} ∪ acc)) n.

(** ** Files *)

(** [os.path.exists(p)] *)
Definition path_exists (fs : gmap string string) (p : string) : bool :=
  isdir p || bool_decide (is_Some (fs !! p)).

(** Whether a new entry can be made at [p]: its directory exists.  A path
    with no directory part names an entry of the working directory; the
    empty path names nothing. *)
Definition parent_exists (p : string) : bool :=
  let d := dirname p in
  negb (String.eqb p "") && (String.eqb d "" || isdir d).

(** [open(p, 'r').read()] *)
Definition fs_read (fs : gmap string string) (p : string) : io_result string :=
  if isdir p then Fail IsADirectoryError
  else match fs !! p with
       | Some stored => Done (universal_newlines stored)
       | None => Fail FileNotFoundError
       end.

(** [open(p, mode).write(data)] for [mode] one of ['a'] and ['w']. *)
Definition fs_write (fs : gmap string string) (p : string) (append : bool)
    (data : string) : io_result (gmap string string) :=
  if isdir p then Fail IsADirectoryError
  else match fs !! p with
       | Some old => Done (<[p := if append then old +:+ data else data]> fs)
       | None =>
           if parent_exists p then Done (<[p := data]> fs)
           else Fail FileNotFoundError
       end.

(** The files after the directory [src] has become the directory [dst]:
    what was below [src] is below [dst]. *)
Definition move_tree (src dst : string) (fs : gmap string string)
    : gmap string string :=
  list_to_map
    ((λ entry : string * string,
        (match below src entry.1 with
         | Some rest => dst +:+ "/" +:+ rest
         | None => entry.1
         end, entry.2)) <$> map_to_list fs).

(** What [src] becomes at [dst], a path that is no directory, when the
    move can be made at all.  A regular file replaces what is at [dst]; a
    directory goes with the files below it, to a path where nothing is
    and that does not lie below it.  It cannot be made when [src] does
    not exist or [dst] has no directory to be entered in: then
    [os.rename] raises, and so does the copy that [shutil.move] tries
    next, before it has written anything. *)
Definition fs_rename (fs : gmap string string) (src dst : string)
    : io_result (gmap string string) :=
  if isdir src then
    let dir := rstrip_slash src in
    if path_exists fs dst then Fail FileExistsError
    else if negb (parent_exists dst) then Fail FileNotFoundError
    else if bool_decide (is_Some (below dir dst)) then Fail FileExistsError
    else Done (move_tree dir dst fs)
  else
    match fs !! src with
    | None => Fail FileNotFoundError
    | Some text =>
        if parent_exists dst then Done (<[dst := text]> (delete src fs))
        else Fail FileNotFoundError
    end.

(** [shutil.move(src, dst)]: into [dst] when [dst] is a directory, onto
    [dst] otherwise.  The result is the files after the call and the
    exception, if one is raised.  When a regular file has to be copied
    to another file system and the copy fails, the destination is left
    with the characters written so far and the source stays.  (For a
    directory the move is taken to stay on one file system.) *)
Definition fs_move (how : string → string → crossing) (fs : gmap string string)
    (src dst : string) : gmap string string * option oserror :=
  let real_dst :=
    if isdir dst then path_join dst (basename (rstrip_slash src)) else dst in
  if isdir dst && path_exists fs real_dst then (fs, Some FileExistsError)
  else
    match fs_rename fs src real_dst with
    | Fail e => (fs, Some e)
    | Done moved =>
        match fs !! src, how src real_dst with
        | Some text, OtherDeviceFails written =>
            if isdir src || bool_decide (src = real_dst) then (moved, None)
            else (<[real_dst := String.substring 0 written text]> fs,
                  Some DeviceError)
        | _, _ => (moved, None)
        end
    end.

(** The loop of [tempfile]: the first of the drawn names that is not
    taken is created, empty, in the directory of temporary files, or
    where a prefix with a directory part puts it; that directory has to
    exist. *)
Fixpoint mkstemp (names : list string) (prefix suffix : string)
    (fs : gmap string string) : io_result (string * list string * gmap string string) :=
  match names with
  | [] => Fail FileExistsError
  | name :: names' =>
      let file := path_join tmpdir (prefix +:+ name +:+ suffix) in
      if path_exists fs file then mkstemp names' prefix suffix fs
      else if isdir tmpdir && parent_exists file
      then Done (file, names', <[file := ""]> fs)
      else Fail FileNotFoundError
  end.

(** [create_tmp_file(prefix, suffix, delete=False)]; the result is the
    [name] of the file object. *)
Definition create_tmp_file (prefix suffix : string) : M string :=
  λ s, match mkstemp (rand s) prefix suffix (files s) with
       | Done (file, names', fs') =>
           (Ok file, set_rand names' (set_files (λ _, fs') s))
       | Fail _ => (Raise (NotesErr UnableToCreateTempFile), s)
       end.

(** [dir_exists(dirname)] *)
Definition dir_exists (dirname : string) : M bool :=
  ret (isdir dirname).

(** [read_file(filename)] *)
Definition read_file (filename : string) : M string :=
  λ s, match fs_read (files s) filename with
       | Done text => (Ok text, s)
       | Fail _ => (Raise (NotesErr (FailedToReadFile filename)), s)
       end.

(** [rename_file(src_file, dest_file)] *)
Definition rename_file (src_file dest_file : string) : M bool :=
  λ s, match fs_move (device s) (files s) src_file dest_file with
       | (fs', None) => (Ok true, set_files (λ _, fs') s)
       | (fs', Some _) =>
           (Raise (NotesErr (FailedToRename src_file dest_file)),
            set_files (λ _, fs') s)
       end.

(** [write_data_to_file(filename, data)] *)
Definition write_data_to_file (filename data : string) : M bool :=
  λ s, let write_arg := path_exists (files s) filename in
       match fs_write (files s) filename write_arg data with
       | Done fs' => (Ok true, set_files (λ _, fs') s)
       | Fail _ => (Raise (NotesErr (FailedToWrite filename)), s)
       end.

(** [prepend_data_to_file(filename, data)] *)
Definition prepend_data_to_file (filename data : string) : M bool :=
  tmp_file <- create_tmp_file "notes." ".md" ;;
  write_data_to_file tmp_file data ;;;
  ex <- gets (λ s, path_exists (files s) filename) ;;
  (if ex : bool then
     notes_data <- read_file filename ;;
     write_data_to_file tmp_file notes_data
   else ret true) ;;;
  rename_file tmp_file filename ;;;
  ret true.

(** ** Templates *)

(** [template_file(template_file)] *)
Definition template_file (template_file : option string) : M string :=
  tf <- match given template_file with
        | Some tf => ret tf
        | None => getitem (cfg_default_template_file configs) "default_template_file"
        end ;;
  ex <- gets (λ s, path_exists (files s) tf) ;;
  if ex : bool then ret tf else raise (NotesErr (TemplateFileNotFound tf)).

(** [get_template(template_file)]; the template object is its name and
    its text. *)
Definition get_template (template_file : string) : M (string * string) :=
  template_contents <- read_file template_file ;;
  if jinja_compiles jinja template_contents
  then ret (template_file, template_contents)
  else raise (NotesErr (FailedToReadTemplate template_file)).

(** [render_template(template, template_data)] for the data
    [{'note': note, 'content_type': content_type}]. *)
Definition render_template (template : string * string)
    (note : gmap string val) (content_type : string) : M string :=
  h <- gets heap ;;
  match jinja_render jinja template.2 note content_type h with
  | Some text => ret text
  | None => raise (NotesErr (FailedToRenderTemplate template.1))
  end.

(** [render_note(template_file, note, content_type)] *)
Definition render_note (template_file_arg : option string)
    (note_arg : option (gmap string val)) (content_type_arg : option string)
    : M string :=
  ct <- content_type content_type_arg ;;
  n <- match note_arg with
       | Some n => if decide (n = ∅) then note PyNone PyNone PyNone None None PyNone []
                   else ret n
       | None => note PyNone PyNone PyNone None None PyNone []
       end ;;
  tf <- template_file template_file_arg ;;
  template <- get_template tf ;;
  render_template template n ct.

(** ** Orchestrator *)

(** [notes_file(notes_file)] *)
Definition notes_file (notes_file : option string) : M string :=
  nf <- match given notes_file with
        | Some nf => ret nf
        | None =>
            match cfg_notes_file configs with
            | Some nf => ret nf
            | None => raise (NotesErr PathToNotesFileNotDefined)
            end
        end ;;
  let notes_dir := dirname nf in
  ok <- dir_exists notes_dir ;;
  if ok : bool then ret nf else raise (NotesErr (NotesDirDoesNotExist notes_dir)).

(** What [take_note] returns: the rendered text, or the writer's [True]. *)
Inductive taken :=
  | Rendered (text : string)
  | Written (ok : bool).

(** [take_note(note, notes_file, append, content_type, template_file,
    dryrun)] *)
Definition take_note (note_arg : option (gmap string val))
    (notes_file_arg : option string) (append : bool)
    (content_type_arg template_file_arg : option string) (dryrun : bool)
    : M taken :=
  nf <- match given notes_file_arg with
        | Some nf => ret nf
        | None => notes_file notes_file_arg
        end ;;
  rendered_note <- render_note template_file_arg note_arg content_type_arg ;;
  if dryrun then ret (Rendered rendered_note)
  else if append then ok <- write_data_to_file nf rendered_note ;; ret (Written ok)
  else ok <- prepend_data_to_file nf rendered_note ;; ret (Written ok).

End NotesBase.

(** ** Loading the configuration *)

Section Configs.

(** The parser of YAML and the directories that exist. *)
Variable yaml_safe_load : string → yaml_result.
Variable isdir : string → bool.

(** [get_yaml_data(yaml_file)] *)
Definition get_yaml_data (yaml_file : string) : M (option config) :=
  ex <- gets (λ s, path_exists isdir (files s) yaml_file) ;;
  if negb ex then ret None
  else
    try_except
      (λ s, match fs_read isdir (files s) yaml_file with
            | Done text =>
                match yaml_safe_load text with
                | YamlData yaml_data => (Ok yaml_data, s)
                | YamlRaises => (Raise YAMLError, s)
                end
            | Fail e => (Raise (OSError e), s)
            end)
      (λ _, ret None).

(** [get_configs(config_file, **kwargs)] *)
Definition get_configs (config_file : option string) (kwargs : config) : M config :=
  let default_config_filename := ".notes_config.yaml" in
  let config_file := default default_config_filename (given config_file) in
  configs <- try_except
               (d <- get_yaml_data config_file ;; ret (default empty_config d))
               (λ _, raise (NotesErr (UnableToGetConfigData config_file))) ;;
  ret (config_update configs kwargs).

End Configs.

(** ** Flattening a list *)

(** The values [flattened_list] is given: scalars and lists of values. *)
#[warnings="-register-all"]
Inductive pyobj :=
  | Atom (a : scalar)
  | Seq (items : list pyobj).

(** The characters of a string, each a string of its own. *)
Fixpoint characters (text : string) : list pyobj :=
  match text with
  | EmptyString => []
  | String c rest => Atom (PyStr (String c "")) :: characters rest
  end.

(** [iter(x)]: what a value yields when it is iterated; scalars other
    than strings cannot be iterated. *)
Definition iterate (x : pyobj) : option (list pyobj) :=
  match x with
  | Seq items => Some items
  | Atom (PyStr text) => Some (characters text)
  | Atom _ => None
  end.

(** [type(x).__name__] *)
Definition type_name_of (x : pyobj) : string :=
  match x with
  | Seq _ => "list"
  | Atom a => type_name a
  end.

(** What [flattened_list] gives: a list, or the TypeError
    "'T' object is not iterable" with the name of the type. *)
Inductive flattened :=
  | Flat (items : list pyobj)
  | NotIterable (type_of_object : string).

(** The list of [itertools.chain] over the elements: the items of each
    element in turn; the first element that cannot be iterated raises. *)
Fixpoint chain (xs : list pyobj) : flattened :=
  match xs with
  | [] => Flat []
  | x :: rest =>
      match iterate x with
      | None => NotIterable (type_name_of x)
      | Some items =>
          match chain rest with
          | Flat more => Flat (items ++ more)
          | NotIterable t => NotIterable t
          end
      end
  end.

(** [flattened_list(nested_list)] *)
Definition flattened_list (nested_list : list pyobj) : flattened :=
  let flattened_list :=
    foldl (λ acc element, acc ++ [element]) [] nested_list in
  chain flattened_list.

(** ** Reading from the terminal *)

(** The terminal: the characters not read yet, and the lines printed. *)
Record console := mkConsole {
  stdin : string;
  stdout : list string
}.

(** The characters up to and including the next newline, at most [limit]
    of them when there is a limit, and the characters left. *)
Fixpoint readline_upto (limit : option nat) (input : string) : string * string :=
  match input with
  | EmptyString => ("", "")
  | String c rest =>
      match limit with
      | Some O => ("", input)
      | _ =>
          if decide (c = newline) then (String c "", rest)
          else
            let '(line, remaining) := readline_upto (Nat.pred <$> limit) rest in
            (String c line, remaining)
      end
  end.

(** [sys.stdin.readline(size)]; a negative size is no limit. *)
Definition readline (size : Z) (input : string) : string * string :=
  readline_upto (if decide (size < 0) then None else Some (Z.to_nat size)) input.

(** Whether the text read ends the input: the line EOF, the line with a
    single dot, or nothing at all. *)
Definition ends_input (input_buffer : string) : bool :=
  bool_decide (input_buffer ∈ [ "EOF" +:+ String newline ""; "." +:+ String newline ""; "" ]).

(** The loop of [get_user_input], for at most [steps] reads: the text
    gathered and the characters left, or [None] when the reads allowed
    are used up before the loop ends. *)
Fixpoint input_loop (steps : nat) (buffer_size : Z) (user_input input : string)
    : option (string * string) :=
  match steps with
  | O => None
  | S steps' =>
      let '(input_buffer, remaining) := readline buffer_size input in
      if ends_input input_buffer then Some (user_input, remaining)
      else input_loop steps' buffer_size (user_input +:+ input_buffer) remaining
  end.

Definition prompt : string :=
  "Press CTRL-D (^D) or send 'EOF' to terminate input...".

(** [get_user_input(buffer_size)], without the interrupt from the
    keyboard.  Every read that does not end the loop takes a character,
    so one read more than there are characters is enough. *)
Definition get_user_input (buffer_size : Z) (c : console) : option (string * console) :=
  match input_loop (S (String.length (stdin c))) buffer_size "" (stdin c) with
  | Some (user_input, remaining) =>
      Some (user_input, mkConsole remaining (stdout c ++ [prompt]))
  | None => None
  end.

(** The text of some lines typed one after the other, each closed by a
    newline. *)
Definition typed (lines : list string) : string :=
  foldr (λ line text, line +:+ String newline text) "" lines.

(** Some texts one after the other. *)
Definition joined (texts : list string) : string :=
  foldr String.append "" texts.

(** Whether [readline(buffer_size)] takes a line that has no newline
    inside, and the newline that closes it, in one read. *)
Definition read_whole (buffer_size : Z) (line : string) : Prop :=
  (newline ∉ String.list_ascii_of_string line)
  ∧ (buffer_size < 0 ∨ Z.of_nat (String.length line) < buffer_size).

(** ** The words of the specification *)

(** The normal form of a tag, as the specification words it: the string
    form of the element, with [#] before it when the hashtag option is on
    and the string form does not start with [#] already. *)
Definition normalized (auto_prepend_hashtag : bool) (tag : scalar) : scalar :=
  let text := py_str tag in
  PyStr (if auto_prepend_hashtag && negb (String.prefix "#" text)
         then "#" +:+ text else text).

(** The hashtag option, when the configuration has it. *)
Definition hashtag_option (configs : config) : bool :=
  default false (cfg_auto_prepend_hashtag configs).

(** The timestamp that [note] stores in [self.date]. *)
Definition resolved_date (now : datetime) (date : scalar) : scalar :=
  if truthy date then date else PyStr (strftime now).

(** An optional list argument that is absent or has no element. *)
Definition no_elements (s : state) (arg : option loc) : Prop :=
  match arg with
  | None => True
  | Some l => heap s !! l = Some []
  end.

(** A computation that leaves the files and the supply of temporary names
    as they are, whatever it returns or raises. *)
Definition keeps_files {A} (c : M A) : Prop :=
  ∀ s, files (c s).2 = files s ∧ rand (c s).2 = rand s.

(** A computation that raises nothing but the exceptions in [allowed]. *)
Definition raises_only {A} (allowed : exn → Prop) (c : M A) : Prop :=
  ∀ s e s', c s = (Raise e, s') → allowed e.

(** The exceptions [take_note] lets through when the destination and the
    template are passed to it: the error of the notes, and the lookup of
    the default content type when none is passed and none is
    configured. *)
Definition notes_failure (configs : config) (content_type_arg : option string)
    (e : exn) : Prop :=
  (∃ msg, e = NotesErr msg)
  ∨ (e = KeyError "default_content_type"
     ∧ given content_type_arg = None
     ∧ cfg_default_content_type configs = None).

(** The name [create_tmp_file] gives the temporary file, when it makes
    one. *)
Definition tmp_name (isdir : string → bool) (tmpdir prefix suffix : string)
    (s : state) : option string :=
  match mkstemp isdir tmpdir (rand s) prefix suffix (files s) with
  | Done (file, _, _) => Some file
  | Fail _ => None
  end.

(** The extra keyword fields of [note] as a mapping; of two fields with
    one key the later counts. *)
Definition kwargs_map (kwargs : list (string * val)) : gmap string val :=
  foldl (λ acc kv, <[kv.1 := kv.2]> acc) ∅ kwargs.

(** The names Python binds itself in a call of [note]: a keyword with
    one of these names goes to the parameter (or is refused), never into
    [**kwargs]. *)
Definition note_parameters : list string :=
  ["self"; "date"; "comment"; "content"; "tags"; "urls"; "header"].

(** Extra keyword fields as a call can pass them: no key twice, and no
    key that names a parameter. *)
Definition keyword_fields (kwargs : list (string * val)) : Prop :=
  NoDup kwargs.*1 ∧ Forall (λ k, k ∉ note_parameters) kwargs.*1.

(** The value of a key of the configuration once the keyword overrides
    are laid over what the file gave: the override when there is one. *)
Definition overridden {A} (key : config → option A) (base kwargs : config)
    : option A :=
  match key kwargs with
  | Some v => Some v
  | None => key base
  end.

(** The path [take_note] writes to: the argument when it is given, the
    configured [notes_file] otherwise. *)
Definition destination (configs : config) (notes_file_arg : option string)
    : option string :=
  match given notes_file_arg with
  | Some nf => Some nf
  | None => cfg_notes_file configs
  end.

(** A text without carriage return: a text-mode read gives it back as it
    is. *)
Definition no_carriage_return (text : string) : Prop :=
  carriage_return ∉ String.list_ascii_of_string text.

(** A path without a slash. *)
Definition bare_name (p : string) : Prop :=
  Forall (λ c, c ≠ slash) (String.list_ascii_of_string p).

(** ** Concrete data for the examples *)

Definition nov4 : datetime := mkDatetime Wed Nov 4 13 7 0 "PST" 2026.

(** An engine for templates without placeholders: every text compiles and
    renders to itself. *)
Definition literal_engine : engine :=
  mkEngine (λ _, true) (λ text _ _ _, Some text).

(** A parser that rejects the text with an unclosed bracket and reads any
    other text as an empty document. *)
Definition sample_yaml (text : string) : yaml_result :=
  if String.eqb text "tags: [" then YamlRaises else YamlData None.

(** Only the root and [/tmp] exist as directories. *)
Definition sample_isdir (p : string) : bool :=
  String.eqb p "/" || String.eqb p "/tmp".

Definition all_on : config :=
  mkConfig (Some "text") (Some "/tmp/note.j2") (Some true) (Some true)
           (Some "/tmp/notes.md").

(** ** Reasoning in the monad *)

Lemma bind_ok {A B} (c : M A) (k : A → M B) s b s' :
  bind c k s = (Ok b, s') ↔ ∃ a s1, c s = (Ok a, s1) ∧ k a s1 = (Ok b, s').
Proof.
  unfold bind. split.
  - destruct (c s) as [[a|e] s1]; [eauto | discriminate].
  - intros (a & s1 & -> & Hk). exact Hk.
Qed.

Lemma bind_run {A B} (c : M A) (k : A → M B) s a s1 :
  c s = (Ok a, s1) → bind c k s = k a s1.
Proof. unfold bind. intros ->. reflexivity. Qed.

Lemma bind_raise {A B} (c : M A) (k : A → M B) s e s1 :
  c s = (Raise e, s1) → bind c k s = (Raise e, s1).
Proof. unfold bind. intros ->. reflexivity. Qed.

(** [run H] steps over the first computation of a sequence with its
    result [H]. *)
Tactic Notation "run" constr(H) := rewrite (bind_run _ _ _ _ _ H).
Tactic Notation "run" constr(H) "in" hyp(H') := rewrite (bind_run _ _ _ _ _ H) in H'.

Create HintDb keeps discriminated.

Lemma keeps_ret {A} (a : A) : keeps_files (ret a).
Proof. intros s. done. Qed.

Lemma keeps_raise {A} e : keeps_files (@raise A e).
Proof. intros s. done. Qed.

Lemma keeps_gets {A} (f : state → A) : keeps_files (gets f).
Proof. intros s. done. Qed.

Lemma keeps_bind {A B} (c : M A) (k : A → M B) :
  keeps_files c → (∀ a, keeps_files (k a)) → keeps_files (bind c k).
Proof.
  intros Hc Hk s. unfold bind. specialize (Hc s).
  destruct (c s) as [[a|e] s1]; simpl in *; [|done].
  destruct (Hk a s1) as [-> ->]. done.
Qed.

Lemma keeps_set_heap f : keeps_files (modify (set_heap f)).
Proof. intros s. done. Qed.

Lemma keeps_set_self_date d : keeps_files (modify (set_self_date d)).
Proof. intros s. done. Qed.

Lemma keeps_alloc xs : keeps_files (alloc xs).
Proof. intros s. done. Qed.

Lemma keeps_load l : keeps_files (load l).
Proof. intros s. unfold load. by destruct (heap s !! l). Qed.

Lemma keeps_getitem {A} (field : option A) key : keeps_files (getitem field key).
Proof. destruct field; intros s; done. Qed.

Lemma keeps_dict_getitem d key : keeps_files (dict_getitem d key).
Proof. unfold dict_getitem. destruct (d !! key); intros s; done. Qed.

Lemma keeps_if {A} (b : bool) (c1 c2 : M A) :
  keeps_files c1 → keeps_files c2 → keeps_files (if b then c1 else c2).
Proof. by destruct b. Qed.

#[local] Hint Resolve keeps_ret keeps_raise keeps_gets keeps_set_heap
  keeps_set_self_date keeps_alloc keeps_load keeps_getitem
  keeps_dict_getitem : keeps.

Ltac keeps_step :=
  first
    [ apply keeps_bind; [| intros ?]
    | apply keeps_if
    | solve [auto with keeps]
    | match goal with |- keeps_files (match ?x with _ => _ end) => destruct x end
    | match goal with |- keeps_files (if ?x then _ else _) => destruct x end ].

Ltac keeps := repeat keeps_step.

Lemma keeps_setitem l idx v : keeps_files (setitem l idx v).
Proof. unfold setitem. keeps. Qed.

Lemma keeps_truthy_val v : keeps_files (truthy_val v).
Proof. unfold truthy_val. keeps. Qed.

Lemma keeps_or_empty_list arg : keeps_files (or_empty_list arg).
Proof. unfold or_empty_list. keeps. Qed.

Lemma keeps_for_each {A S} (xs : list A) (body : A → S → M S) acc :
  (∀ x a, keeps_files (body x a)) → keeps_files (for_each xs body acc).
Proof.
  intros Hb. revert acc. induction xs as [|x xs IH]; intros acc; simpl.
  - apply keeps_ret.
  - apply keeps_bind; [apply Hb | intros a; apply IH].
Qed.

#[local] Hint Resolve keeps_setitem keeps_truthy_val keeps_or_empty_list : keeps.

(** ** Tags *)

Lemma set_heap_id (s : state) (l : loc) (xs : list scalar) :
  heap s !! l = Some xs → set_heap <[l := xs]> s = s.
Proof.
  intros H. destruct s as [f h d r]. unfold set_heap. simpl in *.
  by rewrite insert_id.
Qed.

Lemma prefix_hash_cons (t : string) : String.prefix "#" ("#" +:+ t) = true.
Proof. simpl. by destruct t. Qed.

Lemma setitem_run l idx v xs s :
  heap s !! l = Some xs → (idx < length xs)%nat →
  setitem l idx v s = (Ok tt, set_heap <[l := <[idx := v]> xs]> s).
Proof.
  intros Hl Hi. unfold setitem, bind, load. rewrite Hl.
  destruct (decide (idx < length xs)%nat); [done | lia].
Qed.

Lemma normalized_is_str flag tag : is_str (normalized flag tag) = true.
Proof. done. Qed.

Lemma normalized_prefix tag :
  startswith_hash (normalized true tag) = ret true.
Proof.
  unfold normalized, startswith_hash. cbn [andb].
  destruct (String.prefix "#" (py_str tag)) eqn:E; cbn [negb].
  - by rewrite E.
  - by rewrite prefix_hash_cons.
Qed.

Lemma normalized_idem flag tag :
  normalized flag (normalized flag tag) = normalized flag tag.
Proof.
  unfold normalized. cbn [py_str]. f_equal.
  destruct flag; cbn [andb]; [|done].
  destruct (String.prefix "#" (py_str tag)) eqn:E; cbn [negb].
  - by rewrite E.
  - by rewrite prefix_hash_cons.
Qed.

Section Tags.

Variable configs : config.

Lemma tags_body_ok l idx tag xs s s' :
  heap s !! l = Some xs → xs !! idx = Some tag →
  tags_body configs l idx tag s = (Ok tt, s') →
  is_Some (cfg_auto_prepend_hashtag configs) ∧
  s' = set_heap <[l := <[idx := normalized (hashtag_option configs) tag]> xs]> s.
Proof.
  intros Hl Hidx. pose proof (lookup_lt_Some _ _ _ Hidx) as Hlt.
  unfold tags_body, hashtag_option, normalized.
  destruct (cfg_auto_prepend_hashtag configs) as [flag|] eqn:Hflag; simpl.
  2:{ destruct tag; simpl; unfold bind, getitem, raise; simpl;
      try (erewrite setitem_run by eassumption); discriminate. }
  intros Hrun. split; [eauto|].
  destruct tag as [ |b|n|t]; simpl in Hrun |- *.
  1-3: rewrite (bind_run _ _ _ _ _ (setitem_run _ _ _ _ _ Hl Hlt)) in Hrun;
       destruct flag; unfold bind, getitem, ret, raise in Hrun; simpl in Hrun;
       [discriminate | by inversion Hrun].
  destruct flag; unfold bind, getitem, ret in Hrun; simpl in Hrun.
  - destruct (String.prefix "#" t) eqn:E; simpl in Hrun.
    + inversion Hrun; subst. rewrite list_insert_id by done.
      by rewrite set_heap_id.
    + rewrite (setitem_run _ _ _ _ _ Hl Hlt) in Hrun. by inversion Hrun.
  - inversion Hrun; subst. rewrite list_insert_id by done.
    by rewrite set_heap_id.
Qed.

Lemma tags_loop_ok l pending : ∀ visited s s',
  heap s !! l = Some (visited ++ pending) →
  tags_loop configs l (length visited) pending s = (Ok tt, s') →
  (pending ≠ [] → is_Some (cfg_auto_prepend_hashtag configs)) ∧
  s' = set_heap
         <[l := visited ++ map (normalized (hashtag_option configs)) pending]> s.
Proof.
  induction pending as [|tag rest IH]; intros visited s s' Hl Hrun; simpl in *.
  - inversion Hrun; subst. split; [done|]. by rewrite set_heap_id.
  - apply bind_ok in Hrun as ([] & s1 & Hbody & Hrest).
    eapply tags_body_ok in Hbody as [Hflag Hs1]; [| exact Hl |].
    2:{ rewrite lookup_app_r by lia. by rewrite Nat.sub_diag. }
    subst s1. split; [done|].
    assert (<[length visited := normalized (hashtag_option configs) tag]>
              (visited ++ tag :: rest)
            = (visited ++ [normalized (hashtag_option configs) tag]) ++ rest) as Hins.
    { rewrite insert_app_r_alt by lia. rewrite Nat.sub_diag. simpl.
      by rewrite <- app_assoc. }
    rewrite Hins in Hrest.
    replace (S (length visited))
      with (length (visited ++ [normalized (hashtag_option configs) tag])) in Hrest
      by (rewrite length_app; simpl; lia).
    apply IH in Hrest as [_ Hs'].
    2:{ simpl. by rewrite lookup_insert_eq. }
    subst s'.
    destruct s as [f h d r]. unfold set_heap. simpl.
    rewrite insert_insert_eq. by rewrite <- app_assoc.
Qed.

(** On a list that is in normal form the loop changes nothing. *)
Lemma tags_loop_fixed l flag (ys : list scalar) : ∀ idx s,
  cfg_auto_prepend_hashtag configs = Some flag →
  tags_loop configs l idx (map (normalized flag) ys) s = (Ok tt, s).
Proof.
  induction ys as [|y ys IH]; intros idx s Hflag; simpl; [done|].
  assert (tags_body configs l idx (normalized flag y) s = (Ok tt, s)) as Hbody.
  { unfold tags_body. rewrite Hflag. cbn [normalized is_str negb].
    unfold bind at 1. cbn [ret]. unfold bind at 1. cbn [getitem ret].
    destruct flag; [|done].
    by rewrite normalized_prefix. }
  rewrite (bind_run _ _ _ _ _ Hbody). by apply IH.
Qed.

(** With the hashtag option on, the loop body raises at an element that is
    not a string, after it has stored the string form of the element. *)
Lemma tags_body_non_string_in l idx tag xs s :
  cfg_auto_prepend_hashtag configs = Some true → is_str tag = false →
  heap s !! l = Some xs → (idx < length xs)%nat →
  tags_body configs l idx tag s
  = (Raise (AttributeError (type_name tag) "startswith"),
     set_heap <[l := <[idx := PyStr (py_str tag)]> xs]> s).
Proof.
  intros Hflag Hstr Hl Hlt. unfold tags_body. rewrite Hflag, Hstr. cbn [negb].
  rewrite (bind_run _ _ _ _ _ (setitem_run _ _ _ _ _ Hl Hlt)).
  unfold bind, getitem, ret. by destruct tag.
Qed.

(** The loop over the elements held at the start is the loop as the
    iterator runs it, for any bound that covers the elements left. *)
Lemma tags_loop_iter l pending : ∀ visited s steps,
  heap s !! l = Some (visited ++ pending) → (length pending ≤ steps)%nat →
  tags_iter configs l (length visited) steps s
  = tags_loop configs l (length visited) pending s.
Proof.
  induction pending as [|tag rest IH]; intros visited s steps Hl Hsteps.
  - destruct steps as [|steps]; [done|]. simpl. unfold bind, load. rewrite Hl.
    rewrite app_nil_r. by rewrite lookup_ge_None_2.
  - destruct steps as [|steps]; [simpl in Hsteps; lia|].
    simpl. unfold bind at 1. unfold load. rewrite Hl.
    assert ((visited ++ tag :: rest) !! length visited = Some tag) as Hidx.
    { rewrite lookup_app_r by lia. by rewrite Nat.sub_diag. }
    rewrite Hidx. unfold bind.
    destruct (tags_body configs l (length visited) tag s) as [[[]|e] s1] eqn:Hbody;
      [|done].
    eapply tags_body_ok in Hbody as [_ Hs1]; [| exact Hl | exact Hidx].
    subst s1.
    replace (S (length visited))
      with (length (visited ++ [normalized (hashtag_option configs) tag]))
      by (rewrite length_app; simpl; lia).
    apply IH; [|simpl in Hsteps; lia].
    simpl. rewrite lookup_insert_eq. f_equal.
    rewrite insert_app_r_alt by lia. rewrite Nat.sub_diag. simpl.
    by rewrite <- app_assoc.
Qed.

(** With the hashtag option on, the body succeeds on a string. *)
Lemma tags_body_string idx t xs l s :
  cfg_auto_prepend_hashtag configs = Some true →
  heap s !! l = Some xs → xs !! idx = Some (PyStr t) →
  tags_body configs l idx (PyStr t) s
  = (Ok tt, set_heap <[l := <[idx := normalized true (PyStr t)]> xs]> s).
Proof.
  intros Hflag Hl Hidx. pose proof (lookup_lt_Some _ _ _ Hidx) as Hlt.
  unfold tags_body, normalized. rewrite Hflag. simpl.
  unfold bind, getitem, ret. simpl.
  destruct (String.prefix "#" t) eqn:E; simpl.
  - rewrite list_insert_id by done. by rewrite set_heap_id.
  - by rewrite (setitem_run _ _ _ _ _ Hl Hlt).
Qed.

(** With the hashtag option on, the loop raises AttributeError as soon as
    it meets an element that is not a string. *)
Lemma tags_loop_non_string l pending : ∀ visited s,
  cfg_auto_prepend_hashtag configs = Some true →
  heap s !! l = Some (visited ++ pending) →
  Exists (λ tag, is_str tag = false) pending →
  ∃ ty s',
    tags_loop configs l (length visited) pending s
    = (Raise (AttributeError ty "startswith"), s').
Proof.
  induction pending as [|tag rest IH]; intros visited s Hflag Hl Hex.
  - by apply Exists_nil in Hex.
  - assert ((visited ++ tag :: rest) !! length visited = Some tag) as Hidx.
    { rewrite lookup_app_r by lia. by rewrite Nat.sub_diag. }
    pose proof (lookup_lt_Some _ _ _ Hidx) as Hlt.
    simpl. destruct (is_str tag) eqn:Hstr.
    + destruct tag as [| | |t]; try discriminate.
      apply Exists_cons in Hex as [Hex|Hex]; [simpl in Hex; discriminate|].
      run (tags_body_string _ _ _ _ _ Hflag Hl Hidx).
      replace (S (length visited))
        with (length (visited ++ [normalized true (PyStr t)]))
        by (rewrite length_app; simpl; lia).
      apply IH; [done| |done].
      simpl. rewrite lookup_insert_eq. f_equal.
      rewrite insert_app_r_alt by lia. rewrite Nat.sub_diag. simpl.
      by rewrite <- app_assoc.
    + eexists _, _. apply bind_raise.
      by apply (tags_body_non_string_in _ _ _ _ _ Hflag Hstr Hl Hlt).
Qed.

Lemma or_empty_list_ok arg s l s' :
  or_empty_list arg s = (Ok l, s') →
  (∃ xs, arg = Some l ∧ heap s !! l = Some xs ∧ xs ≠ [] ∧ s' = s)
  ∨ (no_elements s arg ∧ l = fresh (dom (heap s)) ∧ s' = set_heap <[l := []]> s).
Proof.
  unfold or_empty_list, no_elements. destruct arg as [l0|].
  - unfold bind, load. destruct (heap s !! l0) as [[|x xs]|] eqn:Hl; [| |done].
    + unfold alloc. intros [= <- <-]. by right.
    + intros [= <- <-]. left. by exists (x :: xs).
  - unfold alloc. intros [= <- <-]. by right.
Qed.

End Tags.

(** With the hashtag option on, [tags] raises AttributeError on every
    list that has an element that is not a string. *)
Lemma tags_non_string_raises configs l xs s :
  cfg_auto_prepend_hashtag configs = Some true →
  heap s !! l = Some xs → Exists (λ tag, is_str tag = false) xs →
  ∃ ty s', tags configs (Some l) s = (Raise (AttributeError ty "startswith"), s').
Proof.
  intros Hflag Hl Hex. unfold tags.
  assert (load l s = (Ok xs, s)) as Hload by (unfold load; by rewrite Hl).
  assert (or_empty_list (Some l) s = (Ok l, s)) as Hor.
  { unfold or_empty_list. run Hload. destruct xs; [|done]. by apply Exists_nil in Hex. }
  run Hor. run Hload.
  destruct (tags_loop_non_string configs l xs [] s Hflag Hl Hex) as (ty & s' & Hloop).
  exists ty, s'. by apply bind_raise.
Qed.

(** When [tags] runs its loop as the iterator does, reading the list at
    each step, the result is the same. *)
Lemma tags_iterates_live configs l xs s :
  heap s !! l = Some xs →
  tags_iter configs l 0 (length xs) s = tags_loop configs l 0 xs s.
Proof. intros Hl. by apply (tags_loop_iter configs l xs []). Qed.

(** C3: at the list ["a", 1, "#b"] with the hashtag option on, [tags]
    does not return the mapping with ["#a", "#1", "#b"]: it raises
    AttributeError at the integer, which has no [startswith], and leaves
    the list as ["#a", "1", "#b"]. *)
Theorem tags_mixed_list_raises :
  tags all_on (Some 1%positive)
    (mkState ∅ {[ 1%positive := [PyStr "a"; PyInt 1; PyStr "#b"] ]} PyNone [])
  = (Raise (AttributeError "int" "startswith"),
     mkState ∅ {[ 1%positive := [PyStr "#a"; PyStr "1"; PyStr "#b"] ]} PyNone []).
Proof. vm_compute. reflexivity. Qed.

(** C10: when [tags] returns for a list object with at least one element,
    the mapping it returns holds that very object under the key 'tags',
    and the state differs from the one before only in that this object now
    holds the normal forms of its former elements: the caller's list is
    overwritten, no list is created. *)
Theorem tags_in_place (configs : config) (l : loc) (xs : list scalar)
    (s s' : state) (d : gmap string val) :
  heap s !! l = Some xs → xs ≠ [] →
  tags configs (Some l) s = (Ok d, s') →
  d = {[ "tags" := VList l ]}
  ∧ s' = set_heap <[l := map (normalized (hashtag_option configs)) xs]> s.
Proof.
  intros Hl Hne Hrun. unfold tags in Hrun.
  apply bind_ok in Hrun as (l' & s1 & Hor & Hrun).
  apply or_empty_list_ok in Hor
    as [(xs' & [= <-] & _ & _ & ->) | (Hno & _)].
  2:{ simpl in Hno. congruence. }
  apply bind_ok in Hrun as (ys & s1 & Hload & Hrun).
  unfold load in Hload. rewrite Hl in Hload. injection Hload as <- <-.
  apply bind_ok in Hrun as ([] & s2 & Hloop & Hret).
  apply (tags_loop_ok configs l xs []) in Hloop as [_ ->]; [|done].
  by injection Hret as <- <-.
Qed.

Lemma tags_in_place_witness :
  let s := mkState ∅ {[ 1%positive := [PyStr "a"; PyStr "#b"] ]} PyNone [] in
  let s' := mkState ∅ {[ 1%positive := [PyStr "#a"; PyStr "#b"] ]} PyNone [] in
  heap s !! 1%positive = Some [PyStr "a"; PyStr "#b"]
  ∧ [PyStr "a"; PyStr "#b"] ≠ []
  ∧ tags all_on (Some 1%positive) s = (Ok {[ "tags" := VList 1%positive ]}, s')
  ∧ {[ "tags" := VList 1%positive ]} = ({[ "tags" := VList 1%positive ]} : gmap string val)
  ∧ s' = set_heap
           <[1%positive := map (normalized (hashtag_option all_on)) [PyStr "a"; PyStr "#b"]]> s.
Proof.
  intros s s'.
  assert (heap s !! 1%positive = Some [PyStr "a"; PyStr "#b"]) as H1
    by (vm_compute; reflexivity).
  assert ([PyStr "a"; PyStr "#b"] ≠ []) as H2 by discriminate.
  assert (tags all_on (Some 1%positive) s
          = (Ok {[ "tags" := VList 1%positive ]}, s')) as H3
    by (vm_compute; reflexivity).
  split; [exact H1|]. split; [exact H2|]. split; [exact H3|].
  exact (tags_in_place all_on 1%positive _ s s' _ H1 H2 H3).
Defined.

(** The list is overwritten in place also when [tags] raises: the state
    reached holds the elements stored up to the failure. *)
Lemma tags_in_place_on_failure :
  let s := mkState ∅ {[ 1%positive := [PyInt 7] ]} PyNone [] in
  tags all_on (Some 1%positive) s
  = (Raise (AttributeError "int" "startswith"),
     set_heap <[1%positive := [PyStr "7"]]> s).
Proof. vm_compute. reflexivity. Qed.

(** On a list in normal form [tags] returns the list as it is. *)
Lemma tags_on_normal_form configs l flag (ys : list scalar) s :
  heap s !! l = Some (map (normalized flag) ys) → ys ≠ [] →
  cfg_auto_prepend_hashtag configs = Some flag →
  tags configs (Some l) s = (Ok {[ "tags" := VList l ]}, s).
Proof.
  intros Hl Hne Hflag. unfold tags.
  assert (load l s = (Ok (map (normalized flag) ys), s)) as Hload
    by (unfold load; by rewrite Hl).
  assert (or_empty_list (Some l) s = (Ok l, s)) as Hor.
  { unfold or_empty_list. rewrite (bind_run _ _ _ _ _ Hload).
    by destruct ys. }
  rewrite (bind_run _ _ _ _ _ Hor), (bind_run _ _ _ _ _ Hload).
  by rewrite (bind_run _ _ _ _ _ (tags_loop_fixed configs l flag ys 0%nat s Hflag)).
Qed.

(** C8: when [tags] returns, applying [tags] again to the list it returned
    returns as well, and the list returned then has the same elements. *)
Theorem tags_idempotent (configs : config) (arg : option loc)
    (s s1 : state) (d : gmap string val) :
  tags configs arg s = (Ok d, s1) →
  ∃ l1 ys,
    d = {[ "tags" := VList l1 ]} ∧ heap s1 !! l1 = Some ys
    ∧ ∃ l2 s2,
        tags configs (Some l1) s1 = (Ok {[ "tags" := VList l2 ]}, s2)
        ∧ heap s2 !! l2 = Some ys.
Proof.
  intros Hrun. unfold tags in Hrun.
  apply bind_ok in Hrun as (l1 & s0 & Hor & Hrun).
  apply bind_ok in Hrun as (xs & s0' & Hload & Hrun).
  apply bind_ok in Hrun as ([] & s2 & Hloop & Hret).
  injection Hret as <- <-.
  unfold load in Hload. destruct (heap s0 !! l1) as [xs'|] eqn:Hl1; [|done].
  injection Hload as <- <-.
  apply (tags_loop_ok configs l1 xs' []) in Hloop as [Hflag ->]; [|done].
  exists l1, (map (normalized (hashtag_option configs)) xs').
  split; [done|]. simpl. rewrite lookup_insert_eq. split; [done|].
  destruct xs' as [|x xs'].
  - (* nothing to normalise: the second call makes a list of its own *)
    eexists _, _. split.
    + unfold tags, or_empty_list, load, alloc, bind. simpl.
      rewrite lookup_insert_eq. simpl. rewrite lookup_insert_eq. simpl.
      reflexivity.
    + simpl. by rewrite lookup_insert_eq.
  - destruct Hflag as [flag Hflag]; [done|].
    unfold hashtag_option. rewrite Hflag.
    change (default false (Some flag)) with flag.
    exists l1. eexists. split.
    + apply (tags_on_normal_form configs l1 flag (x :: xs')); [|done..].
      simpl. by rewrite lookup_insert_eq.
    + simpl. by rewrite lookup_insert_eq.
Qed.

Lemma tags_idempotent_witness :
  let s := mkState ∅ {[ 1%positive := [PyStr "a"; PyStr "#b"] ]} PyNone [] in
  let s1 := mkState ∅ {[ 1%positive := [PyStr "#a"; PyStr "#b"] ]} PyNone [] in
  tags all_on (Some 1%positive) s = (Ok {[ "tags" := VList 1%positive ]}, s1)
  ∧ ∃ l1 ys,
      ({[ "tags" := VList 1%positive ]} : gmap string val) = {[ "tags" := VList l1 ]}
      ∧ heap s1 !! l1 = Some ys
      ∧ ∃ l2 s2,
          tags all_on (Some l1) s1 = (Ok {[ "tags" := VList l2 ]}, s2)
          ∧ heap s2 !! l2 = Some ys.
Proof.
  intros s s1.
  assert (tags all_on (Some 1%positive) s
          = (Ok {[ "tags" := VList 1%positive ]}, s1)) as H
    by (vm_compute; reflexivity).
  split; [exact H|].
  exact (tags_idempotent all_on (Some 1%positive) s s1 _ H).
Defined.

(** ** Header *)

Lemma truthy_append_sep (a b : string) : truthy (PyStr (a +:+ " / " +:+ b)) = true.
Proof. by destruct a. Qed.

Lemma truthy_strftime (t : datetime) : truthy (PyStr (strftime t)) = true.
Proof. unfold strftime. by destruct (dt_weekday t). Qed.

Lemma truthy_resolved_date (now : datetime) (date : scalar) :
  truthy (resolved_date now date) = true.
Proof.
  unfold resolved_date. destruct (truthy date) eqn:E; [done|].
  apply truthy_strftime.
Qed.

(** C7: with the timestamp [ts] in [self.date], [header] returns the
    mapping of 'header' to "<text> / <ts>" when the text is truthy and
    [append_date_to_header] is true, to the text itself when the option is
    false, and to the bare timestamp when no text is given. *)
Theorem header_cases (configs : config) (text : scalar) (ts : string) (s : state) :
  self_date s = PyStr ts →
  (truthy text = true → cfg_append_date_to_header configs = Some true →
     header configs text s
     = (Ok {[ "header" := VScalar (PyStr (py_str text +:+ " / " +:+ ts)) ]}, s))
  ∧ (truthy text = true → cfg_append_date_to_header configs = Some false →
       header configs text s = (Ok {[ "header" := VScalar text ]}, s))
  ∧ (truthy text = false →
       header configs text s = (Ok {[ "header" := VScalar (PyStr ts) ]}, s)).
Proof.
  intros Hdate. unfold header, bind, gets. rewrite Hdate.
  repeat split.
  - intros -> ->. reflexivity.
  - intros -> ->. reflexivity.
  - intros ->. reflexivity.
Qed.

Lemma header_cases_witness :
  let s := mkState ∅ ∅ (PyStr "Wed Nov 04 13:07:00 PST 2026") [] in
  self_date s = PyStr "Wed Nov 04 13:07:00 PST 2026"
  ∧ header all_on (PyStr "Meeting") s
    = (Ok {[ "header" := VScalar (PyStr "Meeting / Wed Nov 04 13:07:00 PST 2026") ]}, s)
  ∧ header all_on PyNone s
    = (Ok {[ "header" := VScalar (PyStr "Wed Nov 04 13:07:00 PST 2026") ]}, s).
Proof.
  intros s.
  assert (self_date s = PyStr "Wed Nov 04 13:07:00 PST 2026") as H by reflexivity.
  split; [exact H|]. split.
  - exact (proj1 (header_cases all_on (PyStr "Meeting") _ s H) eq_refl eq_refl).
  - exact (proj2 (proj2 (header_cases all_on PyNone _ s H)) eq_refl).
Defined.

(** Whatever [header] returns is a truthy header once the timestamp is. *)
Lemma header_ok configs hd s d s' :
  header configs hd s = (Ok d, s') →
  ∃ h, d = {[ "header" := VScalar h ]} ∧ s' = s
       ∧ (truthy (self_date s) = true → truthy h = true)
       ∧ (truthy hd = false → h = self_date s).
Proof.
  unfold header, bind, gets.
  destruct (truthy hd) eqn:Hhd.
  - destruct (cfg_append_date_to_header configs) as [[]|]; simpl; [| |done].
    + intros [= <- <-]. eexists. repeat split; [|done].
      intros _. apply truthy_append_sep.
    + intros [= <- <-]. eexists. repeat split; done.
  - simpl. intros [= <- <-]. eexists. repeat split; done.
Qed.

(** ** Note assembler *)

Lemma update_if_truthy_singleton key a (n : gmap string val) s :
  update_if_truthy {[ key := VScalar a ]} n s
  = (Ok (if truthy a then {[ key := VScalar a ]} ∪ n else n), s).
Proof. unfold update_if_truthy. by rewrite map_to_list_singleton. Qed.

Lemma or_empty_list_fresh arg s :
  no_elements s arg →
  or_empty_list arg s
  = (Ok (fresh (dom (heap s))), set_heap <[fresh (dom (heap s)) := []]> s).
Proof.
  destruct arg as [l|]; simpl; [|done].
  intros Hl. unfold bind, load. by rewrite Hl.
Qed.

Lemma no_elements_alloc arg s l xs :
  l = fresh (dom (heap s)) → no_elements s arg →
  no_elements (set_heap <[l := xs]> s) arg.
Proof.
  intros -> H. destruct arg as [l0|]; simpl in *; [|done].
  rewrite lookup_insert_ne; [done|].
  intros <-. apply (is_fresh (dom (heap s))). apply elem_of_dom. eauto.
Qed.

Lemma tags_fresh configs arg s :
  no_elements s arg →
  tags configs arg s
  = (Ok {[ "tags" := VList (fresh (dom (heap s))) ]},
     set_heap <[fresh (dom (heap s)) := []]> s).
Proof.
  intros H. unfold tags. rewrite (bind_run _ _ _ _ _ (or_empty_list_fresh _ _ H)).
  unfold bind, load. simpl. by rewrite lookup_insert_eq.
Qed.

Lemma urls_fresh arg s :
  no_elements s arg →
  urls arg s
  = (Ok {[ "urls" := VList (fresh (dom (heap s))) ]},
     set_heap <[fresh (dom (heap s)) := []]> s).
Proof.
  intros H. unfold urls. by rewrite (bind_run _ _ _ _ _ (or_empty_list_fresh _ _ H)).
Qed.

Lemma truthy_val_empty l s :
  heap s !! l = Some [] → truthy_val (VList l) s = (Ok false, s).
Proof. intros H. unfold truthy_val, bind, load. by rewrite H. Qed.

Lemma modify_run (f : state → state) s : modify f s = (Ok tt, f s).
Proof. reflexivity. Qed.

Lemma ret_run {A} (a : A) s : ret a s = (Ok a, s).
Proof. reflexivity. Qed.

Lemma resolve_date_run now date s :
  (if truthy date then ret date else t <- get_date now ;; ret (PyStr t)) s
  = (Ok (resolved_date now date), s).
Proof. unfold resolved_date. by destruct (truthy date). Qed.

Lemma dict_getitem_singleton key (v : val) s :
  dict_getitem {[ key := v ]} key s = (Ok v, s).
Proof. unfold dict_getitem. by rewrite lookup_singleton_eq. Qed.

Lemma fresh_after_alloc (h : gmap loc (list scalar)) (l : loc) xs :
  fresh (dom (<[l := xs]> h)) ≠ l.
Proof.
  intros E. apply (is_fresh (dom (<[l := xs]> h))). rewrite E.
  apply elem_of_dom. rewrite lookup_insert_eq. eauto.
Qed.


(** The loop of [note] over the three builder results. *)
Lemma assemble_run c ct h s :
  for_each [ {[ "comment" := VScalar c ]}; {[ "content" := VScalar ct ]};
             {[ "header" := VScalar h ]} ] update_if_truthy ∅ s
  = (Ok (let n1 := if truthy c then {[ "comment" := VScalar c ]} ∪ ∅ else ∅ in
         let n2 := if truthy ct then {[ "content" := VScalar ct ]} ∪ n1 else n1 in
         if truthy h then {[ "header" := VScalar h ]} ∪ n2 else n2), s).
Proof.
  cbn [for_each].
  run (update_if_truthy_singleton "comment" c ∅ s).
  match goal with
  | |- context [update_if_truthy _ ?n] => run (update_if_truthy_singleton "content" ct n s)
  end.
  match goal with
  | |- context [update_if_truthy _ ?n] => run (update_if_truthy_singleton "header" h n s)
  end.
  reflexivity.
Qed.

(** Without header text, tags and urls, [note] returns the header with the
    timestamp, joined by the comment and the content that are truthy. *)
Lemma note_without_header configs now date c ct tg ur hd s :
  truthy hd = false → no_elements s tg → no_elements s ur →
  ∃ s',
    note configs now date c ct tg ur hd [] s
    = (Ok ({[ "header" := VScalar (resolved_date now date) ]}
           ∪ ((if truthy ct then {[ "content" := VScalar ct ]} else ∅)
              ∪ (if truthy c then {[ "comment" := VScalar c ]} else ∅))), s').
Proof.
  intros Hhd Htg Hur. unfold note.
  run (resolve_date_run now date s). run (modify_run (set_self_date (resolved_date now date)) s).
  set (s1 := set_self_date (resolved_date now date) s).
  unfold comment, content. run (ret_run ({[ "comment" := VScalar c ]} : gmap string val) s1).
  run (ret_run ({[ "content" := VScalar ct ]} : gmap string val) s1).
  assert (header configs hd s1
          = (Ok {[ "header" := VScalar (resolved_date now date) ]}, s1)) as Hh.
  { unfold header, bind, gets. by rewrite Hhd. }
  run Hh.
  assert (no_elements s1 tg) as Htg1 by (by destruct tg).
  run (tags_fresh configs tg s1 Htg1).
  set (lt := fresh (dom (heap s1))). set (s2 := set_heap <[lt := []]> s1).
  assert (no_elements s2 ur) as Hur2.
  { apply no_elements_alloc; [done|]. by destruct ur. }
  run (urls_fresh ur s2 Hur2).
  set (lu := fresh (dom (heap s2))). set (s3 := set_heap <[lu := []]> s2).
  run (assemble_run c ct (resolved_date now date) s3).
  rewrite truthy_resolved_date. cbn [for_each].
  run (dict_getitem_singleton "tags" (VList lt) s3).
  assert (heap s3 !! lt = Some []) as Hlt.
  { subst s3 lu s2. simpl. rewrite lookup_insert_ne by apply fresh_after_alloc.
    by rewrite lookup_insert_eq. }
  run (truthy_val_empty lt s3 Hlt).
  run (dict_getitem_singleton "urls" (VList lu) s3).
  assert (heap s3 !! lu = Some []) as Hlu.
  { subst s3. simpl. by rewrite lookup_insert_eq. }
  run (truthy_val_empty lu s3 Hlu).
  exists s3. rewrite ret_run. do 2 f_equal.
  destruct (truthy ct), (truthy c);
    rewrite ?(right_id_L ∅ (∪)), ?(left_id_L ∅ (∪)); reflexivity.
Qed.

Lemma tags_shape configs arg s d s' :
  tags configs arg s = (Ok d, s') → ∃ l, d = {[ "tags" := VList l ]}.
Proof.
  unfold tags. intros H.
  apply bind_ok in H as (l & s1 & _ & H).
  apply bind_ok in H as (xs & s2 & _ & H).
  apply bind_ok in H as ([] & s3 & _ & H).
  injection H as <- _. eauto.
Qed.

Lemma urls_shape arg s d s' :
  urls arg s = (Ok d, s') → ∃ l, d = {[ "urls" := VList l ]}.
Proof.
  unfold urls. intros H.
  apply bind_ok in H as (l & s1 & _ & H).
  injection H as <- _. eauto.
Qed.

(** In any call without extra keyword fields that returns, the comment
    and the content are in the note exactly when they are truthy, and the
    header is always in it, with a truthy value. *)
Lemma note_fields configs now date c ct tg ur hd s n s' :
  note configs now date c ct tg ur hd [] s = (Ok n, s') →
  n !! "comment" = (if truthy c then Some (VScalar c) else None)
  ∧ n !! "content" = (if truthy ct then Some (VScalar ct) else None)
  ∧ ∃ h, n !! "header" = Some (VScalar h) ∧ truthy h = true.
Proof.
  unfold note. intros H.
  run (resolve_date_run now date s) in H.
  run (modify_run (set_self_date (resolved_date now date)) s) in H.
  unfold comment, content in H.
  apply bind_ok in H as (cd & s1 & [= <- <-] & H).
  apply bind_ok in H as (ctd & s1 & [= <- <-] & H).
  apply bind_ok in H as (hdd & s1 & Hh & H).
  apply header_ok in Hh as (h & -> & -> & Hh & _).
  specialize (Hh (truthy_resolved_date now date)).
  apply bind_ok in H as (td & s2 & Ht & H).
  apply tags_shape in Ht as [lt ->].
  apply bind_ok in H as (ud & s3 & Hu & H).
  apply urls_shape in Hu as [lu ->].
  run (assemble_run c ct h s3) in H. rewrite Hh in H.
  run (dict_getitem_singleton "tags" (VList lt) s3) in H.
  apply bind_ok in H as (tb & s4 & _ & H).
  run (dict_getitem_singleton "urls" (VList lu) s4) in H.
  apply bind_ok in H as (ub & s5 & _ & H).
  cbn [for_each] in H. injection H as <- _.
  repeat split; [| |exists h; split; [|done]];
    destruct ub, tb, (truthy ct), (truthy c); reflexivity.
Qed.

(** C2, as the code has it: a call of [note] without header text, tags,
    urls and extra keyword fields returns, and the note it returns has the
    header, holding the timestamp, which is truthy; it has the comment and
    the content exactly when they are truthy.  With comment and content
    empty or absent too the note is the header alone, and with a truthy
    comment only it is the comment and the header.  In any call without
    extra keyword fields that returns, comment and content are present
    exactly when truthy and the header is present and truthy. *)
Theorem note_assembly (configs : config) (now : datetime)
    (date c ct hd : scalar) (tg ur : option loc) (s : state) :
  truthy hd = false → no_elements s tg → no_elements s ur →
  let ts := resolved_date now date in
  (∃ n s',
     note configs now date c ct tg ur hd [] s = (Ok n, s')
     ∧ n !! "header" = Some (VScalar ts) ∧ truthy ts = true
     ∧ n !! "comment" = (if truthy c then Some (VScalar c) else None)
     ∧ n !! "content" = (if truthy ct then Some (VScalar ct) else None)
     ∧ n !! "tags" = None ∧ n !! "urls" = None
     ∧ (truthy c = false → truthy ct = false → n = {[ "header" := VScalar ts ]})
     ∧ (truthy c = true → truthy ct = false →
          n = {[ "comment" := VScalar c; "header" := VScalar ts ]}))
  ∧ (∀ date' c' ct' tg' ur' hd' s0 n' s1,
       note configs now date' c' ct' tg' ur' hd' [] s0 = (Ok n', s1) →
       n' !! "comment" = (if truthy c' then Some (VScalar c') else None)
       ∧ n' !! "content" = (if truthy ct' then Some (VScalar ct') else None)
       ∧ ∃ h, n' !! "header" = Some (VScalar h) ∧ truthy h = true).
Proof.
  intros Hhd Htg Hur ts. split.
  - destruct (note_without_header configs now date c ct tg ur hd s Hhd Htg Hur)
      as [s' Hrun].
    eexists _, s'. split; [exact Hrun|]. fold ts.
    split; [by destruct (truthy ct), (truthy c)|].
    split; [apply truthy_resolved_date|].
    split; [by destruct (truthy ct), (truthy c)|].
    split; [by destruct (truthy ct), (truthy c)|].
    split; [by destruct (truthy ct), (truthy c)|].
    split; [by destruct (truthy ct), (truthy c)|].
    split.
    + intros -> ->. by rewrite !(right_id_L ∅ (∪)).
    + intros -> ->. rewrite (left_id_L ∅ (∪)).
      apply map_eq. intros k.
      destruct (decide (k = "comment")) as [->|]; [done|].
      destruct (decide (k = "header")) as [->|]; [done|].
      rewrite lookup_union, !lookup_singleton_ne, lookup_insert_ne by done.
      by rewrite lookup_singleton_ne.
  - intros date' c' ct' tg' ur' hd' s0 n' s1. apply note_fields.
Qed.

Lemma note_assembly_witness :
  let s := mkState ∅ ∅ PyNone [] in
  let ts := PyStr "Wed Nov 04 13:07:00 PST 2026" in
  truthy PyNone = false ∧ no_elements s None
  ∧ ∃ n s',
      note empty_config nov4 PyNone (PyStr "hi") PyNone None None PyNone [] s
      = (Ok n, s')
      ∧ n = {[ "comment" := VScalar (PyStr "hi"); "header" := VScalar ts ]}.
Proof.
  intros s ts. split; [reflexivity|]. split; [exact I|].
  destruct (proj1 (note_assembly empty_config nov4 PyNone (PyStr "hi") PyNone PyNone
                     None None s eq_refl I I))
    as (n & s' & Hrun & _ & _ & _ & _ & _ & _ & _ & Hn).
  exists n, s'. split; [exact Hrun|]. exact (Hn eq_refl eq_refl).
Defined.

(** C2, as stated, fails: with everything empty or absent the note is not
    the empty mapping, it holds the header with the timestamp; and with
    the comment "hi" alone the note has the header besides the comment. *)
Lemma note_all_absent_not_empty :
  let s := mkState ∅ ∅ PyNone [] in
  let ts := VScalar (PyStr "Wed Nov 04 13:07:00 PST 2026") in
  (note empty_config nov4 PyNone (PyStr "") PyNone None None PyNone [] s).1
  = Ok {[ "header" := ts ]}
  ∧ (note empty_config nov4 PyNone (PyStr "") PyNone None None PyNone [] s).1
    ≠ Ok ∅
  ∧ (note empty_config nov4 PyNone (PyStr "hi") PyNone None None PyNone [] s).1
    = Ok {[ "comment" := VScalar (PyStr "hi"); "header" := ts ]}
  ∧ (note empty_config nov4 PyNone (PyStr "hi") PyNone None None PyNone [] s).1
    ≠ Ok {[ "comment" := VScalar (PyStr "hi") ]}.
Proof.
  intros s ts. repeat split; vm_compute; (reflexivity || discriminate).
Qed.

(** ** File writer *)

Lemma append_empty_r (t : string) : t +:+ "" = t.
Proof.
  induction t as [|c t IH]; [done|].
  change (String c t +:+ "") with (String c (t +:+ "")). by rewrite IH.
Qed.

Section Files.

Variable isdir : string → bool.
Variable tmpdir : string.

Lemma path_exists_false fs p :
  path_exists isdir fs p = false ↔ isdir p = false ∧ fs !! p = None.
Proof.
  unfold path_exists. rewrite orb_false_iff, bool_decide_eq_false.
  rewrite <- eq_None_not_Some. done.
Qed.

Lemma path_exists_file fs p text :
  fs !! p = Some text → path_exists isdir fs p = true.
Proof.
  intros H. unfold path_exists. rewrite bool_decide_eq_true_2 by eauto.
  apply orb_true_r.
Qed.

(** The temporary file is new: no file and no directory had its name. *)
Lemma mkstemp_ok names prefix suffix fs file names' fs' :
  mkstemp isdir tmpdir names prefix suffix fs = Done (file, names', fs') →
  path_exists isdir fs file = false ∧ fs' = <[file := ""]> fs.
Proof.
  induction names as [|name names IH]; simpl; [done|].
  destruct (path_exists isdir fs (path_join tmpdir (prefix +:+ name +:+ suffix)))
    eqn:Hex; [exact IH|].
  destruct (isdir tmpdir && parent_exists isdir _); [|done].
  intros [= <- <- <-]. done.
Qed.

Lemma create_tmp_file_ok prefix suffix s file s' :
  create_tmp_file isdir tmpdir prefix suffix s = (Ok file, s') →
  isdir file = false ∧ files s !! file = None
  ∧ files s' = <[file := ""]> (files s).
Proof.
  unfold create_tmp_file.
  destruct (mkstemp isdir tmpdir (rand s) prefix suffix (files s))
    as [[[f names'] fs']|e] eqn:Hmk; [|done].
  intros [= <- <-]. apply mkstemp_ok in Hmk as [Hex ->].
  apply path_exists_false in Hex as [Hd Hf]. done.
Qed.

(** A destination that exists is never the temporary file. *)
Lemma create_tmp_file_not_existing prefix suffix filename s :
  path_exists isdir (files s) filename = true →
  ∀ s1, create_tmp_file isdir tmpdir prefix suffix s ≠ (Ok filename, s1).
Proof.
  intros Hex s1 Htmp. apply create_tmp_file_ok in Htmp as (Hd & Hfree & _).
  unfold path_exists in Hex. rewrite Hd, Hfree in Hex.
  rewrite bool_decide_eq_false_2 in Hex; [done|]. by intros [? ?].
Qed.

(** Writing to a file that exists appends to it. *)
Lemma write_existing filename data old s :
  isdir filename = false → files s !! filename = Some old →
  write_data_to_file isdir filename data s
  = (Ok true, set_files (λ _, <[filename := old +:+ data]> (files s)) s).
Proof.
  intros Hd Hf. unfold write_data_to_file, fs_write.
  rewrite Hd, Hf. by rewrite (path_exists_file _ _ _ Hf).
Qed.

Lemma universal_newlines_id (text : string) :
  no_carriage_return text → universal_newlines text = text.
Proof.
  unfold no_carriage_return. induction text as [|c text IH]; [done|].
  simpl. intros [Hc Ht]%not_elem_of_cons.
  rewrite decide_False by done. by rewrite IH.
Qed.

Lemma read_file_ok filename s text s' :
  read_file isdir filename s = (Ok text, s') →
  s' = s ∧ isdir filename = false
  ∧ ∃ stored, files s !! filename = Some stored ∧ text = universal_newlines stored.
Proof.
  unfold read_file, fs_read.
  destruct (isdir filename); [done|].
  destruct (files s !! filename) as [stored|]; [|done].
  intros [= <- <-]. eauto.
Qed.

(** Moving a regular file onto a path that is not a directory, when it
    succeeds, puts its text there and removes the old name, on one file
    system and across two. *)
Lemma rename_file_ok src dst text s r s' :
  files s !! src = Some text → isdir src = false → isdir dst = false →
  rename_file isdir src dst s = (Ok r, s') →
  r = true ∧ files s' = <[dst := text]> (delete src (files s)).
Proof.
  intros Hsrc Hs Hd. unfold rename_file, fs_move, fs_rename.
  rewrite Hd, Hs, Hsrc. simpl.
  destruct (parent_exists isdir dst); [|done].
  destruct (device s src dst); try (by intros [= <- <-]).
  destruct (bool_decide (src = dst)); [by intros [= <- <-]|done].
Qed.

Lemma set_files_same (s : state) : set_files (λ _, files s) s = s.
Proof. by destruct s. Qed.

(** What moving a regular file onto a path that is not a directory does. *)
Lemma rename_file_run src dst text s :
  files s !! src = Some text → isdir src = false → isdir dst = false →
  rename_file isdir src dst s
  = if parent_exists isdir dst then
      match device s src dst with
      | OtherDeviceFails written =>
          if bool_decide (src = dst)
          then (Ok true, set_files (λ _, <[dst := text]> (delete src (files s))) s)
          else (Raise (NotesErr (FailedToRename src dst)),
                set_files (λ _, <[dst := String.substring 0 written text]> (files s)) s)
      | _ => (Ok true, set_files (λ _, <[dst := text]> (delete src (files s))) s)
      end
    else (Raise (NotesErr (FailedToRename src dst)), s).
Proof.
  intros Hsrc Hs Hd. unfold rename_file, fs_move, fs_rename.
  rewrite Hd, Hs, Hsrc. simpl.
  destruct (parent_exists isdir dst); [|by rewrite set_files_same].
  destruct (device s src dst); try done.
  by destruct (bool_decide (src = dst)).
Qed.

(** One prepend that returns, when the temporary file is not the
    destination. *)
Lemma prepend_step f d t t' q :
  (∀ t1, create_tmp_file isdir tmpdir "notes." ".md" t ≠ (Ok f, t1)) →
  prepend_data_to_file isdir tmpdir f d t = (Ok q, t') →
  q = true
  ∧ files t' = <[f := d +:+ universal_newlines (default "" (files t !! f))]> (files t).
Proof.
  intros Hnew Hrun. unfold prepend_data_to_file in Hrun.
  apply bind_ok in Hrun as (tmp & t1 & Htmp & Hrun).
  assert (tmp ≠ f) as Hne by (intros ->; exact (Hnew _ Htmp)).
  apply create_tmp_file_ok in Htmp as (Hd & Hfree & Hfs1).
  assert (files t1 !! tmp = Some "") as Htmp1
    by (rewrite Hfs1; apply lookup_insert_eq).
  run (write_existing tmp d "" t1 Hd Htmp1) in Hrun.
  set (t2 := set_files (λ _, <[tmp := "" +:+ d]> (files t1)) t1) in Hrun.
  assert (files t2 = <[tmp := d]> (files t)) as Hfs2.
  { subst t2. simpl. rewrite Hfs1. by rewrite insert_insert_eq. }
  clearbody t2.
  assert (files t2 !! f = files t !! f) as Hf2
    by (rewrite Hfs2; by apply lookup_insert_ne).
  apply bind_ok in Hrun as (ex & t3 & Hex & Hrun).
  unfold gets in Hex. injection Hex as Hex <-.
  apply bind_ok in Hrun as (ok & t3 & Hold & Hrun).
  apply bind_ok in Hrun as (ok' & t4 & Hmv & [= <- <-]).
  destruct ex.
  - apply bind_ok in Hold as (notes_data & t2' & Hread & Hwr).
    apply read_file_ok in Hread as (-> & Hfd & stored & Hfold & ->).
    assert (files t2 !! tmp = Some d) as Htmp2
      by (rewrite Hfs2; apply lookup_insert_eq).
    rewrite (write_existing tmp (universal_newlines stored) d t2 Hd Htmp2) in Hwr.
    injection Hwr as <- <-.
    eapply rename_file_ok in Hmv as [_ Hfs4];
      [| simpl; apply lookup_insert_eq | done | done].
    split; [done|]. rewrite Hfs4. simpl.
    rewrite <- Hf2, Hfold. simpl. rewrite Hfs2.
    by rewrite insert_insert_eq, delete_insert_id.
  - injection Hold as <- <-.
    apply path_exists_false in Hex as [Hfd Hnone].
    eapply rename_file_ok in Hmv as [_ Hfs4];
      [| rewrite Hfs2; apply lookup_insert_eq | done | done].
    split; [done|]. rewrite Hfs4, Hfs2.
    rewrite <- Hf2, Hnone. simpl.
    rewrite delete_insert_id by done. by rewrite append_empty_r.
Qed.

(** C1, as the code has it: when [prepend_data_to_file] succeeds, and the
    temporary file it made is not the destination itself (it never is
    when the destination exists), it returns True and the files are those
    of before except that the destination holds the data followed by what
    a text-mode read gave of its old contents (a carriage return, with or
    without a newline after it, read as a newline), which are the old
    contents themselves when they hold no carriage return, or the data
    alone when it did not exist; nothing is put in between.  A second
    successful prepend then leaves the second text followed by what is
    read of the first and of the old contents, and exactly the second
    text followed by the first when the file was empty or absent at the
    start and the first text holds no carriage return. *)
Theorem prepend_data_to_file_spec (filename data : string) (s s' : state) (r : bool) :
  (∀ s1, create_tmp_file isdir tmpdir "notes." ".md" s ≠ (Ok filename, s1)) →
  prepend_data_to_file isdir tmpdir filename data s = (Ok r, s') →
  let stored := default "" (files s !! filename) in
  r = true
  ∧ files s' = <[filename := data +:+ universal_newlines stored]> (files s)
  ∧ (no_carriage_return stored →
     files s' = <[filename := data +:+ stored]> (files s))
  ∧ ∀ data2 r2 s'',
      prepend_data_to_file isdir tmpdir filename data2 s' = (Ok r2, s'') →
      files s'' !! filename
      = Some (data2 +:+ universal_newlines (data +:+ universal_newlines stored))
      ∧ (stored = "" → no_carriage_return data →
         files s'' !! filename = Some (data2 +:+ data)).
Proof.
  intros Hnew Hrun stored.
  destruct (prepend_step _ _ _ _ _ Hnew Hrun) as [-> Hfs]. fold stored in Hfs.
  split; [done|]. split; [done|]. split.
  { intros Hcr. by rewrite Hfs, (universal_newlines_id _ Hcr). }
  intros data2 r2 s'' Hrun2.
  assert (files s' !! filename = Some (data +:+ universal_newlines stored)) as Hnow
    by (rewrite Hfs; apply lookup_insert_eq).
  assert (∀ s1, create_tmp_file isdir tmpdir "notes." ".md" s' ≠ (Ok filename, s1))
    as Hnew2.
  { apply create_tmp_file_not_existing. by eapply path_exists_file. }
  destruct (prepend_step _ _ _ _ _ Hnew2 Hrun2) as [_ Hfs2].
  rewrite Hnow in Hfs2. simpl in Hfs2.
  assert (files s'' !! filename
          = Some (data2 +:+ universal_newlines (data +:+ universal_newlines stored)))
    as Hboth by (rewrite Hfs2; apply lookup_insert_eq).
  split; [done|]. intros Hold Hcr. rewrite Hboth, Hold.
  change (universal_newlines "") with "". rewrite append_empty_r.
  by rewrite (universal_newlines_id _ Hcr).
Qed.

End Files.

Lemma prepend_data_to_file_spec_witness :
  let s := mkState {[ "/tmp/notes.md" := "" ]} ∅ PyNone ["a1b2c3d4"; "e5f6g7h8"] in
  (∀ s1, create_tmp_file sample_isdir "/tmp" "notes." ".md" s ≠ (Ok "/tmp/notes.md", s1))
  ∧ ∃ s' s'',
      prepend_data_to_file sample_isdir "/tmp" "/tmp/notes.md" "A" s = (Ok true, s')
      ∧ prepend_data_to_file sample_isdir "/tmp" "/tmp/notes.md" "B" s' = (Ok true, s'')
      ∧ files s' = <["/tmp/notes.md" := "A" +:+ ""]> (files s)
      ∧ files s'' !! "/tmp/notes.md" = Some ("B" +:+ "A").
Proof.
  intros s.
  assert (∀ s1, create_tmp_file sample_isdir "/tmp" "notes." ".md" s
                ≠ (Ok "/tmp/notes.md", s1)) as Hnew
    by (intros s1; vm_compute; discriminate).
  split; [exact Hnew|].
  eexists _, _. split; [vm_compute; reflexivity|]. split; [vm_compute; reflexivity|].
  assert (no_carriage_return "") as Hempty by (by apply (bool_decide_unpack _)).
  assert (no_carriage_return "A") as Hcr by (by apply (bool_decide_unpack _)).
  destruct (prepend_data_to_file_spec sample_isdir "/tmp" "/tmp/notes.md" "A" s _ true
              Hnew ltac:(vm_compute; reflexivity)) as (_ & _ & Hfirst & Hsecond).
  split; [exact (Hfirst Hempty)|].
  exact (proj2 (Hsecond "B" true _ ltac:(vm_compute; reflexivity)) eq_refl Hcr).
Defined.

(** C1, as stated, fails.  A file that holds a carriage return does not
    keep it: after a prepend the old contents are there as a text-mode
    read gave them.  And when the destination does not exist and the name
    drawn for the temporary file is the destination's, the data is there
    twice. *)
Lemma prepend_not_exact :
  let cr := String carriage_return "" in
  let nl := String newline "" in
  let s := mkState {[ "/tmp/notes.md" := "old" +:+ cr +:+ nl ]} ∅ PyNone ["a1b2c3d4"] in
  let t := mkState ∅ ∅ PyNone ["a1b2c3d4"] in
  ((prepend_data_to_file sample_isdir "/tmp" "/tmp/notes.md" "new" s).1 = Ok true
   ∧ files (prepend_data_to_file sample_isdir "/tmp" "/tmp/notes.md" "new" s).2
       !! "/tmp/notes.md" = Some ("new" +:+ "old" +:+ nl)
   ∧ files (prepend_data_to_file sample_isdir "/tmp" "/tmp/notes.md" "new" s).2
       !! "/tmp/notes.md" ≠ Some ("new" +:+ "old" +:+ cr +:+ nl))
  ∧ ((prepend_data_to_file sample_isdir "/tmp" "/tmp/notes.a1b2c3d4.md" "A" t).1
     = Ok true
     ∧ files (prepend_data_to_file sample_isdir "/tmp" "/tmp/notes.a1b2c3d4.md" "A" t).2
       = {[ "/tmp/notes.a1b2c3d4.md" := "AA" ]}).
Proof.
  intros cr nl s t. split.
  - split; [vm_compute; reflexivity|]. split; [vm_compute; reflexivity|].
    vm_compute. discriminate.
  - split; vm_compute; reflexivity.
Qed.

(** Two notes prepended to a file that does not exist yet: the second
    comes first. *)
Example prepend_two_notes :
  let s := mkState ∅ ∅ PyNone ["a1b2c3d4"; "e5f6g7h8"] in
  let s1 := (prepend_data_to_file sample_isdir "/tmp" "/tmp/notes.md" "A" s).2 in
  let s2 := (prepend_data_to_file sample_isdir "/tmp" "/tmp/notes.md" "B" s1).2 in
  files s2 = {[ "/tmp/notes.md" := "BA" ]}.
Proof. vm_compute. reflexivity. Qed.

(** ** What rendering leaves alone *)

Section Frames.

Variable configs : config.
Variable now : datetime.
Variable isdir : string → bool.
Variable tmpdir : string.
Variable jinja : engine.

Lemma keeps_tags_body l idx tag : keeps_files (tags_body configs l idx tag).
Proof. unfold tags_body, startswith_hash. keeps. Qed.

Lemma keeps_tags_loop l pending : ∀ idx, keeps_files (tags_loop configs l idx pending).
Proof.
  induction pending as [|tag rest IH]; intros idx; simpl; [apply keeps_ret|].
  apply keeps_bind; [apply keeps_tags_body | intros _; apply IH].
Qed.

Lemma keeps_tags arg : keeps_files (tags configs arg).
Proof.
  unfold tags. apply keeps_bind; [auto with keeps | intros l].
  apply keeps_bind; [auto with keeps | intros xs].
  apply keeps_bind; [apply keeps_tags_loop | intros _; apply keeps_ret].
Qed.

Lemma keeps_urls arg : keeps_files (urls arg).
Proof. unfold urls. keeps. Qed.

Lemma keeps_header hd : keeps_files (header configs hd).
Proof. unfold header. keeps. Qed.

Lemma keeps_update_if_truthy element n : keeps_files (update_if_truthy element n).
Proof. unfold update_if_truthy. apply keeps_for_each. intros v acc. keeps. Qed.

Lemma keeps_note date c ct tg ur hd kwargs :
  keeps_files (note configs now date c ct tg ur hd kwargs).
Proof.
  unfold note.
  apply keeps_bind; [unfold get_date; keeps | intros d].
  apply keeps_bind; [apply keeps_set_self_date | intros _].
  apply keeps_bind; [apply keeps_ret | intros comment_d].
  apply keeps_bind; [apply keeps_ret | intros content_d].
  apply keeps_bind; [apply keeps_header | intros header_d].
  apply keeps_bind; [apply keeps_tags | intros tags_d].
  apply keeps_bind; [apply keeps_urls | intros urls_d].
  apply keeps_bind; [| intros n].
  { apply keeps_for_each. intros; apply keeps_update_if_truthy. }
  apply keeps_bind; [apply keeps_dict_getitem | intros tv].
  apply keeps_bind; [apply keeps_truthy_val | intros tb].
  apply keeps_bind; [apply keeps_dict_getitem | intros uv].
  apply keeps_bind; [apply keeps_truthy_val | intros ub].
  apply keeps_for_each. intros; apply keeps_ret.
Qed.

Lemma keeps_content_type arg : keeps_files (content_type configs arg).
Proof. unfold content_type. keeps. Qed.

Lemma keeps_read_file filename : keeps_files (read_file isdir filename).
Proof. intros s. unfold read_file. by destruct (fs_read isdir (files s) filename). Qed.

Lemma keeps_template_file arg : keeps_files (template_file configs isdir arg).
Proof. unfold template_file. keeps. Qed.

Lemma keeps_get_template tf : keeps_files (get_template isdir jinja tf).
Proof.
  unfold get_template. apply keeps_bind; [apply keeps_read_file | intros ?]. keeps.
Qed.

Lemma keeps_render_template template n ct :
  keeps_files (render_template jinja template n ct).
Proof. unfold render_template. keeps. Qed.

Lemma keeps_render_note tf_arg note_arg ct_arg :
  keeps_files (render_note configs now isdir jinja tf_arg note_arg ct_arg).
Proof.
  unfold render_note.
  apply keeps_bind; [apply keeps_content_type | intros ct].
  apply keeps_bind; [| intros n].
  { destruct note_arg as [n|]; [destruct (decide (n = ∅))|];
      auto using keeps_note with keeps. }
  apply keeps_bind; [apply keeps_template_file | intros tf].
  apply keeps_bind; [apply keeps_get_template | intros template].
  apply keeps_render_template.
Qed.

(** Resolving the path of the notes file changes nothing. *)
Lemma notes_file_pure arg s r s' :
  notes_file configs isdir arg s = (r, s') → s' = s.
Proof.
  unfold notes_file, bind, dir_exists, ret, raise.
  destruct (given arg); [|destruct (cfg_notes_file configs)];
    repeat (match goal with |- context [if ?b then _ else _] => destruct b end);
    by intros [= _ <-].
Qed.

(** C6: when [take_note] with [dryrun=True] returns, what it returns is
    the text that [render_note] returned, and the files are those of
    before the call, as is the supply of temporary names: nothing was
    written, prepended, created or renamed. *)
Theorem take_note_dryrun (note_arg : option (gmap string val))
    (notes_file_arg : option string) (append : bool)
    (content_type_arg template_file_arg : option string)
    (s s' : state) (r : taken) :
  take_note configs now isdir tmpdir jinja note_arg notes_file_arg append
    content_type_arg template_file_arg true s = (Ok r, s') →
  ∃ text,
    render_note configs now isdir jinja template_file_arg note_arg
      content_type_arg s = (Ok text, s')
    ∧ r = Rendered text
    ∧ files s' = files s ∧ rand s' = rand s.
Proof.
  unfold take_note. intros H.
  apply bind_ok in H as (nf & s0 & Hnf & H).
  assert (s0 = s) as ->.
  { destruct (given notes_file_arg); [by injection Hnf as _ <-|].
    by apply notes_file_pure in Hnf. }
  apply bind_ok in H as (text & s1 & Hrender & [= <- <-]).
  exists text. split; [done|]. split; [done|].
  pose proof (keeps_render_note template_file_arg note_arg content_type_arg s) as Hk.
  by rewrite Hrender in Hk.
Qed.

End Frames.

Lemma take_note_dryrun_witness :
  let s := mkState {[ "/tmp/note.j2" := "## note" ]} ∅ PyNone [] in
  ∃ s',
    take_note all_on nov4 sample_isdir "/tmp" literal_engine None None false
      None None true s = (Ok (Rendered "## note"), s')
    ∧ ∃ text,
        render_note all_on nov4 sample_isdir literal_engine None None None s
        = (Ok text, s')
        ∧ Rendered "## note" = Rendered text
        ∧ files s' = files s ∧ rand s' = rand s.
Proof.
  intros s. eexists. split; [vm_compute; reflexivity|].
  refine (take_note_dryrun all_on nov4 sample_isdir "/tmp" literal_engine
            None None false None None s _ _ _).
  vm_compute; reflexivity.
Defined.

(** ** Destination path *)

(** The path the claim C5 is right about: when no destination is passed
    and the directory of the configured [notes_file] does not exist,
    [take_note] raises NotesErr while it resolves the path, before it
    renders or writes: the state is the one of before the call. *)
Theorem take_note_config_path_checked (configs : config) (now : datetime)
    (isdir : string → bool) (tmpdir : string) (jinja : engine)
    (note_arg : option (gmap string val)) (notes_file_arg : option string)
    (append : bool) (ct_arg tf_arg : option string) (dryrun : bool)
    (nf : string) (s : state) :
  given notes_file_arg = None → cfg_notes_file configs = Some nf →
  isdir (dirname nf) = false →
  take_note configs now isdir tmpdir jinja note_arg notes_file_arg append
    ct_arg tf_arg dryrun s
  = (Raise (NotesErr (NotesDirDoesNotExist (dirname nf))), s).
Proof.
  intros Hg Hcfg Hdir. unfold take_note. rewrite Hg.
  apply bind_raise. unfold notes_file. rewrite Hg, Hcfg.
  unfold bind, ret, dir_exists. by rewrite Hdir.
Qed.

Lemma take_note_config_path_checked_witness :
  let s := mkState {[ "/tmp/note.j2" := "## note" ]} ∅ PyNone ["a1b2c3d4"] in
  let from_config :=
    mkConfig (Some "text") (Some "/tmp/note.j2") (Some true) (Some true)
             (Some "/no/such/dir/notes.md") in
  given None = None
  ∧ cfg_notes_file from_config = Some "/no/such/dir/notes.md"
  ∧ sample_isdir (dirname "/no/such/dir/notes.md") = false
  ∧ take_note from_config nov4 sample_isdir "/tmp" literal_engine None None
      false None None false s
    = (Raise (NotesErr (NotesDirDoesNotExist (dirname "/no/such/dir/notes.md"))), s).
Proof.
  intros s from_config.
  assert (sample_isdir (dirname "/no/such/dir/notes.md") = false) as Hdir
    by (vm_compute; reflexivity).
  split; [reflexivity|]. split; [reflexivity|]. split; [exact Hdir|].
  exact (take_note_config_path_checked from_config nov4 sample_isdir "/tmp"
           literal_engine None None false None None false
           "/no/such/dir/notes.md" s eq_refl eq_refl Hdir).
Defined.

(** A destination passed as argument is taken as it is: in a dry run
    [take_note] returns what rendering returns, whether or not the
    directory of the destination exists. *)
Lemma take_note_explicit_path_dryrun configs now isdir tmpdir jinja
    note_arg notes_file_arg append ct_arg tf_arg nf s text s' :
  given notes_file_arg = Some nf →
  render_note configs now isdir jinja tf_arg note_arg ct_arg s = (Ok text, s') →
  take_note configs now isdir tmpdir jinja note_arg notes_file_arg append
    ct_arg tf_arg true s
  = (Ok (Rendered text), s').
Proof.
  intros Hg Hrender. unfold take_note. rewrite Hg.
  run (ret_run nf s). by run Hrender.
Qed.

(** C5: the code does not do what the claim says for a destination
    passed as argument.  With a directory that does not exist,
    [take_note] does not raise while it resolves the path: in a dry run
    it returns the rendered text; otherwise the error comes from the
    writer, after rendering, once the temporary file has been made and
    the move has failed.  [notes_file] itself refuses that very argument,
    and the same path taken from the configuration is refused at once:
    [take_note] does not call [notes_file] when the argument is given. *)
Theorem take_note_explicit_path_unchecked :
  let s := mkState {[ "/tmp/note.j2" := "## note" ]} ∅ PyNone ["a1b2c3d4"] in
  let dest := "/no/such/dir/notes.md" in
  let from_config :=
    mkConfig (Some "text") (Some "/tmp/note.j2") (Some true) (Some true) (Some dest) in
  sample_isdir (dirname dest) = false
  ∧ (take_note all_on nov4 sample_isdir "/tmp" literal_engine None (Some dest)
       false None None true s).1 = Ok (Rendered "## note")
  ∧ (take_note all_on nov4 sample_isdir "/tmp" literal_engine None (Some dest)
       false None None false s).1
    = Raise (NotesErr (FailedToRename "/tmp/notes.a1b2c3d4.md" dest))
  ∧ files (take_note all_on nov4 sample_isdir "/tmp" literal_engine None (Some dest)
             false None None false s).2 !! "/tmp/notes.a1b2c3d4.md"
    = Some "## note"
  ∧ notes_file all_on sample_isdir (Some dest) s
    = (Raise (NotesErr (NotesDirDoesNotExist "/no/such/dir")), s)
  ∧ take_note from_config nov4 sample_isdir "/tmp" literal_engine None None
      false None None true s
    = (Raise (NotesErr (NotesDirDoesNotExist "/no/such/dir")), s).
Proof. vm_compute. repeat split; reflexivity. Qed.

(** ** Missing template *)

Lemma content_type_given configs ct_arg s :
  given ct_arg ≠ None ∨ cfg_default_content_type configs ≠ None →
  ∃ ct, content_type configs ct_arg s = (Ok ct, s).
Proof.
  unfold content_type.
  destruct (given ct_arg) as [ct|]; [eauto|].
  intros [|H]; [done|]. destruct (cfg_default_content_type configs); [eauto|done].
Qed.

(** What [render_note] does with a template path that does not exist
    once the content type is there: it raises the error that
    [template_file] raises, and touches no file. *)
Lemma render_note_template_missing (configs : config) (now : datetime)
    (isdir : string → bool) (jinja : engine)
    (tf_arg : option string) (note_arg : option (gmap string val))
    (ct_arg : option string) (tf : string) (s : state) :
  given tf_arg = Some tf
  ∨ (given tf_arg = None ∧ cfg_default_template_file configs = Some tf) →
  path_exists isdir (files s) tf = false →
  template_file configs isdir tf_arg s
  = (Raise (NotesErr (TemplateFileNotFound tf)), s)
  ∧ (given ct_arg ≠ None ∨ cfg_default_content_type configs ≠ None →
     ∃ s', render_note configs now isdir jinja tf_arg note_arg ct_arg s
           = (Raise (NotesErr (TemplateFileNotFound tf)), s')
           ∧ files s' = files s).
Proof.
  intros Htf Hex.
  assert (∀ t, files t = files s →
            template_file configs isdir tf_arg t
            = (Raise (NotesErr (TemplateFileNotFound tf)), t)) as Hmissing.
  { intros t Ht. unfold template_file.
    assert (match given tf_arg with
            | Some tf0 => ret tf0
            | None => getitem (cfg_default_template_file configs) "default_template_file"
            end t = (Ok tf, t)) as Hres.
    { destruct Htf as [-> | [-> ->]]; reflexivity. }
    run Hres. unfold bind, gets. by rewrite Ht, Hex. }
  split; [by apply Hmissing|].
  intros Hct. destruct (content_type_given configs ct_arg s Hct) as [ct Hctr].
  unfold render_note. run Hctr.
  assert (∃ n s1,
            match note_arg with
            | Some n => if decide (n = ∅)
                        then note configs now PyNone PyNone PyNone None None PyNone []
                        else ret n
            | None => note configs now PyNone PyNone PyNone None None PyNone []
            end s = (Ok n, s1) ∧ files s1 = files s) as (n & s1 & Hn & Hfs).
  { destruct (note_without_header configs now PyNone PyNone PyNone None None PyNone s
                eq_refl I I) as [s1 Hnote].
    pose proof (keeps_note configs now PyNone PyNone PyNone None None PyNone [] s) as Hk.
    rewrite Hnote in Hk. simpl in Hk.
    destruct note_arg as [n|]; [destruct (decide (n = ∅))|]; eauto.
    - eexists _, s1. split; [exact Hnote | apply Hk].
    - eexists _, s1. split; [exact Hnote | apply Hk]. }
  run Hn. exists s1. split; [|done].
  apply bind_raise. by apply Hmissing.
Qed.

(** C9: for a template path that does not exist, be it the argument or,
    without an argument, the configured default, resolving the template
    for a render raises NotesErr, and leaves the state as it was; and a
    render with such a path returns no text, raises no exception of the
    operating system, and touches no file. *)
Theorem template_missing_raises (configs : config) (now : datetime)
    (isdir : string → bool) (jinja : engine)
    (tf_arg : option string) (tf : string) (s : state) :
  given tf_arg = Some tf
  ∨ (given tf_arg = None ∧ cfg_default_template_file configs = Some tf) →
  path_exists isdir (files s) tf = false →
  template_file configs isdir tf_arg s
  = (Raise (NotesErr (TemplateFileNotFound tf)), s)
  ∧ ∀ note_arg ct_arg r s',
      render_note configs now isdir jinja tf_arg note_arg ct_arg s = (r, s') →
      files s' = files s
      ∧ ∃ e, r = Raise e ∧ ∀ o, e ≠ OSError o.
Proof.
  intros Htf Hex.
  destruct (render_note_template_missing configs now isdir jinja tf_arg None None
              tf s Htf Hex) as [Hmissing _].
  split; [done|]. intros note_arg ct_arg r s' Hrun.
  destruct (given ct_arg) as [ct|] eqn:Hg;
    [|destruct (cfg_default_content_type configs) as [ct|] eqn:Hc].
  - destruct (render_note_template_missing configs now isdir jinja tf_arg note_arg
                ct_arg tf s Htf Hex) as [_ Hrender].
    destruct Hrender as (s1 & Hr & Hfs); [left; by rewrite Hg|].
    rewrite Hrun in Hr. injection Hr as -> ->. split; [done|]. eexists. split; done.
  - destruct (render_note_template_missing configs now isdir jinja tf_arg note_arg
                ct_arg tf s Htf Hex) as [_ Hrender].
    destruct Hrender as (s1 & Hr & Hfs); [right; by rewrite Hc|].
    rewrite Hrun in Hr. injection Hr as -> ->. split; [done|]. eexists. split; done.
  - unfold render_note, bind, content_type in Hrun. rewrite Hg, Hc in Hrun.
    simpl in Hrun. injection Hrun as <- <-. split; [done|]. eexists. split; done.
Qed.

Lemma template_missing_raises_witness :
  let s := mkState ∅ ∅ PyNone [] in
  given (Some "/no/such/template.j2") = Some "/no/such/template.j2"
  ∧ path_exists sample_isdir (files s) "/no/such/template.j2" = false
  ∧ template_file all_on sample_isdir (Some "/no/such/template.j2") s
    = (Raise (NotesErr (TemplateFileNotFound "/no/such/template.j2")), s)
  ∧ ∃ e, (render_note all_on nov4 sample_isdir literal_engine
            (Some "/no/such/template.j2") None None s).1 = Raise e
         ∧ ∀ o, e ≠ OSError o.
Proof.
  intros s.
  assert (path_exists sample_isdir (files s) "/no/such/template.j2" = false) as Hex
    by (vm_compute; reflexivity).
  split; [reflexivity|]. split; [exact Hex|].
  destruct (template_missing_raises all_on nov4 sample_isdir literal_engine
              (Some "/no/such/template.j2") "/no/such/template.j2" s
              (or_introl eq_refl) Hex) as [Htf Hrender].
  split; [exact Htf|].
  exact (proj2 (Hrender None None _ _ (surjective_pairing _))).
Defined.

(** Apart from the template: with no content type passed and none
    configured, [render_note] raises KeyError from the lookup of the
    default content type before it comes to the template, whether the
    template exists or not. *)
Lemma render_note_missing_content_type :
  let s := mkState ∅ ∅ PyNone [] in
  path_exists sample_isdir (files s) "/no/such/template.j2" = false
  ∧ (render_note empty_config nov4 sample_isdir literal_engine
       (Some "/no/such/template.j2") None None s).1
    = Raise (KeyError "default_content_type")
  ∧ ∀ msg, (render_note empty_config nov4 sample_isdir literal_engine
              (Some "/no/such/template.j2") None None s).1
           ≠ Raise (NotesErr msg).
Proof.
  intros s. split; [vm_compute; reflexivity|].
  split; [vm_compute; reflexivity|]. intros msg. vm_compute. discriminate.
Qed.

(** ** Loading the configuration *)

(** [get_yaml_data] raises nothing: what reading or parsing raises is
    caught there. *)
Lemma get_yaml_data_returns yaml_safe_load isdir yaml_file s :
  ∃ d, get_yaml_data yaml_safe_load isdir yaml_file s = (Ok d, s).
Proof.
  unfold get_yaml_data, bind, gets, try_except, ret.
  destruct (path_exists isdir (files s) yaml_file); simpl; [|eauto].
  destruct (fs_read isdir (files s) yaml_file) as [text|e]; [|eauto].
  destruct (yaml_safe_load text); eauto.
Qed.

(** C4, as the code has it: when the configuration file can be read and
    the parser raises on its text, loading the configuration raises
    nothing: the exception is caught where the file is parsed, and the
    result is the empty configuration with the keyword overrides. *)
Theorem get_configs_malformed_yaml (yaml_safe_load : string → yaml_result)
    (isdir : string → bool) (config_file : option string) (kwargs : config)
    (s : state) (text : string) :
  fs_read isdir (files s) (default ".notes_config.yaml" (given config_file))
  = Done text →
  yaml_safe_load text = YamlRaises →
  get_configs yaml_safe_load isdir config_file kwargs s
  = (Ok (config_update empty_config kwargs), s).
Proof.
  intros Hread Hparse. unfold get_configs.
  set (path := default ".notes_config.yaml" (given config_file)) in *.
  assert (get_yaml_data yaml_safe_load isdir path s = (Ok None, s)) as Hd.
  { unfold get_yaml_data, bind, gets, try_except, ret.
    destruct (path_exists isdir (files s) path); simpl; [|done].
    by rewrite Hread, Hparse. }
  unfold bind at 1. unfold try_except. by run Hd.
Qed.

Lemma get_configs_malformed_yaml_witness :
  let s := mkState {[ ".notes_config.yaml" := "tags: [" ]} ∅ PyNone [] in
  fs_read sample_isdir (files s) ".notes_config.yaml" = Done "tags: ["
  ∧ sample_yaml "tags: [" = YamlRaises
  ∧ get_configs sample_yaml sample_isdir None empty_config s = (Ok empty_config, s).
Proof.
  intros s.
  assert (fs_read sample_isdir (files s) ".notes_config.yaml" = Done "tags: [") as Hr
    by (vm_compute; reflexivity).
  split; [exact Hr|]. split; [reflexivity|].
  exact (get_configs_malformed_yaml sample_yaml sample_isdir None empty_config s _
           Hr eq_refl).
Defined.

(** C4, as stated, fails: a configuration file on whose text the parser
    raises does not make the loading raise NotesErr; the loading returns
    the empty configuration. *)
Lemma get_configs_swallows_parse_error :
  let s := mkState {[ ".notes_config.yaml" := "tags: [" ]} ∅ PyNone [] in
  sample_yaml "tags: [" = YamlRaises
  ∧ (get_configs sample_yaml sample_isdir None empty_config s).1 = Ok empty_config
  ∧ ∀ msg, (get_configs sample_yaml sample_isdir None empty_config s).1
           ≠ Raise (NotesErr msg).
Proof.
  intros s. split; [reflexivity|]. split; [vm_compute; reflexivity|].
  intros msg. vm_compute. discriminate.
Qed.

(** * Further properties of the code *)

(** ** Appending to a file *)

Lemma append_assoc_str (a b c : string) : (a +:+ b) +:+ c = a +:+ (b +:+ c).
Proof.
  induction a as [|x a IH]; [done|].
  change ((String x a +:+ b) +:+ c) with (String x ((a +:+ b) +:+ c)).
  change (String x a +:+ (b +:+ c)) with (String x (a +:+ (b +:+ c))).
  by rewrite IH.
Qed.






(** ** Prepending, case by case *)

Section Prepend.

Variable isdir : string → bool.
Variable tmpdir : string.

Lemma tmp_name_create prefix suffix s tmp :
  tmp_name isdir tmpdir prefix suffix s = Some tmp ↔
  ∃ s1, create_tmp_file isdir tmpdir prefix suffix s = (Ok tmp, s1).
Proof.
  unfold tmp_name, create_tmp_file.
  destruct (mkstemp isdir tmpdir (rand s) prefix suffix (files s))
    as [[[f names'] fs']|e]; split.
  - intros [= ->]. eauto.
  - by intros [s1 [= -> _]].
  - done.
  - by intros [s1 ?].
Qed.

Lemma create_tmp_file_fails prefix suffix s e s' :
  create_tmp_file isdir tmpdir prefix suffix s = (Raise e, s') →
  e = NotesErr UnableToCreateTempFile ∧ s' = s.
Proof.
  unfold create_tmp_file.
  destruct (mkstemp isdir tmpdir (rand s) prefix suffix (files s))
    as [[[f names'] fs']|e0]; [done|].
  by intros [= <- <-].
Qed.

Lemma create_tmp_file_rest prefix suffix s file s' :
  create_tmp_file isdir tmpdir prefix suffix s = (Ok file, s') →
  heap s' = heap s ∧ self_date s' = self_date s ∧ device s' = device s.
Proof.
  unfold create_tmp_file.
  destruct (mkstemp isdir tmpdir (rand s) prefix suffix (files s))
    as [[[f names'] fs']|e0]; [|done].
  by intros [= <- <-].
Qed.

(** What [prepend_data_to_file] does once the temporary file is made,
    when that file is not the destination. *)
Lemma prepend_cases filename data s tmp s1 :
  create_tmp_file isdir tmpdir "notes." ".md" s = (Ok tmp, s1) →
  tmp ≠ filename →
  let text := data +:+ universal_newlines (default "" (files s !! filename)) in
  ∃ s',
    prepend_data_to_file isdir tmpdir filename data s
    = (if isdir filename then Raise (NotesErr (FailedToReadFile filename))
       else if parent_exists isdir filename then
         match device s tmp filename with
         | OtherDeviceFails _ => Raise (NotesErr (FailedToRename tmp filename))
         | _ => Ok true
         end
       else Raise (NotesErr (FailedToRename tmp filename)), s')
    ∧ files s'
      = (if isdir filename then <[tmp := data]> (files s)
         else if parent_exists isdir filename then
           match device s tmp filename with
           | OtherDeviceFails written =>
               <[filename := String.substring 0 written text]>
                 (<[tmp := text]> (files s))
           | _ => <[filename := text]> (files s)
           end
         else <[tmp := text]> (files s))
    ∧ heap s' = heap s ∧ self_date s' = self_date s ∧ rand s' = rand s1.
Proof.
  intros Htmp Hne text. unfold prepend_data_to_file. run Htmp.
  destruct (create_tmp_file_rest _ _ _ _ _ Htmp) as (Hheap & Hdate & Hdev).
  apply create_tmp_file_ok in Htmp as (Hd & Hfree & Hfs1).
  assert (files s1 !! tmp = Some "") as Htmp1
    by (rewrite Hfs1; apply lookup_insert_eq).
  run (write_existing isdir tmp data "" s1 Hd Htmp1).
  set (s2 := set_files (λ _, <[tmp := "" +:+ data]> (files s1)) s1).
  assert (files s2 = <[tmp := data]> (files s)) as Hfs2.
  { subst s2. simpl. rewrite Hfs1. by rewrite insert_insert_eq. }
  assert (heap s2 = heap s ∧ self_date s2 = self_date s ∧ rand s2 = rand s1
          ∧ device s2 = device s) as (Hh2 & Hd2 & Hr2 & Hdev2) by done.
  clearbody s2.
  assert (files s2 !! filename = files s !! filename) as Hf2
    by (rewrite Hfs2; by apply lookup_insert_ne).
  assert (files s2 !! tmp = Some data) as Htmp2
    by (rewrite Hfs2; apply lookup_insert_eq).
  run (eq_refl : gets (λ t, path_exists isdir (files t) filename) s2
                 = (Ok (path_exists isdir (files s2) filename), s2)).
  unfold path_exists. rewrite Hf2.
  destruct (isdir filename) eqn:Hfd; simpl.
  { exists s2. split; [|done].
    apply bind_raise. apply bind_raise. unfold read_file, fs_read.
    by rewrite Hfd. }
  assert (∃ s3,
            (if bool_decide (is_Some (files s !! filename))
             then notes_data <- read_file isdir filename ;;
                  write_data_to_file isdir tmp notes_data
             else ret true) s2 = (Ok true, s3)
            ∧ files s3 = <[tmp := text]> (files s)
            ∧ heap s3 = heap s ∧ self_date s3 = self_date s ∧ rand s3 = rand s1
            ∧ device s3 = device s) as (s3 & Hinner & Hfs3 & Hh3 & Hd3 & Hr3 & Hdev3).
  { subst text. destruct (files s !! filename) as [old|] eqn:Hold; simpl.
    - assert (read_file isdir filename s2 = (Ok (universal_newlines old), s2))
        as Hread.
      { unfold read_file, fs_read. by rewrite Hfd, Hf2. }
      eexists. split.
      { run Hread. apply (write_existing isdir tmp _ data s2 Hd Htmp2). }
      simpl. by rewrite Hfs2, insert_insert_eq.
    - exists s2. rewrite append_empty_r. done. }
  run Hinner.
  assert (files s3 !! tmp = Some text) as Htmp3
    by (rewrite Hfs3; apply lookup_insert_eq).
  unfold bind at 1. rewrite (rename_file_run isdir tmp filename text s3 Htmp3 Hd Hfd).
  rewrite Hdev3.
  destruct (parent_exists isdir filename); [|by exists s3].
  assert (<[filename := text]> (delete tmp (files s3)) = <[filename := text]> (files s))
    as Hmoved.
  { rewrite Hfs3. by rewrite delete_insert_id. }
  destruct (device s tmp filename) as [| |written].
  - eexists. split; [reflexivity|]. simpl. by rewrite Hmoved.
  - eexists. split; [reflexivity|]. simpl. by rewrite Hmoved.
  - rewrite bool_decide_eq_false_2 by done.
    eexists. split; [reflexivity|]. simpl. by rewrite Hfs3.
Qed.



(** X4: when the destination is not a directory and cannot be made
    because its directory does not exist, [prepend_data_to_file] raises
    the error of the notes for the failed move, and the temporary file
    stays behind, holding the data followed by what was read of the
    destination; no other file has changed. *)
Theorem prepend_missing_directory (filename data tmp : string) (s : state) :
  tmp_name isdir tmpdir "notes." ".md" s = Some tmp → tmp ≠ filename →
  isdir filename = false → parent_exists isdir filename = false →
  ∃ s',
    prepend_data_to_file isdir tmpdir filename data s
    = (Raise (NotesErr (FailedToRename tmp filename)), s')
    ∧ files s'
      = <[tmp := data +:+ universal_newlines (default "" (files s !! filename))]>
          (files s)
    ∧ files s !! tmp = None.
Proof.
  intros Hname Hne Hd Hparent.
  apply tmp_name_create in Hname as [s1 Htmp].
  destruct (prepend_cases filename data s tmp s1 Htmp Hne) as (s' & Hrun & Hfs & _).
  rewrite Hd, Hparent in Hrun, Hfs.
  exists s'. split; [done|]. split; [done|].
  by apply create_tmp_file_ok in Htmp as (_ & ? & _).
Qed.

(** X29: the move is not one step when the temporary file lies on another
    file system than the destination: when the copy fails after some
    characters, [prepend_data_to_file] raises the error of the notes and
    the destination is left holding those first characters of its new
    contents, not its old text; the whole of the new contents is in the
    temporary file, which stays behind. *)
Theorem prepend_half_written (filename data tmp : string) (written : nat)
    (s : state) :
  tmp_name isdir tmpdir "notes." ".md" s = Some tmp → tmp ≠ filename →
  isdir filename = false → parent_exists isdir filename = true →
  device s tmp filename = OtherDeviceFails written →
  let text := data +:+ universal_newlines (default "" (files s !! filename)) in
  ∃ s',
    prepend_data_to_file isdir tmpdir filename data s
    = (Raise (NotesErr (FailedToRename tmp filename)), s')
    ∧ files s' !! filename = Some (String.substring 0 written text)
    ∧ files s' !! tmp = Some text.
Proof.
  intros Hname Hne Hd Hparent Hdev text.
  apply tmp_name_create in Hname as [s1 Htmp].
  destruct (prepend_cases filename data s tmp s1 Htmp Hne) as (s' & Hrun & Hfs & _).
  rewrite Hd, Hparent, Hdev in Hrun, Hfs.
  exists s'. split; [done|]. rewrite Hfs. split.
  - apply lookup_insert_eq.
  - rewrite lookup_insert_ne by done. apply lookup_insert_eq.
Qed.

End Prepend.


Lemma prepend_missing_directory_witness :
  let s := mkState ∅ ∅ PyNone ["a1b2c3d4"] in
  tmp_name sample_isdir "/tmp" "notes." ".md" s = Some "/tmp/notes.a1b2c3d4.md"
  ∧ "/tmp/notes.a1b2c3d4.md" ≠ "/no/such/dir/notes.md"
  ∧ sample_isdir "/no/such/dir/notes.md" = false
  ∧ parent_exists sample_isdir "/no/such/dir/notes.md" = false
  ∧ ∃ s',
      prepend_data_to_file sample_isdir "/tmp" "/no/such/dir/notes.md" "A" s
      = (Raise (NotesErr (FailedToRename "/tmp/notes.a1b2c3d4.md"
                            "/no/such/dir/notes.md")), s')
      ∧ files s'
        = <["/tmp/notes.a1b2c3d4.md"
            := "A" +:+ universal_newlines
                         (default "" (files s !! "/no/such/dir/notes.md"))]> (files s)
      ∧ files s !! "/tmp/notes.a1b2c3d4.md" = None.
Proof.
  intros s.
  assert (tmp_name sample_isdir "/tmp" "notes." ".md" s
          = Some "/tmp/notes.a1b2c3d4.md") as H1 by (vm_compute; reflexivity).
  assert ("/tmp/notes.a1b2c3d4.md" ≠ "/no/such/dir/notes.md") as H2 by discriminate.
  assert (sample_isdir "/no/such/dir/notes.md" = false) as H3
    by (vm_compute; reflexivity).
  assert (parent_exists sample_isdir "/no/such/dir/notes.md" = false) as H4
    by (vm_compute; reflexivity).
  split; [exact H1|]. split; [exact H2|]. split; [exact H3|]. split; [exact H4|].
  exact (prepend_missing_directory sample_isdir "/tmp" "/no/such/dir/notes.md" "A" _ s H1 H2 H3 H4).
Defined.

Lemma prepend_half_written_witness :
  let s := mkWorld {[ "/notes.md" := "old" ]} ∅ PyNone ["a1b2c3d4"]
             (λ _ _, OtherDeviceFails 2) in
  tmp_name sample_isdir "/tmp" "notes." ".md" s = Some "/tmp/notes.a1b2c3d4.md"
  ∧ ∃ s',
      prepend_data_to_file sample_isdir "/tmp" "/notes.md" "new" s
      = (Raise (NotesErr (FailedToRename "/tmp/notes.a1b2c3d4.md" "/notes.md")), s')
      ∧ files s' !! "/notes.md" = Some "ne"
      ∧ files s' !! "/tmp/notes.a1b2c3d4.md" = Some "newold".
Proof.
  intros s.
  assert (tmp_name sample_isdir "/tmp" "notes." ".md" s
          = Some "/tmp/notes.a1b2c3d4.md") as H1 by (vm_compute; reflexivity).
  split; [exact H1|].
  exact (prepend_half_written sample_isdir "/tmp" "/notes.md" "new" _ 2 s H1
           ltac:(discriminate) eq_refl eq_refl eq_refl).
Defined.

(** ** What a call can raise *)

Lemma raises_ret {A} allowed (a : A) : raises_only allowed (ret a).
Proof. by intros s e s'. Qed.

Lemma raises_gets {A} allowed (f : state → A) : raises_only allowed (gets f).
Proof. by intros s e s'. Qed.

Lemma raises_raise {A} (allowed : exn → Prop) e :
  allowed e → raises_only allowed (@raise A e).
Proof. intros He s e' s' [= <- _]. exact He. Qed.

Lemma raises_bind {A B} allowed (c : M A) (k : A → M B) :
  raises_only allowed c → (∀ a, raises_only allowed (k a)) →
  raises_only allowed (bind c k).
Proof.
  intros Hc Hk s e s'. unfold bind.
  destruct (c s) as [[a|e0] s1] eqn:Hcs.
  - apply Hk.
  - intros [= <- <-]. by eapply Hc.
Qed.

Section Raises.

Variable configs : config.
Variable now : datetime.
Variable isdir : string → bool.
Variable tmpdir : string.
Variable jinja : engine.

(** Any set of exceptions that has the errors of the notes. *)
Variable allowed : exn → Prop.
Hypothesis allowed_notes_err : ∀ msg, allowed (NotesErr msg).

Lemma raises_read_file filename : raises_only allowed (read_file isdir filename).
Proof.
  intros s e s'. unfold read_file.
  destruct (fs_read isdir (files s) filename); [done|]. by intros [= <- _].
Qed.

Lemma raises_write_data_to_file filename data :
  raises_only allowed (write_data_to_file isdir filename data).
Proof.
  intros s e s'. unfold write_data_to_file.
  destruct (fs_write isdir (files s) filename _ data); [done|]. by intros [= <- _].
Qed.

Lemma raises_rename_file src dst :
  raises_only allowed (rename_file isdir src dst).
Proof.
  intros s e s'. unfold rename_file.
  destruct (fs_move isdir (device s) (files s) src dst) as [fs' [e0|]]; [|done].
  by intros [= <- _].
Qed.

Lemma raises_create_tmp_file prefix suffix :
  raises_only allowed (create_tmp_file isdir tmpdir prefix suffix).
Proof.
  intros s e s' H. by apply create_tmp_file_fails in H as [-> _].
Qed.

Lemma raises_prepend_data_to_file filename data :
  raises_only allowed (prepend_data_to_file isdir tmpdir filename data).
Proof.
  unfold prepend_data_to_file.
  apply raises_bind; [apply raises_create_tmp_file | intros tmp].
  apply raises_bind; [apply raises_write_data_to_file | intros _].
  apply raises_bind; [apply raises_gets | intros ex].
  apply raises_bind; [| intros _].
  { destruct ex; [|apply raises_ret].
    apply raises_bind; [apply raises_read_file | intros notes_data].
    apply raises_write_data_to_file. }
  apply raises_bind; [apply raises_rename_file | intros _; apply raises_ret].
Qed.

(** A template that is passed is looked for without the configuration. *)
Lemma raises_template_file arg tf :
  given arg = Some tf → raises_only allowed (template_file configs isdir arg).
Proof.
  intros Hg. unfold template_file. rewrite Hg.
  apply raises_bind; [apply raises_ret | intros tf0].
  apply raises_bind; [apply raises_gets | intros ex].
  destruct ex; [apply raises_ret | by apply raises_raise].
Qed.

Lemma raises_get_template tf : raises_only allowed (get_template isdir jinja tf).
Proof.
  unfold get_template. apply raises_bind; [apply raises_read_file | intros text].
  destruct (jinja_compiles jinja text); [apply raises_ret | by apply raises_raise].
Qed.

Lemma raises_render_template template n ct :
  raises_only allowed (render_template jinja template n ct).
Proof.
  unfold render_template. apply raises_bind; [apply raises_gets | intros h].
  destruct (jinja_render jinja template.2 n ct h);
    [apply raises_ret | by apply raises_raise].
Qed.

(** The note that [render_note] builds when it is given none is built
    without an exception. *)
Lemma raises_default_note :
  raises_only allowed (note configs now PyNone PyNone PyNone None None PyNone []).
Proof.
  intros s e s' H.
  destruct (note_without_header configs now PyNone PyNone PyNone None None PyNone s
              eq_refl I I) as [s1 Hnote].
  congruence.
Qed.

End Raises.

Lemma raises_content_type configs arg :
  raises_only (notes_failure configs arg) (content_type configs arg).
Proof.
  unfold content_type. destruct (given arg) eqn:Hg; [apply raises_ret|].
  destruct (cfg_default_content_type configs) eqn:Hc; [apply raises_ret|].
  apply raises_raise. by right.
Qed.

Lemma raises_take_note configs now isdir tmpdir jinja note_arg notes_file_arg
    append ct_arg tf_arg dryrun nf tf :
  given notes_file_arg = Some nf → given tf_arg = Some tf →
  raises_only (notes_failure configs ct_arg)
    (take_note configs now isdir tmpdir jinja note_arg notes_file_arg append
       ct_arg tf_arg dryrun).
Proof.
  intros Hnf Htf.
  assert (∀ msg, notes_failure configs ct_arg (NotesErr msg)) as Herr
    by (intros msg; left; eauto).
  unfold take_note. rewrite Hnf.
  apply raises_bind; [apply raises_ret | intros nf0].
  apply raises_bind; [| intros text].
  { unfold render_note.
    apply raises_bind; [apply raises_content_type | intros ct].
    apply raises_bind; [| intros n].
    { destruct note_arg as [n|]; [destruct (decide (n = ∅))|];
        auto using raises_default_note, raises_ret. }
    apply raises_bind; [by eapply raises_template_file | intros tf0].
    apply raises_bind; [by apply raises_get_template | intros template].
    by apply raises_render_template. }
  destruct dryrun; [apply raises_ret|].
  destruct append.
  - apply raises_bind;
      [by apply raises_write_data_to_file | intros ok; apply raises_ret].
  - apply raises_bind;
      [by apply raises_prepend_data_to_file | intros ok; apply raises_ret].
Qed.

(** X5: when the destination and the template are passed to it, whatever
    the other arguments, the configuration, the files and the platform,
    when [take_note] raises it raises the error of the notes, or, when no
    content type is passed and the configuration has no default content
    type, KeyError for that key: no error of the file system or of the
    template engine comes through as it is. *)
Theorem take_note_raises_only (configs : config) (now : datetime)
    (isdir : string → bool) (tmpdir : string) (jinja : engine)
    (note_arg : option (gmap string val)) (notes_file_arg : option string)
    (append : bool) (content_type_arg template_file_arg : option string)
    (dryrun : bool) (nf tf : string) (s s' : state) (e : exn) :
  given notes_file_arg = Some nf → given template_file_arg = Some tf →
  take_note configs now isdir tmpdir jinja note_arg notes_file_arg append
    content_type_arg template_file_arg dryrun s = (Raise e, s') →
  (∃ msg, e = NotesErr msg)
  ∨ (e = KeyError "default_content_type"
     ∧ given content_type_arg = None
     ∧ cfg_default_content_type configs = None).
Proof. intros Hnf Htf. by eapply raises_take_note. Qed.

Lemma take_note_raises_only_witness :
  let s := mkState ∅ ∅ PyNone [] in
  ∃ s',
    take_note all_on nov4 sample_isdir "/tmp" literal_engine None
      (Some "/tmp/notes.md") false None (Some "/tmp/note.j2") false s
    = (Raise (NotesErr (TemplateFileNotFound "/tmp/note.j2")), s')
    ∧ ((∃ msg, NotesErr (TemplateFileNotFound "/tmp/note.j2") = NotesErr msg)
       ∨ (NotesErr (TemplateFileNotFound "/tmp/note.j2")
          = KeyError "default_content_type"
          ∧ given None = None
          ∧ cfg_default_content_type all_on = None)).
Proof.
  intros s. eexists. split; [vm_compute; reflexivity|].
  refine (take_note_raises_only all_on nov4 sample_isdir "/tmp" literal_engine
            None (Some "/tmp/notes.md") false None (Some "/tmp/note.j2") false
            "/tmp/notes.md" "/tmp/note.j2" s _ _ eq_refl eq_refl _).
  vm_compute; reflexivity.
Defined.

(** ** What [take_note] writes *)

Lemma write_data_to_file_ok isdir filename data s r s' :
  write_data_to_file isdir filename data s = (Ok r, s') →
  r = true
  ∧ files s' = <[filename := default "" (files s !! filename) +:+ data]> (files s).
Proof.
  unfold write_data_to_file, fs_write.
  destruct (isdir filename) eqn:Hd; [done|].
  destruct (files s !! filename) as [old|] eqn:Hf; simpl.
  - unfold path_exists. rewrite Hd, Hf. simpl. by intros [= <- <-].
  - destruct (parent_exists isdir filename); [|done]. by intros [= <- <-].
Qed.

Lemma notes_file_ok configs isdir arg s p s' :
  notes_file configs isdir arg s = (Ok p, s') →
  s' = s ∧ isdir (dirname p) = true ∧ destination configs arg = Some p.
Proof.
  unfold notes_file, destination, bind, dir_exists, ret, raise.
  destruct (given arg) as [nf|].
  - destruct (isdir (dirname nf)) eqn:Hd; [|done]. by intros [= <- <-].
  - destruct (cfg_notes_file configs) as [nf|]; [|done].
    destruct (isdir (dirname nf)) eqn:Hd; [|done]. by intros [= <- <-].
Qed.

Section Written.

Variable configs : config.
Variable now : datetime.
Variable isdir : string → bool.
Variable tmpdir : string.
Variable jinja : engine.

(** A call of [take_note] that writes and returns: the destination, the
    text rendered and the call of the writer. *)
Lemma take_note_ok note_arg notes_file_arg append ct_arg tf_arg s r s' :
  take_note configs now isdir tmpdir jinja note_arg notes_file_arg append
    ct_arg tf_arg false s = (Ok r, s') →
  ∃ nf text s1 ok,
    destination configs notes_file_arg = Some nf
    ∧ render_note configs now isdir jinja tf_arg note_arg ct_arg s = (Ok text, s1)
    ∧ files s1 = files s ∧ rand s1 = rand s
    ∧ (if append then write_data_to_file isdir nf text
       else prepend_data_to_file isdir tmpdir nf text) s1 = (Ok ok, s')
    ∧ r = Written ok.
Proof.
  unfold take_note. intros H.
  apply bind_ok in H as (nf & s0 & Hnf & H).
  assert (s0 = s ∧ destination configs notes_file_arg = Some nf) as [-> Hdest].
  { unfold destination. destruct (given notes_file_arg) eqn:E.
    - by injection Hnf as <- <-.
    - apply notes_file_ok in Hnf as (-> & _ & Hdest). split; [done|].
      unfold destination in Hdest. by rewrite E in Hdest. }
  apply bind_ok in H as (text & s1 & Hrender & H).
  pose proof (keeps_render_note configs now isdir jinja tf_arg note_arg ct_arg s) as Hk.
  rewrite Hrender in Hk. destruct Hk as [Hfs Hrand].
  exists nf, text, s1.
  destruct append; apply bind_ok in H as (ok & s2 & Hw & [= <- <-]);
    exists ok; done.
Qed.

End Written.

(** X6: when [take_note] with [append=True] returns, it returns True,
    and the files are those of before the call except that the
    destination (the argument, or else the configured notes file) holds
    what it held before followed by the rendered text, or that text
    alone when it did not exist. *)
Theorem take_note_appends (configs : config) (now : datetime)
    (isdir : string → bool) (tmpdir : string) (jinja : engine)
    (note_arg : option (gmap string val)) (notes_file_arg : option string)
    (content_type_arg template_file_arg : option string)
    (s s' : state) (r : taken) :
  take_note configs now isdir tmpdir jinja note_arg notes_file_arg true
    content_type_arg template_file_arg false s = (Ok r, s') →
  ∃ nf text s1,
    destination configs notes_file_arg = Some nf
    ∧ render_note configs now isdir jinja template_file_arg note_arg
        content_type_arg s = (Ok text, s1)
    ∧ r = Written true
    ∧ files s' = <[nf := default "" (files s !! nf) +:+ text]> (files s).
Proof.
  intros H.
  apply take_note_ok in H as (nf & text & s1 & ok & Hdest & Hrender & Hfs & _ & Hw & ->).
  apply write_data_to_file_ok in Hw as [-> Hfs'].
  exists nf, text, s1. rewrite Hfs in Hfs'. done.
Qed.

Lemma take_note_appends_witness :
  let s := mkState {[ "/tmp/note.j2" := "B"; "/tmp/notes.md" := "A" ]} ∅ PyNone [] in
  ∃ s',
    take_note all_on nov4 sample_isdir "/tmp" literal_engine None None true
      None None false s = (Ok (Written true), s')
    ∧ ∃ nf text s1,
        destination all_on None = Some nf
        ∧ render_note all_on nov4 sample_isdir literal_engine None None None s
          = (Ok text, s1)
        ∧ Written true = Written true
        ∧ files s' = <[nf := default "" (files s !! nf) +:+ text]> (files s).
Proof.
  intros s. eexists. split; [vm_compute; reflexivity|].
  refine (take_note_appends all_on nov4 sample_isdir "/tmp" literal_engine
            None None None None s _ _ _).
  vm_compute; reflexivity.
Defined.

(** X7: when [take_note] in its default mode, prepending, returns, and
    the temporary file was not the destination itself, it returns True
    and the files are those of before the call except that the
    destination holds the rendered text followed by what a text-mode read
    gave of its old contents (a carriage return, with or without a
    newline after it, read as a newline): the newest note is first. *)
Theorem take_note_prepends (configs : config) (now : datetime)
    (isdir : string → bool) (tmpdir : string) (jinja : engine)
    (note_arg : option (gmap string val)) (notes_file_arg : option string)
    (content_type_arg template_file_arg : option string)
    (s s' : state) (r : taken) :
  tmp_name isdir tmpdir "notes." ".md" s ≠ destination configs notes_file_arg →
  take_note configs now isdir tmpdir jinja note_arg notes_file_arg false
    content_type_arg template_file_arg false s = (Ok r, s') →
  ∃ nf text s1,
    destination configs notes_file_arg = Some nf
    ∧ render_note configs now isdir jinja template_file_arg note_arg
        content_type_arg s = (Ok text, s1)
    ∧ r = Written true
    ∧ files s'
      = <[nf := text +:+ universal_newlines (default "" (files s !! nf))]> (files s).
Proof.
  intros Hnew H.
  apply take_note_ok in H
    as (nf & text & s1 & ok & Hdest & Hrender & Hfs & Hrand & Hw & ->).
  exists nf, text, s1. split; [done|]. split; [done|].
  assert (∀ s2, create_tmp_file isdir tmpdir "notes." ".md" s1 ≠ (Ok nf, s2))
    as Hne.
  { intros s2 Htmp. apply Hnew. rewrite Hdest.
    assert (tmp_name isdir tmpdir "notes." ".md" s1 = Some nf) as Hn
      by (apply tmp_name_create; eauto).
    unfold tmp_name in *. by rewrite <- Hfs, <- Hrand. }
  destruct (prepend_step isdir tmpdir nf text s1 s' ok Hne Hw) as [-> Hfs'].
  split; [done|]. by rewrite Hfs', Hfs.
Qed.

Lemma take_note_prepends_witness :
  let s := mkState {[ "/tmp/note.j2" := "B"; "/tmp/notes.md" := "A" ]} ∅ PyNone
             ["a1b2c3d4"] in
  tmp_name sample_isdir "/tmp" "notes." ".md" s ≠ destination all_on None
  ∧ ∃ s',
      take_note all_on nov4 sample_isdir "/tmp" literal_engine None None false
        None None false s = (Ok (Written true), s')
      ∧ ∃ nf text s1,
          destination all_on None = Some nf
          ∧ render_note all_on nov4 sample_isdir literal_engine None None None s
            = (Ok text, s1)
          ∧ Written true = Written true
          ∧ files s'
            = <[nf := text +:+ universal_newlines (default "" (files s !! nf))]>
                (files s).
Proof.
  intros s.
  assert (tmp_name sample_isdir "/tmp" "notes." ".md" s ≠ destination all_on None)
    as Hnew by (vm_compute; discriminate).
  split; [exact Hnew|].
  eexists. split; [vm_compute; reflexivity|].
  refine (take_note_prepends all_on nov4 sample_isdir "/tmp" literal_engine
            None None None None s _ _ Hnew _).
  vm_compute; reflexivity.
Defined.

(** ** Paths *)

Lemma list_ascii_of_string_app (a b : string) :
  String.list_ascii_of_string (a +:+ b)
  = String.list_ascii_of_string a ++ String.list_ascii_of_string b.
Proof.
  induction a as [|x a IH]; [done|].
  change (String x a +:+ b) with (String x (a +:+ b)). simpl. by rewrite IH.
Qed.

Lemma split_last_slash_bare (cs : list ascii) :
  Forall (λ c, c ≠ slash) cs → split_last_slash cs = (cs, []).
Proof.
  induction 1 as [|c cs Hc _ IH]; simpl; [done|].
  destruct (decide (c = slash)); [done|]. by rewrite IH.
Qed.

Lemma split_last_slash_app (cs rest : list ascii) :
  Forall (λ c, c ≠ slash) cs →
  split_last_slash (cs ++ slash :: rest) = (cs, slash :: rest).
Proof.
  induction 1 as [|c cs Hc _ IH]; simpl.
  - by destruct (decide (slash = slash)).
  - destruct (decide (c = slash)); [done|]. by rewrite IH.
Qed.

Lemma dirname_bare (p : string) : bare_name p → dirname p = "".
Proof.
  unfold bare_name, dirname. intros H.
  rewrite split_last_slash_bare by (by apply Forall_reverse). done.
Qed.

Lemma prefix_slash_bare (f : string) : bare_name f → String.prefix "/" f = false.
Proof.
  unfold bare_name. destruct f as [|x f]; [done|]. intros H.
  change (String.list_ascii_of_string (String x f))
    with (x :: String.list_ascii_of_string f) in H.
  apply Forall_cons in H as [Hx _].
  change (String.prefix "/" (String x f))
    with (if ascii_dec "/" x then String.prefix "" f else false).
  destruct (ascii_dec "/" x) as [E|]; [|done]. by destruct Hx.
Qed.

(** For a directory whose name does not end in a slash and a file
    name without slash, the directory part of their join is the
    directory and the base name of their join is the file name. *)
Theorem dirname_basename_join (d f : string) (ds : list ascii) (c : ascii) :
  String.list_ascii_of_string d = ds ++ [c] → c ≠ slash → bare_name f →
  path_join d f = d +:+ "/" +:+ f
  ∧ dirname (path_join d f) = d
  ∧ basename (path_join d f) = f.
Proof.
  intros Hd Hc Hf.
  assert (path_join d f = d +:+ "/" +:+ f) as Hjoin.
  { unfold path_join. rewrite (prefix_slash_bare f Hf), Hd, reverse_snoc.
    by destruct (decide (c = slash)). }
  split; [done|]. rewrite Hjoin.
  assert (reverse (String.list_ascii_of_string (d +:+ "/" +:+ f))
          = reverse (String.list_ascii_of_string f) ++ slash :: c :: reverse ds)
    as Hrev.
  { rewrite !list_ascii_of_string_app, Hd. simpl.
    rewrite reverse_app. simpl. rewrite reverse_cons, reverse_snoc.
    by rewrite <- app_assoc. }
  unfold dirname, basename. rewrite Hrev.
  rewrite split_last_slash_app by (by apply Forall_reverse). simpl.
  rewrite (bool_decide_eq_false_2 (c = slash)) by done. simpl.
  destruct (decide (c = slash)); [done|].
  split.
  - rewrite reverse_cons, reverse_involutive, <- Hd.
    apply String.string_of_list_ascii_of_string.
  - rewrite reverse_involutive. apply String.string_of_list_ascii_of_string.
Qed.

Lemma dirname_basename_join_witness :
  String.list_ascii_of_string "/tmp" = String.list_ascii_of_string "/tm" ++ ["p"%char]
  ∧ "p"%char ≠ slash ∧ bare_name "notes.md"
  ∧ path_join "/tmp" "notes.md" = "/tmp" +:+ "/" +:+ "notes.md"
  ∧ dirname (path_join "/tmp" "notes.md") = "/tmp"
  ∧ basename (path_join "/tmp" "notes.md") = "notes.md".
Proof.
  assert (String.list_ascii_of_string "/tmp"
          = String.list_ascii_of_string "/tm" ++ ["p"%char]) as H1 by reflexivity.
  assert ("p"%char ≠ slash) as H2 by discriminate.
  assert (bare_name "notes.md") as H3.
  { unfold bare_name. simpl. repeat constructor; discriminate. }
  split; [exact H1|]. split; [exact H2|]. split; [exact H3|].
  exact (dirname_basename_join "/tmp" "notes.md" _ _ H1 H2 H3).
Defined.

(** X9: a notes file named without any directory part is refused, be it
    the argument or the configured one: its directory part is the empty
    path, which is no directory, so [notes_file] raises the error of the
    notes and nothing has changed. *)
Theorem notes_file_bare_name (configs : config) (isdir : string → bool)
    (arg : option string) (p : string) (s : state) :
  destination configs arg = Some p → bare_name p → isdir "" = false →
  notes_file configs isdir arg s
  = (Raise (NotesErr (NotesDirDoesNotExist "")), s).
Proof.
  intros Hdest Hbare Hdir. unfold notes_file, destination in *.
  assert (match given arg with
          | Some nf => ret nf
          | None =>
              match cfg_notes_file configs with
              | Some nf => ret nf
              | None => raise (NotesErr PathToNotesFileNotDefined)
              end
          end s = (Ok p, s)) as Hres.
  { destruct (given arg); [by injection Hdest as ->|]. by rewrite Hdest. }
  run Hres. rewrite (dirname_bare p Hbare).
  unfold bind, dir_exists, ret. by rewrite Hdir.
Qed.

Lemma notes_file_bare_name_witness :
  let s := mkState ∅ ∅ PyNone [] in
  destination empty_config (Some "notes.md") = Some "notes.md"
  ∧ bare_name "notes.md" ∧ sample_isdir "" = false
  ∧ notes_file empty_config sample_isdir (Some "notes.md") s
    = (Raise (NotesErr (NotesDirDoesNotExist "")), s).
Proof.
  intros s.
  assert (bare_name "notes.md") as H
    by (unfold bare_name; simpl; repeat constructor; discriminate).
  split; [reflexivity|]. split; [exact H|]. split; [reflexivity|].
  exact (notes_file_bare_name empty_config sample_isdir (Some "notes.md")
           "notes.md" s eq_refl H eq_refl).
Defined.

(** ** The temporary file *)

Lemma mkstemp_first isdir tmpdir names prefix suffix fs file names' fs' :
  mkstemp isdir tmpdir names prefix suffix fs = Done (file, names', fs') →
  ∃ skipped name,
    names = skipped ++ name :: names'
    ∧ file = path_join tmpdir (prefix +:+ name +:+ suffix)
    ∧ Forall (λ n, path_exists isdir fs (path_join tmpdir (prefix +:+ n +:+ suffix))
                   = true) skipped.
Proof.
  induction names as [|name names IH]; simpl; [done|].
  destruct (path_exists isdir fs (path_join tmpdir (prefix +:+ name +:+ suffix)))
    eqn:Hex.
  - intros H. destruct (IH H) as (skipped & name' & -> & -> & Hall).
    exists (name :: skipped), name'. split; [done|]. split; [done|].
    by constructor.
  - destruct (isdir tmpdir && parent_exists isdir _); [|done]. intros [= <- <- <-].
    exists [], name. split; [done|]. split; [done|]. constructor.
Qed.

(** X10: when [create_tmp_file] returns, the file it names is new, in
    the directory of temporary files, and empty: its name is made of the
    prefix, the first drawn name that is not taken, and the suffix; no
    file and no directory had that name, and every other file is as it
    was. *)
Theorem create_tmp_file_new (isdir : string → bool) (tmpdir prefix suffix : string)
    (s s' : state) (file : string) :
  create_tmp_file isdir tmpdir prefix suffix s = (Ok file, s') →
  isdir tmpdir = true
  ∧ path_exists isdir (files s) file = false
  ∧ files s' = <[file := ""]> (files s)
  ∧ ∃ skipped name,
      rand s = skipped ++ name :: rand s'
      ∧ file = path_join tmpdir (prefix +:+ name +:+ suffix)
      ∧ Forall (λ n, path_exists isdir (files s)
                       (path_join tmpdir (prefix +:+ n +:+ suffix)) = true) skipped.
Proof.
  unfold create_tmp_file.
  destruct (mkstemp isdir tmpdir (rand s) prefix suffix (files s))
    as [[[f names'] fs']|e] eqn:Hmk; [|done].
  intros [= <- <-]. simpl.
  pose proof (mkstemp_ok _ _ _ _ _ _ _ _ _ Hmk) as [Hex ->].
  split.
  { clear Hex. revert Hmk. generalize (rand s) as names.
    induction names as [|name names IH]; simpl; [done|].
    destruct (path_exists isdir (files s) _); [exact IH|].
    destruct (isdir tmpdir); [done|]. by rewrite andb_false_l. }
  split; [done|]. split; [done|].
  by apply mkstemp_first in Hmk.
Qed.

Lemma create_tmp_file_new_witness :
  let s := mkState {[ "/tmp/notes.a1b2c3d4.md" := "taken" ]} ∅ PyNone
             ["a1b2c3d4"; "e5f6g7h8"] in
  ∃ s',
    create_tmp_file sample_isdir "/tmp" "notes." ".md" s
    = (Ok "/tmp/notes.e5f6g7h8.md", s')
    ∧ files s' = <["/tmp/notes.e5f6g7h8.md" := ""]> (files s).
Proof.
  intros s. eexists. split; [vm_compute; reflexivity|].
  refine (proj1 (proj2 (proj2 (create_tmp_file_new sample_isdir "/tmp" "notes." ".md"
                                 s _ _ _)))).
  vm_compute; reflexivity.
Defined.

(** ** Tags, further *)

Section TagsFurther.

Variable configs : config.

(** The body of the loop returns whenever the option is configured and,
    if it is on, the element is a string. *)
Lemma tags_body_run flag l idx tag xs s :
  cfg_auto_prepend_hashtag configs = Some flag →
  flag = false ∨ is_str tag = true →
  heap s !! l = Some xs → xs !! idx = Some tag →
  tags_body configs l idx tag s
  = (Ok tt, set_heap <[l := <[idx := normalized flag tag]> xs]> s).
Proof.
  intros Hflag Hok Hl Hidx. pose proof (lookup_lt_Some _ _ _ Hidx) as Hlt.
  destruct tag as [ |b|n|t].
  4:{ destruct flag; [by apply tags_body_string|].
      unfold tags_body, normalized. rewrite Hflag. simpl.
      unfold bind, getitem, ret. simpl.
      rewrite list_insert_id by done. by rewrite set_heap_id. }
  all: destruct Hok as [->|]; [|done];
    unfold tags_body; rewrite Hflag; cbn [is_str negb];
    rewrite (bind_run _ _ _ _ _ (setitem_run _ _ _ _ _ Hl Hlt));
    reflexivity.
Qed.

Lemma tags_loop_run flag l pending : ∀ visited s,
  cfg_auto_prepend_hashtag configs = Some flag →
  flag = false ∨ Forall (λ tag, is_str tag = true) pending →
  heap s !! l = Some (visited ++ pending) →
  tags_loop configs l (length visited) pending s
  = (Ok tt, set_heap <[l := visited ++ map (normalized flag) pending]> s).
Proof.
  induction pending as [|tag rest IH]; intros visited s Hflag Hok Hl.
  - simpl. by rewrite set_heap_id.
  - assert ((visited ++ tag :: rest) !! length visited = Some tag) as Hidx.
    { rewrite lookup_app_r by lia. by rewrite Nat.sub_diag. }
    assert (flag = false ∨ is_str tag = true) as Hok1.
    { destruct Hok as [|H]; [by left|]. right. by apply Forall_cons in H as [? _]. }
    assert (flag = false ∨ Forall (λ tag, is_str tag = true) rest) as Hok2.
    { destruct Hok as [|H]; [by left|]. right. by apply Forall_cons in H as [_ ?]. }
    simpl. run (tags_body_run flag l _ tag _ s Hflag Hok1 Hl Hidx).
    assert (<[length visited := normalized flag tag]> (visited ++ tag :: rest)
            = (visited ++ [normalized flag tag]) ++ rest) as Hins.
    { rewrite insert_app_r_alt by lia. rewrite Nat.sub_diag. simpl.
      by rewrite <- app_assoc. }
    rewrite Hins.
    replace (S (length visited)) with (length (visited ++ [normalized flag tag]))
      by (rewrite length_app; simpl; lia).
    rewrite IH; [|done|done|simpl; by rewrite lookup_insert_eq].
    destruct s as [f h d r]. unfold set_heap. simpl.
    rewrite insert_insert_eq. by rewrite <- app_assoc.
Qed.

End TagsFurther.

Lemma tags_run configs flag l (xs : list scalar) s :
  cfg_auto_prepend_hashtag configs = Some flag →
  heap s !! l = Some xs → xs ≠ [] →
  flag = false ∨ Forall (λ tag, is_str tag = true) xs →
  tags configs (Some l) s
  = (Ok {[ "tags" := VList l ]}, set_heap <[l := map (normalized flag) xs]> s).
Proof.
  intros Hflag Hl Hne Hok. unfold tags.
  assert (load l s = (Ok xs, s)) as Hload by (unfold load; by rewrite Hl).
  assert (or_empty_list (Some l) s = (Ok l, s)) as Hor.
  { unfold or_empty_list. run Hload. by destruct xs. }
  run Hor. run Hload.
  by run (tags_loop_run configs flag l xs [] s Hflag Hok Hl).
Qed.

(** X11: when [auto_prepend_hashtag] is configured and either it is off
    or every element is a string, [tags] returns for a list with
    elements: it returns that list, whose elements it has replaced by
    their normal forms, and nothing else has changed.  With the option
    off, elements that are not strings are turned into their string
    form. *)
Theorem tags_returns (configs : config) (flag : bool) (l : loc)
    (xs : list scalar) (s : state) :
  cfg_auto_prepend_hashtag configs = Some flag →
  heap s !! l = Some xs → xs ≠ [] →
  flag = false ∨ Forall (λ tag, is_str tag = true) xs →
  tags configs (Some l) s
  = (Ok {[ "tags" := VList l ]}, set_heap <[l := map (normalized flag) xs]> s).
Proof. apply tags_run. Qed.

Lemma tags_returns_witness :
  let s := mkState ∅ {[ 1%positive := [PyStr "a"; PyInt 1; PyNone] ]} PyNone [] in
  let off := mkConfig None None None (Some false) None in
  cfg_auto_prepend_hashtag off = Some false
  ∧ heap s !! 1%positive = Some [PyStr "a"; PyInt 1; PyNone]
  ∧ tags off (Some 1%positive) s
    = (Ok {[ "tags" := VList 1%positive ]},
       set_heap <[1%positive := map (normalized false) [PyStr "a"; PyInt 1; PyNone]]> s).
Proof.
  intros s off.
  assert (heap s !! 1%positive = Some [PyStr "a"; PyInt 1; PyNone]) as Hl
    by (vm_compute; reflexivity).
  split; [reflexivity|]. split; [exact Hl|].
  exact (tags_returns off false 1%positive _ s eq_refl Hl
           ltac:(discriminate) (or_introl eq_refl)).
Defined.

(** X12: whenever [tags] returns, every element of the list it returns
    is a string, and when the hashtag option is on every one starts with
    the hash sign. *)
Theorem tags_all_strings (configs : config) (arg : option loc)
    (s s' : state) (d : gmap string val) :
  tags configs arg s = (Ok d, s') →
  ∃ l ys,
    d = {[ "tags" := VList l ]} ∧ heap s' !! l = Some ys
    ∧ Forall (λ y, ∃ t, y = PyStr t
                        ∧ (hashtag_option configs = true → String.prefix "#" t = true))
        ys.
Proof.
  intros Hrun. unfold tags in Hrun.
  apply bind_ok in Hrun as (l & s0 & _ & Hrun).
  apply bind_ok in Hrun as (xs & s0' & Hload & Hrun).
  apply bind_ok in Hrun as ([] & s2 & Hloop & [= <- <-]).
  unfold load in Hload. destruct (heap s0 !! l) as [xs'|] eqn:Hl; [|done].
  injection Hload as <- <-.
  apply (tags_loop_ok configs l xs' []) in Hloop as [_ ->]; [|done].
  exists l, (map (normalized (hashtag_option configs)) xs').
  split; [done|]. split; [simpl; by rewrite lookup_insert_eq|].
  apply Forall_map, Forall_forall. intros x _. unfold normalized.
  eexists. split; [reflexivity|]. intros ->. simpl.
  destruct (String.prefix "#" (py_str x)) eqn:E; simpl; [done|].
  apply prefix_hash_cons.
Qed.

Lemma tags_all_strings_witness :
  let s := mkState ∅ {[ 1%positive := [PyStr "a"; PyStr "#b"] ]} PyNone [] in
  ∃ s',
    tags all_on (Some 1%positive) s = (Ok {[ "tags" := VList 1%positive ]}, s')
    ∧ ∃ l ys,
        ({[ "tags" := VList 1%positive ]} : gmap string val) = {[ "tags" := VList l ]}
        ∧ heap s' !! l = Some ys
        ∧ Forall (λ y, ∃ t, y = PyStr t
                            ∧ (hashtag_option all_on = true → String.prefix "#" t = true))
            ys.
Proof.
  intros s. eexists. split; [vm_compute; reflexivity|].
  refine (tags_all_strings all_on (Some 1%positive) s _ _ _).
  vm_compute; reflexivity.
Defined.

(** X13: for an absent list, or a list without elements, [tags] returns
    a list of its own making, empty, whatever the configuration holds:
    the list returned is a new object, not the caller's, and no other
    list has changed. *)
Theorem tags_without_elements (configs : config) (arg : option loc) (s : state) :
  no_elements s arg →
  ∃ l,
    tags configs arg s = (Ok {[ "tags" := VList l ]}, set_heap <[l := []]> s)
    ∧ heap s !! l = None ∧ arg ≠ Some l.
Proof.
  intros H. exists (fresh (dom (heap s))).
  split; [by apply tags_fresh|].
  assert (heap s !! fresh (dom (heap s)) = None) as Hnew.
  { apply not_elem_of_dom. apply is_fresh. }
  split; [done|]. intros ->. simpl in H. congruence.
Qed.

Lemma tags_without_elements_witness :
  let s := mkState ∅ {[ 1%positive := [] ]} PyNone [] in
  no_elements s (Some 1%positive)
  ∧ ∃ l,
      tags empty_config (Some 1%positive) s
      = (Ok {[ "tags" := VList l ]}, set_heap <[l := []]> s)
      ∧ heap s !! l = None ∧ Some 1%positive ≠ Some l.
Proof.
  intros s.
  assert (no_elements s (Some 1%positive)) as H by (vm_compute; reflexivity).
  split; [exact H|].
  exact (tags_without_elements empty_config (Some 1%positive) s H).
Defined.

(** X14: when the configuration has no [auto_prepend_hashtag], [tags]
    raises KeyError for that key at the first element of a list with
    elements, after it has stored the string form of that element if it
    was not a string. *)
Theorem tags_missing_key (configs : config) (l : loc) (x : scalar)
    (xs : list scalar) (s : state) :
  cfg_auto_prepend_hashtag configs = None →
  heap s !! l = Some (x :: xs) →
  tags configs (Some l) s
  = (Raise (KeyError "auto_prepend_hashtag"),
     set_heap <[l := (if is_str x then x else PyStr (py_str x)) :: xs]> s).
Proof.
  intros Hflag Hl. unfold tags.
  assert (load l s = (Ok (x :: xs), s)) as Hload by (unfold load; by rewrite Hl).
  assert (or_empty_list (Some l) s = (Ok l, s)) as Hor.
  { unfold or_empty_list. by run Hload. }
  run Hor. run Hload. apply bind_raise. simpl. apply bind_raise.
  unfold tags_body. rewrite Hflag.
  destruct (is_str x) eqn:Hstr; cbn [negb].
  - run (ret_run tt s). unfold bind, getitem, raise. by rewrite set_heap_id.
  - assert (0 < length (x :: xs))%nat as Hlt by (simpl; lia).
    run (setitem_run l 0%nat (PyStr (py_str x)) (x :: xs) s Hl Hlt).
    reflexivity.
Qed.

Lemma tags_missing_key_witness :
  let s := mkState ∅ {[ 1%positive := [PyInt 7; PyStr "b"] ]} PyNone [] in
  cfg_auto_prepend_hashtag empty_config = None
  ∧ heap s !! 1%positive = Some [PyInt 7; PyStr "b"]
  ∧ tags empty_config (Some 1%positive) s
    = (Raise (KeyError "auto_prepend_hashtag"),
       set_heap <[1%positive := [PyStr (py_str (PyInt 7)); PyStr "b"]]> s).
Proof.
  intros s.
  assert (heap s !! 1%positive = Some [PyInt 7; PyStr "b"]) as Hl
    by (vm_compute; reflexivity).
  split; [reflexivity|]. split; [exact Hl|].
  exact (tags_missing_key empty_config 1%positive (PyInt 7) [PyStr "b"] s eq_refl Hl).
Defined.

(** ** The note, further *)

Lemma kwargs_fold (kwargs : list (string * val)) (n : gmap string val) :
  foldl (λ acc kv, <[kv.1 := kv.2]> acc) n kwargs = kwargs_map kwargs ∪ n.
Proof.
  unfold kwargs_map. induction kwargs as [|kv kwargs IH] using rev_ind.
  - simpl. by rewrite (left_id_L ∅ (∪)).
  - rewrite !foldl_app. simpl. rewrite IH. by rewrite insert_union_l.
Qed.

Lemma for_each_kwargs (kwargs : list (string * val)) : ∀ (n : gmap string val) s,
  for_each kwargs (λ kv acc, ret ({[ kv.1 := kv.2 ]} ∪ acc)) n s
  = (Ok (kwargs_map kwargs ∪ n), s).
Proof.
  intros n s. rewrite <- kwargs_fold. revert n.
  induction kwargs as [|kv kwargs IH]; intros n; simpl; [done|].
  unfold bind, ret. rewrite IH. by rewrite insert_union_singleton_l.
Qed.

Lemma kwargs_map_last (pre post : list (string * val)) k v :
  k ∉ post.*1 → kwargs_map (pre ++ (k, v) :: post) !! k = Some v.
Proof.
  unfold kwargs_map. rewrite foldl_app. simpl.
  generalize (foldl (λ (acc : gmap string val) (kv : string * val),
                       <[kv.1 := kv.2]> acc) ∅ pre) as m.
  induction post as [|[k' v'] post IH] using rev_ind; intros m Hk.
  - simpl. apply lookup_insert_eq.
  - rewrite foldl_app. simpl.
    rewrite fmap_app in Hk. simpl in Hk.
    apply not_elem_of_app in Hk as [Hk Hk'].
    rewrite lookup_insert_ne; [by apply IH|].
    intros <-. apply Hk'. by apply list_elem_of_singleton.
Qed.

Lemma kwargs_map_other (kwargs : list (string * val)) k :
  k ∉ kwargs.*1 → kwargs_map kwargs !! k = None.
Proof.
  unfold kwargs_map.
  assert (∀ m : gmap string val,
            k ∉ kwargs.*1 →
            foldl (λ acc kv, <[kv.1 := kv.2]> acc) m kwargs !! k = m !! k) as H.
  { induction kwargs as [|[k' v'] kwargs IH]; intros m Hk; [done|].
    simpl in *. apply not_elem_of_cons in Hk as [Hne Hk].
    rewrite IH by done. by apply lookup_insert_ne. }
  intros Hk. by rewrite H.
Qed.

(** X15: the extra keyword fields of [note], as a call can pass them (no
    key twice, none with the name of a parameter), are merged last and
    as they are: a call with extra fields returns whenever the call
    without them does, in the same state, and its note is the note of
    that call with every extra field added under its key, whatever its
    value, empty or not; the fields that the builders made are as in the
    call without extra fields. *)
Theorem note_kwargs_merge (configs : config) (now : datetime)
    (date c ct : scalar) (tg ur : option loc) (hd : scalar)
    (kwargs : list (string * val)) (s s' : state) (n0 : gmap string val) :
  keyword_fields kwargs →
  note configs now date c ct tg ur hd [] s = (Ok n0, s') →
  ∃ n,
    note configs now date c ct tg ur hd kwargs s = (Ok n, s')
    ∧ (∀ k v, (k, v) ∈ kwargs → n !! k = Some v)
    ∧ (∀ k, k ∉ kwargs.*1 → n !! k = n0 !! k)
    ∧ (∀ k, k ∈ ["comment"; "content"; "header"; "tags"; "urls"] →
            n !! k = n0 !! k).
Proof.
  intros [Hdup Hnames] H.
  assert (∃ base, n0 = base
            ∧ note configs now date c ct tg ur hd kwargs s
              = (Ok (kwargs_map kwargs ∪ base), s')) as (base & -> & Hrun).
  { unfold note in *.
    repeat (apply bind_ok in H as (? & ? & Hc & H); run Hc; clear Hc).
    cbn [for_each] in H. injection H as <- <-.
    eexists. split; [reflexivity|]. apply for_each_kwargs. }
  assert (∀ k, k ∉ kwargs.*1 → (kwargs_map kwargs ∪ base) !! k = base !! k) as Hother.
  { intros k Hk. rewrite lookup_union, (kwargs_map_other _ _ Hk).
    by destruct (base !! k). }
  exists (kwargs_map kwargs ∪ base). split; [done|]. split; [|split; [done|]].
  - intros k v Hin. apply list_elem_of_split in Hin as (pre & post & ->).
    rewrite lookup_union, kwargs_map_last; [by destruct (base !! k)|].
    rewrite fmap_app, fmap_cons in Hdup. simpl in Hdup.
    apply NoDup_app in Hdup as (_ & _ & Hdup). by apply NoDup_cons in Hdup as [? _].
  - intros k Hk. apply Hother. intros Hin.
    rewrite Forall_forall in Hnames. apply (Hnames k Hin).
    repeat (apply elem_of_cons in Hk as [->|Hk]; [by apply (bool_decide_unpack _)|]).
    by apply elem_of_nil in Hk.
Qed.

Lemma note_kwargs_merge_witness :
  let s := mkState ∅ ∅ PyNone [] in
  let kwargs := [("source", VScalar (PyStr "web")); ("id", VScalar PyNone)] in
  keyword_fields kwargs
  ∧ ∃ n0 s',
      note empty_config nov4 PyNone PyNone PyNone None None PyNone [] s = (Ok n0, s')
      ∧ ∃ n,
          note empty_config nov4 PyNone PyNone PyNone None None PyNone kwargs s
          = (Ok n, s')
          ∧ (∀ k v, (k, v) ∈ kwargs → n !! k = Some v)
          ∧ (∀ k, k ∉ kwargs.*1 → n !! k = n0 !! k)
          ∧ (∀ k, k ∈ ["comment"; "content"; "header"; "tags"; "urls"] →
                  n !! k = n0 !! k).
Proof.
  intros s kwargs.
  assert (keyword_fields kwargs) as Hkw.
  { split; [by apply (bool_decide_unpack _)|].
    repeat constructor; by apply (bool_decide_unpack _). }
  split; [exact Hkw|].
  eexists _, _. split; [vm_compute; reflexivity|].
  refine (note_kwargs_merge empty_config nov4 PyNone PyNone PyNone None None PyNone
            kwargs s _ _ Hkw _).
  vm_compute; reflexivity.
Defined.

(** [note] for a header that [header] has built and tags that [tags] has
    made, without urls and extra fields. *)
Lemma note_run configs now date c ct tg ur hd h lt s s2 :
  let s1 := set_self_date (resolved_date now date) s in
  header configs hd s1 = (Ok {[ "header" := VScalar h ]}, s1) →
  truthy h = true →
  tags configs tg s1 = (Ok {[ "tags" := VList lt ]}, s2) →
  no_elements s2 ur →
  ∃ s' tb,
    note configs now date c ct tg ur hd [] s
    = (Ok ((if tb : bool then {[ "tags" := VList lt ]} else ∅)
           ∪ ({[ "header" := VScalar h ]}
              ∪ ((if truthy ct then {[ "content" := VScalar ct ]} else ∅)
                 ∪ (if truthy c then {[ "comment" := VScalar c ]} else ∅)))), s')
    ∧ s' = set_heap <[fresh (dom (heap s2)) := []]> s2
    ∧ (∀ xs, heap s2 !! lt = Some xs → tb = negb (bool_decide (xs = []))).
Proof.
  intros s1 Hh Hth Htags Hur. unfold note.
  run (resolve_date_run now date s).
  run (modify_run (set_self_date (resolved_date now date)) s). fold s1.
  unfold comment, content.
  run (ret_run ({[ "comment" := VScalar c ]} : gmap string val) s1).
  run (ret_run ({[ "content" := VScalar ct ]} : gmap string val) s1).
  run Hh. run Htags. run (urls_fresh ur s2 Hur).
  set (lu := fresh (dom (heap s2))). set (s3 := set_heap <[lu := []]> s2).
  run (assemble_run c ct h s3). rewrite Hth. cbn [for_each].
  run (dict_getitem_singleton "tags" (VList lt) s3).
  assert (heap s3 !! lu = Some []) as Hlu
    by (subst s3; simpl; by rewrite lookup_insert_eq).
  assert (∃ xs, heap s2 !! lt = Some xs) as [xs Hlt].
  { unfold tags in Htags.
    apply bind_ok in Htags as (l & t1 & _ & Htags).
    apply bind_ok in Htags as (ys & t2 & Hload & Htags).
    apply bind_ok in Htags as ([] & t3 & Hloop & Hret).
    pose proof (f_equal snd Hret) as Hs. simpl in Hs. subst t3.
    assert (l = lt) as ->.
    { pose proof (f_equal (λ r : outcome (gmap string val) * state,
                             match r.1 with
                             | Ok m => m !! "tags"
                             | Raise _ => None
                             end) Hret) as Hd.
      simpl in Hd. rewrite !lookup_singleton_eq in Hd. congruence. }
    clear Hret.
    unfold load in Hload. destruct (heap t1 !! lt) as [ys'|] eqn:E; [|done].
    injection Hload as <- <-.
    apply (tags_loop_ok configs lt ys' []) in Hloop as [_ ->]; [|done].
    simpl. rewrite lookup_insert_eq. eauto. }
  assert (heap s3 !! lt = Some xs) as Hlt3.
  { subst s3. simpl. rewrite lookup_insert_ne; [done|].
    intros E. apply (is_fresh (dom (heap s2))). fold lu. rewrite E.
    apply elem_of_dom. eauto. }
  assert (truthy_val (VList lt) s3 = (Ok (negb (bool_decide (xs = []))), s3)) as Htv.
  { unfold truthy_val, bind, load. by rewrite Hlt3. }
  run Htv.
  run (dict_getitem_singleton "urls" (VList lu) s3).
  run (truthy_val_empty lu s3 Hlu).
  exists s3, (negb (bool_decide (xs = []))). rewrite ret_run.
  split.
  - do 2 f_equal.
    destruct (negb (bool_decide (xs = []))), (truthy ct), (truthy c);
      rewrite ?(right_id_L ∅ (∪)), ?(left_id_L ∅ (∪)); reflexivity.
  - split; [done|]. intros xs' Hxs'. rewrite Hlt in Hxs'.
    by injection Hxs' as <-.
Qed.

(** X16: with header text and [append_date_to_header] configured, a call
    of [note] without tags, urls and extra fields returns; it stores the
    timestamp of the call in [self.date] (the date passed, or else the
    reading of the clock), and the header of the note is the text
    followed by " / " and that timestamp when the option is on, and the
    text alone when it is off. *)
Theorem note_header_with_date (configs : config) (now : datetime)
    (date c ct hd : scalar) (tg ur : option loc) (flag : bool) (s : state) :
  truthy hd = true → cfg_append_date_to_header configs = Some flag →
  no_elements s tg → no_elements s ur →
  ∃ n s',
    note configs now date c ct tg ur hd [] s = (Ok n, s')
    ∧ self_date s' = resolved_date now date
    ∧ n !! "header"
      = Some (VScalar (if flag
                       then PyStr (py_str hd +:+ " / " +:+ py_str (resolved_date now date))
                       else hd))
    ∧ n !! "tags" = None ∧ n !! "urls" = None.
Proof.
  intros Hhd Hflag Htg Hur.
  set (s1 := set_self_date (resolved_date now date) s).
  set (h := if flag
            then PyStr (py_str hd +:+ " / " +:+ py_str (resolved_date now date))
            else hd).
  assert (header configs hd s1 = (Ok {[ "header" := VScalar h ]}, s1)) as Hh.
  { unfold header, bind, gets, getitem. rewrite Hhd, Hflag. by destruct flag. }
  assert (truthy h = true) as Hth.
  { subst h. destruct flag; [apply truthy_append_sep | done]. }
  assert (no_elements s1 tg) as Htg1 by (by destruct tg).
  pose proof (tags_fresh configs tg s1 Htg1) as Htags.
  assert (no_elements (set_heap <[fresh (dom (heap s1)) := []]> s1) ur) as Hur2.
  { apply no_elements_alloc; [done|]. by destruct ur. }
  destruct (note_run configs now date c ct tg ur hd h _ s _ Hh Hth Htags Hur2)
    as (s' & tb & Hrun & -> & Htb).
  assert (tb = false) as ->.
  { rewrite (Htb []); [done|]. simpl. by rewrite lookup_insert_eq. }
  eexists _, _. split; [exact Hrun|]. split; [done|].
  rewrite (left_id_L ∅ (∪)).
  repeat split; destruct (truthy ct), (truthy c); reflexivity.
Qed.

Lemma note_header_with_date_witness :
  let s := mkState ∅ ∅ PyNone [] in
  truthy (PyStr "Meeting") = true
  ∧ cfg_append_date_to_header all_on = Some true
  ∧ ∃ n s',
      note all_on nov4 (PyStr "today") PyNone PyNone None None (PyStr "Meeting") [] s
      = (Ok n, s')
      ∧ self_date s' = PyStr "today"
      ∧ n !! "header" = Some (VScalar (PyStr "Meeting / today")).
Proof.
  intros s. split; [reflexivity|]. split; [reflexivity|].
  destruct (note_header_with_date all_on nov4 (PyStr "today") PyNone PyNone
              (PyStr "Meeting") None None true s eq_refl eq_refl I I)
    as (n & s' & Hrun & Hdate & Hheader & _).
  exists n, s'. split; [exact Hrun|]. split; [exact Hdate|]. exact Hheader.
Defined.

(** X17: with header text and no [append_date_to_header] in the
    configuration, [note] raises KeyError for that key, whatever the
    other arguments; it has stored the timestamp in [self.date] and has
    not reached the tags. *)
Theorem note_header_missing_key (configs : config) (now : datetime)
    (date c ct hd : scalar) (tg ur : option loc) (kwargs : list (string * val))
    (s : state) :
  truthy hd = true → cfg_append_date_to_header configs = None →
  note configs now date c ct tg ur hd kwargs s
  = (Raise (KeyError "append_date_to_header"),
     set_self_date (resolved_date now date) s).
Proof.
  intros Hhd Hflag. unfold note.
  run (resolve_date_run now date s).
  run (modify_run (set_self_date (resolved_date now date)) s).
  unfold comment, content.
  run (ret_run ({[ "comment" := VScalar c ]} : gmap string val)
         (set_self_date (resolved_date now date) s)).
  run (ret_run ({[ "content" := VScalar ct ]} : gmap string val)
         (set_self_date (resolved_date now date) s)).
  apply bind_raise. unfold header, bind, gets, getitem, raise.
  by rewrite Hhd, Hflag.
Qed.

Lemma note_header_missing_key_witness :
  let s := mkState ∅ {[ 1%positive := [PyInt 7] ]} PyNone [] in
  truthy (PyStr "Meeting") = true
  ∧ cfg_append_date_to_header empty_config = None
  ∧ note empty_config nov4 PyNone PyNone PyNone (Some 1%positive) None
      (PyStr "Meeting") [] s
    = (Raise (KeyError "append_date_to_header"),
       set_self_date (resolved_date nov4 PyNone) s).
Proof.
  intros s. split; [reflexivity|]. split; [reflexivity|].
  exact (note_header_missing_key empty_config nov4 PyNone PyNone PyNone
           (PyStr "Meeting") (Some 1%positive) None [] s eq_refl eq_refl).
Defined.

(** X18: [note] keeps the caller's list of tags: for a list with
    elements that [tags] accepts, the note holds that very list under
    'tags', and the list holds the normal forms of its elements after
    the call; urls that are absent or empty leave no key. *)
Theorem note_keeps_tags_list (configs : config) (now : datetime)
    (date c ct hd : scalar) (lt : loc) (xs : list scalar) (ur : option loc)
    (flag : bool) (s : state) :
  truthy hd = false →
  cfg_auto_prepend_hashtag configs = Some flag →
  heap s !! lt = Some xs → xs ≠ [] →
  flag = false ∨ Forall (λ tag, is_str tag = true) xs →
  no_elements s ur →
  ∃ n s',
    note configs now date c ct (Some lt) ur hd [] s = (Ok n, s')
    ∧ n !! "tags" = Some (VList lt)
    ∧ heap s' !! lt = Some (map (normalized flag) xs)
    ∧ n !! "urls" = None
    ∧ n !! "header" = Some (VScalar (resolved_date now date)).
Proof.
  intros Hhd Hflag Hl Hne Hok Hur.
  set (s1 := set_self_date (resolved_date now date) s).
  assert (header configs hd s1
          = (Ok {[ "header" := VScalar (resolved_date now date) ]}, s1)) as Hh.
  { unfold header, bind, gets. by rewrite Hhd. }
  assert (heap s1 !! lt = Some xs) as Hl1 by done.
  pose proof (tags_run configs flag lt xs s1 Hflag Hl1 Hne Hok) as Htags.
  set (s2 := set_heap <[lt := map (normalized flag) xs]> s1) in *.
  assert (no_elements s2 ur) as Hur2.
  { destruct ur as [lu|]; [|done]. simpl in *.
    rewrite lookup_insert_ne; [done|]. intros <-.
    rewrite Hl in Hur. by injection Hur as ->. }
  destruct (note_run configs now date c ct (Some lt) ur hd _ lt s s2 Hh
              (truthy_resolved_date now date) Htags Hur2)
    as (s' & tb & Hrun & -> & Htb).
  assert (heap s2 !! lt = Some (map (normalized flag) xs)) as Hlt2
    by (simpl; by rewrite lookup_insert_eq).
  assert (tb = true) as ->.
  { rewrite (Htb _ Hlt2). destruct xs; [done|]. done. }
  eexists _, _. split; [exact Hrun|].
  split; [by destruct (truthy ct), (truthy c)|].
  split.
  { change (heap (set_heap <[fresh (dom (heap s2)) := []]> s2))
      with (<[fresh (dom (heap s2)) := []]> (heap s2)).
    rewrite lookup_insert_ne; [done|].
    intros E. apply (is_fresh (dom (heap s2))). rewrite E.
    apply elem_of_dom. eauto. }
  split; by destruct (truthy ct), (truthy c).
Qed.

Lemma note_keeps_tags_list_witness :
  let s := mkState ∅ {[ 1%positive := [PyStr "a"; PyStr "#b"] ]} PyNone [] in
  heap s !! 1%positive = Some [PyStr "a"; PyStr "#b"]
  ∧ ∃ n s',
      note all_on nov4 PyNone PyNone PyNone (Some 1%positive) None PyNone [] s
      = (Ok n, s')
      ∧ n !! "tags" = Some (VList 1%positive)
      ∧ heap s' !! 1%positive = Some (map (normalized true) [PyStr "a"; PyStr "#b"]).
Proof.
  intros s.
  assert (heap s !! 1%positive = Some [PyStr "a"; PyStr "#b"]) as Hl
    by (vm_compute; reflexivity).
  split; [exact Hl|].
  assert (Forall (λ tag, is_str tag = true) [PyStr "a"; PyStr "#b"]) as Hstr
    by (by repeat constructor).
  assert ([PyStr "a"; PyStr "#b"] ≠ []) as Hne by discriminate.
  destruct (note_keeps_tags_list all_on nov4 PyNone PyNone PyNone PyNone 1%positive
              _ None true s eq_refl eq_refl Hl Hne (or_intror Hstr) I)
    as (n & s' & Hrun & Htags & Hheap & _).
  exists n, s'. split; [exact Hrun|]. split; [exact Htags|]. exact Hheap.
Defined.

(** ** Rendering a note that is given *)

Lemma bind_inv {A B} (c : M A) (k : A → M B) s r s' :
  bind c k s = (r, s') →
  (∃ a s1, c s = (Ok a, s1) ∧ k a s1 = (r, s'))
  ∨ (∃ e, c s = (Raise e, s') ∧ r = Raise e).
Proof.
  unfold bind. destruct (c s) as [[a|e] s1]; [eauto|].
  intros [= <- <-]. eauto.
Qed.

Lemma content_type_pure configs arg s r s' :
  content_type configs arg s = (r, s') →
  s' = s
  ∧ ∀ ct, r = Ok ct →
      match given arg with
      | Some x => Some x
      | None => cfg_default_content_type configs
      end = Some ct.
Proof.
  unfold content_type, getitem, ret, raise.
  destruct (given arg); [|destruct (cfg_default_content_type configs)];
    intros [= <- <-]; (split; [done|]); by intros ? [= <-].
Qed.

Lemma template_file_pure configs isdir arg s r s' :
  template_file configs isdir arg s = (r, s') →
  s' = s
  ∧ ∀ tf, r = Ok tf →
      match given arg with
      | Some x => Some x
      | None => cfg_default_template_file configs
      end = Some tf.
Proof.
  unfold template_file, bind, getitem, gets, ret, raise.
  destruct (given arg) as [tf0|]; [|destruct (cfg_default_template_file configs) as [tf0|]];
    try destruct (path_exists isdir (files s) tf0);
    intros [= <- <-]; (split; [done|]); by intros ? [= <-].
Qed.

Lemma get_template_pure isdir jinja tf s r s' :
  get_template isdir jinja tf s = (r, s') →
  s' = s
  ∧ ∀ template, r = Ok template →
      template.1 = tf
      ∧ (∃ stored, files s !! tf = Some stored
                   ∧ template.2 = universal_newlines stored)
      ∧ jinja_compiles jinja template.2 = true.
Proof.
  unfold get_template, bind, read_file, fs_read, ret, raise.
  destruct (isdir tf); [by intros [= <- <-]|].
  destruct (files s !! tf) as [stored|]; [|by intros [= <- <-]].
  destruct (jinja_compiles jinja (universal_newlines stored)) eqn:Hc;
    intros [= <- <-]; (split; [done|]); [|by intros ? [= <-]].
  intros ? [= <-]. eauto.
Qed.

Lemma render_template_pure jinja template n ct s r s' :
  render_template jinja template n ct s = (r, s') →
  s' = s
  ∧ ∀ text, r = Ok text → jinja_render jinja template.2 n ct (heap s) = Some text.
Proof.
  unfold render_template, bind, gets, ret, raise.
  destruct (jinja_render jinja template.2 n ct (heap s));
    intros [= <- <-]; (split; [done|]); by intros ? [= <-].
Qed.

(** X19: [render_note] for a note that is given and not empty changes
    nothing, not even [self.date], whatever it returns or raises; when
    it returns, the text is what the engine renders from the text of the
    template file as a text-mode read gives it, with that very note and
    with the content type that was passed or else the configured
    default. *)
Theorem render_note_given_note (configs : config) (now : datetime)
    (isdir : string → bool) (jinja : engine)
    (tf_arg : option string) (n : gmap string val) (ct_arg : option string)
    (s s' : state) (r : outcome string) :
  n ≠ ∅ →
  render_note configs now isdir jinja tf_arg (Some n) ct_arg s = (r, s') →
  s' = s
  ∧ ∀ text, r = Ok text →
      ∃ ct tf stored,
        match given ct_arg with
        | Some x => Some x
        | None => cfg_default_content_type configs
        end = Some ct
        ∧ match given tf_arg with
          | Some x => Some x
          | None => cfg_default_template_file configs
          end = Some tf
        ∧ files s !! tf = Some stored
        ∧ jinja_compiles jinja (universal_newlines stored) = true
        ∧ jinja_render jinja (universal_newlines stored) n ct (heap s) = Some text.
Proof.
  intros Hne H. unfold render_note in H.
  destruct (decide (n = ∅)); [done|].
  apply bind_inv in H as [(ct & s1 & Hct & H) | (e & Hct & ->)].
  2:{ by apply content_type_pure in Hct as [-> _]. }
  apply content_type_pure in Hct as [-> Hct]. specialize (Hct ct eq_refl).
  run (ret_run n s) in H.
  apply bind_inv in H as [(tf & s1 & Htf & H) | (e & Htf & ->)].
  2:{ by apply template_file_pure in Htf as [-> _]. }
  apply template_file_pure in Htf as [-> Htf]. specialize (Htf tf eq_refl).
  apply bind_inv in H as [(template & s1 & Htm & H) | (e & Htm & ->)].
  2:{ by apply get_template_pure in Htm as [-> _]. }
  apply get_template_pure in Htm as [-> Htm].
  destruct (Htm template eq_refl) as (_ & (stored & Hsource & Hread) & Hcompiles).
  apply render_template_pure in H as [-> Hrender].
  split; [done|]. intros text ->. specialize (Hrender text eq_refl).
  rewrite Hread in Hcompiles, Hrender.
  exists ct, tf, stored. eauto 10.
Qed.

Lemma render_note_given_note_witness :
  let s := mkState {[ "/tmp/note.j2" := "## note" ]} ∅ PyNone [] in
  let n : gmap string val := {[ "comment" := VScalar (PyStr "hi") ]} in
  n ≠ ∅
  ∧ render_note all_on nov4 sample_isdir literal_engine None (Some n) None s
    = (Ok "## note", s).
Proof.
  intros s n.
  assert (n ≠ ∅) as Hne by (vm_compute; discriminate).
  split; [exact Hne|].
  assert (∃ s', render_note all_on nov4 sample_isdir literal_engine None (Some n) None s
                = (Ok "## note", s')) as [s' H]
    by (eexists; vm_compute; reflexivity).
  destruct (render_note_given_note all_on nov4 sample_isdir literal_engine None n None
              s s' _ Hne H) as [-> _].
  exact H.
Defined.

(** ** Loading the configuration, further *)

Lemma config_update_empty (kwargs : config) : config_update empty_config kwargs = kwargs.
Proof.
  destruct kwargs as [[?|] [?|] [?|] [?|] [?|]]; reflexivity.
Qed.

(** X20: when the configuration file does not exist, or is read and
    parsed to a mapping, [get_configs] returns and changes nothing, and
    every key of the configuration holds the keyword override when there
    is one and what the file gave otherwise; without a file the
    configuration is exactly the overrides. *)
Theorem get_configs_overrides (yaml_safe_load : string → yaml_result)
    (isdir : string → bool) (config_file : option string) (base kwargs : config)
    (s : state) :
  let path := default ".notes_config.yaml" (given config_file) in
  (path_exists isdir (files s) path = false ∧ base = empty_config)
  ∨ (∃ text, fs_read isdir (files s) path = Done text
             ∧ yaml_safe_load text = YamlData (Some base)) →
  ∃ configs,
    get_configs yaml_safe_load isdir config_file kwargs s = (Ok configs, s)
    ∧ cfg_default_content_type configs
      = overridden cfg_default_content_type base kwargs
    ∧ cfg_default_template_file configs
      = overridden cfg_default_template_file base kwargs
    ∧ cfg_append_date_to_header configs
      = overridden cfg_append_date_to_header base kwargs
    ∧ cfg_auto_prepend_hashtag configs
      = overridden cfg_auto_prepend_hashtag base kwargs
    ∧ cfg_notes_file configs = overridden cfg_notes_file base kwargs
    ∧ (base = empty_config → configs = kwargs).
Proof.
  intros path Hfile.
  assert (∃ d, get_yaml_data yaml_safe_load isdir path s = (Ok d, s)
               ∧ default empty_config d = base) as (d & Hd & Hbase).
  { destruct Hfile as [[Hex ->] | (text & Hread & Hparse)].
    - exists None. split; [|done].
      unfold get_yaml_data, bind, gets. by rewrite Hex.
    - exists (Some base). split; [|done].
      unfold get_yaml_data, bind, gets, try_except, ret.
      assert (path_exists isdir (files s) path = true) as ->.
      { unfold fs_read in Hread. unfold path_exists.
        destruct (isdir path); [done|].
        destruct (files s !! path) eqn:E; [|done]. done. }
      simpl. by rewrite Hread, Hparse. }
  exists (config_update base kwargs). split.
  { unfold get_configs. fold path.
    unfold bind at 1. unfold try_except. run Hd. by rewrite Hbase. }
  repeat (split; [reflexivity|]).
  intros ->. apply config_update_empty.
Qed.

Lemma get_configs_overrides_witness :
  let s := mkState {[ ".notes_config.yaml" := "notes_file: /tmp/notes.md" ]} ∅ PyNone [] in
  let kwargs := mkConfig (Some "code") None None None None in
  ∃ configs,
    get_configs (λ _, YamlData (Some all_on)) sample_isdir None kwargs s
    = (Ok configs, s)
    ∧ cfg_default_content_type configs = Some "code"
    ∧ cfg_notes_file configs = Some "/tmp/notes.md".
Proof.
  intros s kwargs.
  destruct (get_configs_overrides (λ _, YamlData (Some all_on)) sample_isdir None
              all_on kwargs s)
    as (configs & Hrun & Hct & _ & _ & _ & Hnf & _).
  { right. exists "notes_file: /tmp/notes.md". split; reflexivity. }
  exists configs. split; [exact Hrun|]. split; [exact Hct | exact Hnf].
Defined.

(** ** Flattening *)

Lemma copy_list {A} (xs : list A) :
  foldl (λ acc element, acc ++ [element]) [] xs = xs.
Proof.
  induction xs as [|x xs IH] using rev_ind; [done|].
  rewrite foldl_app. simpl. by rewrite IH.
Qed.

Lemma length_characters (text : string) :
  length (characters text) = String.length text.
Proof. induction text as [|c text IH]; simpl; [done | by rewrite IH]. Qed.

(** X21: for a list of lists [flattened_list] raises nothing and returns
    the items of the lists one after the other, one level deep: the
    items themselves are left as they are, and there are as many as the
    lists have together. *)
Theorem flattened_list_lists (lists : list (list pyobj)) :
  ∃ items,
    flattened_list (Seq <$> lists) = Flat items
    ∧ items = concat lists
    ∧ length items = sum_list (length <$> lists).
Proof.
  eexists. split; [|split; [reflexivity|]].
  - unfold flattened_list. rewrite copy_list.
    induction lists as [|xs lists IH]; [done|].
    rewrite fmap_cons. cbn [chain iterate]. by rewrite IH.
  - induction lists as [|xs lists IH]; [done|].
    rewrite fmap_cons. cbn [concat sum_list sum_list_with].
    rewrite length_app. by rewrite IH.
Qed.

(** X22: [flattened_list] raises exactly when one of the elements is a
    scalar that is not a string; lists and strings, empty ones too, never
    make it raise. *)
Theorem flattened_list_raises (nested_list : list pyobj) :
  (∃ t, flattened_list nested_list = NotIterable t)
  ↔ Exists (λ x, iterate x = None) nested_list.
Proof.
  unfold flattened_list. rewrite copy_list.
  induction nested_list as [|x xs IH]; simpl.
  - split; [by intros [t ?] | by intros H%Exists_nil].
  - rewrite Exists_cons. destruct (iterate x) as [items|] eqn:Hx.
    + destruct (chain xs) as [more|t] eqn:Hxs.
      * split; [by intros [t ?]|]. intros [|H]; [done|].
        apply IH in H as [t ?]. done.
      * split; [intros _; right; apply IH; eauto | eauto].
    + split; [by left | eauto].
Qed.

(** X8: when [flattened_list] raises, the error names the type of the
    first element that is a scalar and not a string, whatever follows
    it. *)
Theorem flattened_list_first_error (before : list pyobj) (x : pyobj)
    (after : list pyobj) :
  Forall (λ y, iterate y ≠ None) before → iterate x = None →
  flattened_list (before ++ x :: after) = NotIterable (type_name_of x).
Proof.
  intros Hb Hx. unfold flattened_list. rewrite copy_list.
  induction Hb as [|y before Hy _ IH]; simpl.
  - by rewrite Hx.
  - destruct (iterate y); [|done]. by rewrite IH.
Qed.

Lemma flattened_list_first_error_witness :
  flattened_list ([Seq [Atom (PyStr "a")]; Atom (PyStr "bc")]
                  ++ Atom (PyInt 1) :: [Atom PyNone])
  = NotIterable "int".
Proof.
  apply (flattened_list_first_error
           [Seq [Atom (PyStr "a")]; Atom (PyStr "bc")] (Atom (PyInt 1)) [Atom PyNone]).
  - by repeat constructor.
  - reflexivity.
Defined.

(** X23: a string among the elements is taken apart: [flattened_list]
    of a list of strings returns their characters one by one, as many
    items as the strings have characters. *)
Theorem flattened_list_strings (texts : list string) :
  ∃ items,
    flattened_list ((λ text, Atom (PyStr text)) <$> texts) = Flat items
    ∧ items = concat (characters <$> texts)
    ∧ length items = sum_list (String.length <$> texts).
Proof.
  eexists. split; [|split; [reflexivity|]].
  - unfold flattened_list. rewrite copy_list.
    induction texts as [|text texts IH]; [done|].
    rewrite !fmap_cons. cbn [chain iterate concat]. by rewrite IH.
  - induction texts as [|text texts IH]; [done|].
    rewrite !fmap_cons. cbn [concat sum_list sum_list_with].
    rewrite length_app, length_characters. by rewrite IH.
Qed.

(** ** Reading from the terminal *)

Lemma length_append_str (a b : string) :
  String.length (a +:+ b) = (String.length a + String.length b)%nat.
Proof.
  induction a as [|c a IH]; [done|].
  change (String c a +:+ b) with (String c (a +:+ b)). simpl. by rewrite IH.
Qed.

Lemma readline_upto_split (limit : option nat) (input line rest : string) :
  readline_upto limit input = (line, rest) →
  input = line +:+ rest ∧ (line = "" → input = "" ∨ limit = Some 0%nat).
Proof.
  revert limit line rest.
  induction input as [|c input IH]; intros limit line rest; simpl.
  { intros [= <- <-]. auto. }
  assert ((if decide (c = newline) then (String c "", input)
           else let '(line, remaining) := readline_upto (Nat.pred <$> limit) input in
                (String c line, remaining)) = (line, rest) →
          String c input = line +:+ rest ∧ line ≠ "") as Hstep.
  { destruct (decide (c = newline)).
    - by intros [= <- <-].
    - destruct (readline_upto (Nat.pred <$> limit) input) as [line' rest'] eqn:E.
      intros [= <- <-]. apply IH in E as [-> _]. done. }
  destruct limit as [[|n]|].
  - intros [= <- <-]. auto.
  - intros [-> Hne]%Hstep. split; [done|]. by intros ?.
  - intros [-> Hne]%Hstep. split; [done|]. by intros ?.
Qed.

Lemma readline_split (size : Z) (input line rest : string) :
  readline size input = (line, rest) →
  input = line +:+ rest ∧ (line = "" → rest = "" ∨ size = 0%Z).
Proof.
  unfold readline. intros [-> Hempty]%readline_upto_split. split; [done|].
  intros ->. destruct (Hempty eq_refl) as [H|H]; [by left|].
  right. case_decide; [done|]. injection H as H. lia.
Qed.

Lemma input_loop_reads (size : Z) (steps : nat) (user_input input : string) :
  (String.length input < steps)%nat →
  ∃ reads term rest,
    input_loop steps size user_input input = Some (user_input +:+ joined reads, rest)
    ∧ input = joined reads +:+ term +:+ rest
    ∧ Forall (λ r, ends_input r = false) reads
    ∧ ends_input term = true
    ∧ (∀ before r after,
         reads = before ++ r :: after →
         readline size (r +:+ joined after +:+ term +:+ rest)
         = (r, joined after +:+ term +:+ rest))
    ∧ readline size (term +:+ rest) = (term, rest)
    ∧ (term = "" → rest = "" ∨ size = 0%Z).
Proof.
  revert user_input input.
  induction steps as [|steps IH]; intros user_input input Hlen; [lia|].
  simpl. destruct (readline size input) as [line rest] eqn:Hread.
  destruct (readline_split _ _ _ _ Hread) as [-> Hempty].
  destruct (ends_input line) eqn:Hends.
  - exists [], line, rest. change (joined []) with "".
    rewrite append_empty_r. repeat (split; [done|]). split; [|done].
    intros before r after Heq. by destruct before.
  - assert (line ≠ "") as Hne by (by intros ->).
    destruct (IH (user_input +:+ line) rest)
      as (reads & term & rest' & -> & Hrest & Hall & Hterm & Heach & Hlast & Hnone).
    { rewrite length_append_str in Hlen. destruct line; [done|]. simpl in Hlen. lia. }
    exists (line :: reads), term, rest'.
    change (joined (line :: reads)) with (line +:+ joined reads).
    split; [by rewrite append_assoc_str|].
    split; [by rewrite Hrest, append_assoc_str|].
    split; [by constructor|]. split; [done|]. split; [|done].
    intros [|first before] r after Heq; simpl in Heq.
    + injection Heq as <- <-. by rewrite <- Hrest.
    + injection Heq as _ Heq. by apply (Heach before).
Qed.

(** X24: [get_user_input] prints its prompt and returns, whatever is
    typed: it returns the reads made before the first read that gives
    the line EOF, the line with a dot or nothing, one after the other;
    none of them ends the input, each is what [readline] gives at its
    place, the read that ends the input is taken and not returned, and
    what follows it is left unread.  A read gives nothing only at the end
    of the input or with a buffer of size 0. *)
Theorem get_user_input_reads (buffer_size : Z) (c : console) :
  ∃ reads term rest,
    get_user_input buffer_size c
    = Some (joined reads, mkConsole rest (stdout c ++ [prompt]))
    ∧ stdin c = joined reads +:+ term +:+ rest
    ∧ Forall (λ r, ends_input r = false) reads
    ∧ ends_input term = true
    ∧ (∀ before r after,
         reads = before ++ r :: after →
         readline buffer_size (r +:+ joined after +:+ term +:+ rest)
         = (r, joined after +:+ term +:+ rest))
    ∧ readline buffer_size (term +:+ rest) = (term, rest)
    ∧ (term = "" → rest = "" ∨ buffer_size = 0%Z).
Proof.
  destruct (input_loop_reads buffer_size (S (String.length (stdin c))) "" (stdin c))
    as (reads & term & rest & Hloop & H); [lia|].
  exists reads, term, rest. unfold get_user_input. by rewrite Hloop.
Qed.

(** X25: with a buffer of size 0 every read gives nothing, so
    [get_user_input] returns the empty string at once and takes nothing
    from the input. *)
Theorem get_user_input_no_buffer (c : console) :
  get_user_input 0 c = Some ("", mkConsole (stdin c) (stdout c ++ [prompt])).
Proof.
  unfold get_user_input. cbn [input_loop]. unfold readline. simpl.
  by destruct (stdin c).
Qed.

Lemma readline_whole (size : Z) (line rest : string) :
  read_whole size line →
  readline size (line +:+ String newline rest) = (line +:+ String newline "", rest).
Proof.
  intros [Hnl Hsize]. unfold readline.
  assert (∀ limit,
            (∀ n, limit = Some n → (String.length line < n)%nat) →
            readline_upto limit (line +:+ String newline rest)
            = (line +:+ String newline "", rest)) as Hgen.
  { clear Hsize. induction line as [|c line IH]; intros limit Hlimit.
    - change ("" +:+ String newline rest) with (String newline rest).
      destruct limit as [[|n]|]; [|done..].
      specialize (Hlimit 0%nat eq_refl). simpl in Hlimit. lia.
    - change (String c line +:+ String newline rest)
        with (String c (line +:+ String newline rest)).
      change (String c line +:+ String newline "")
        with (String c (line +:+ String newline "")).
      simpl in Hnl. apply not_elem_of_cons in Hnl as [Hc Hnl].
      cbn [readline_upto]. rewrite decide_False by done.
      rewrite (IH Hnl).
      + destruct limit as [[|n]|]; [|done..].
        specialize (Hlimit 0%nat eq_refl). simpl in Hlimit. lia.
      + intros n Hn. destruct limit as [[|m]|]; simplify_eq/=.
        * specialize (Hlimit 0%nat eq_refl). simpl in Hlimit. lia.
        * specialize (Hlimit (S n) eq_refl). simpl in Hlimit. lia. }
  apply Hgen. intros n Hn. case_decide; [done|]. injection Hn as <-.
  destruct Hsize; lia.
Qed.

Lemma ends_input_line (line : string) :
  ends_input (line +:+ String newline "") = bool_decide (line ∈ ["EOF"; "."]).
Proof.
  unfold ends_input. apply bool_decide_ext.
  assert (∀ a b : string, a +:+ String newline "" = b +:+ String newline "" → a = b)
    as Hinj.
  { induction a as [|x a IH]; intros [|y b] H; [done|..].
    - change (String y b +:+ String newline "")
        with (String y (b +:+ String newline "")) in H.
      injection H as _ H. by destruct b.
    - change (String x a +:+ String newline "")
        with (String x (a +:+ String newline "")) in H.
      injection H as _ H. by destruct a.
    - change (String x a +:+ String newline "")
        with (String x (a +:+ String newline "")) in H.
      change (String y b +:+ String newline "")
        with (String y (b +:+ String newline "")) in H.
      injection H as -> H. by rewrite (IH _ H). }
  rewrite !elem_of_cons, !elem_of_nil. split.
  - intros [H|[H|[H|[]]]]; [left; by apply Hinj|right; left; by apply Hinj|].
    by destruct line.
  - intros [->|[->|[]]]; auto.
Qed.

Lemma input_loop_typed (size : Z) (lines : list string) (term rest : string) :
  Forall (λ line, read_whole size line ∧ line ∉ ["EOF"; "."]) lines →
  read_whole size term → term ∈ ["EOF"; "."] →
  ∀ steps user_input,
    (String.length (typed lines +:+ term +:+ String newline rest) < steps)%nat →
    input_loop steps size user_input (typed lines +:+ term +:+ String newline rest)
    = Some (user_input +:+ typed lines, rest).
Proof.
  intros Hlines Hterm Hend.
  induction Hlines as [|line lines [Hline Hnot] _ IH]; intros steps user_input Hlen.
  - change (typed [] +:+ term +:+ String newline rest)
      with (term +:+ String newline rest) in *.
    destruct steps as [|steps]; [lia|]. cbn [input_loop].
    rewrite (readline_whole _ _ _ Hterm), ends_input_line.
    rewrite bool_decide_eq_true_2 by done.
    change (typed []) with "". by rewrite append_empty_r.
  - change (typed (line :: lines)) with (line +:+ String newline (typed lines)) in *.
    assert ((line +:+ String newline (typed lines)) +:+ term +:+ String newline rest
            = line +:+ String newline (typed lines +:+ term +:+ String newline rest))
      as Heq.
    { rewrite append_assoc_str. f_equal. }
    rewrite Heq in *. destruct steps as [|steps]; [lia|]. cbn [input_loop].
    rewrite (readline_whole _ _ _ Hline), ends_input_line.
    rewrite bool_decide_eq_false_2 by done.
    rewrite IH.
    + by rewrite !append_assoc_str.
    + rewrite length_append_str in Hlen. simpl in Hlen. lia.
Qed.

(** X26: when every line typed is read whole (no limit on a read, or
    lines shorter than the buffer), [get_user_input] returns the lines
    before the first line EOF or line with a dot, newlines included and
    empty lines too, and leaves what follows that line unread. *)
Theorem get_user_input_until_end (buffer_size : Z) (lines : list string)
    (term rest : string) (printed : list string) :
  Forall (λ line, read_whole buffer_size line ∧ line ∉ ["EOF"; "."]) lines →
  read_whole buffer_size term → term ∈ ["EOF"; "."] →
  get_user_input buffer_size
    (mkConsole (typed lines +:+ term +:+ String newline rest) printed)
  = Some (typed lines, mkConsole rest (printed ++ [prompt])).
Proof.
  intros Hlines Hterm Hend. unfold get_user_input. cbn [stdin stdout].
  by rewrite (input_loop_typed _ _ _ _ Hlines Hterm Hend) by lia.
Qed.

Lemma get_user_input_until_end_witness :
  get_user_input 4096
    (mkConsole (typed ["buy milk"; ""] +:+ "." +:+ String newline "later") [])
  = Some (typed ["buy milk"; ""], mkConsole "later" [prompt]).
Proof.
  apply (get_user_input_until_end 4096 ["buy milk"; ""] "." "later" []).
  - repeat constructor; try (by apply (bool_decide_unpack _)); simpl; lia.
  - split; [by apply (bool_decide_unpack _) | simpl; lia].
  - by apply (bool_decide_unpack _).
Defined.

(** ** Reading back and renaming *)

(** X27: what [write_data_to_file] has written, [read_file] reads back
    in text mode: after a write that returns, reading the same file
    returns its old text followed by the data, with every carriage
    return (with or without a newline after it) read as a newline, and
    changes nothing; the text comes back as it was written when it holds
    no carriage return. *)
Theorem read_file_after_write (isdir : string → bool)
    (filename data : string) (s s' : state) (r : bool) :
  write_data_to_file isdir filename data s = (Ok r, s') →
  let written := default "" (files s !! filename) +:+ data in
  read_file isdir filename s' = (Ok (universal_newlines written), s')
  ∧ (no_carriage_return written → read_file isdir filename s' = (Ok written, s')).
Proof.
  intros Hrun written.
  assert (read_file isdir filename s' = (Ok (universal_newlines written), s')) as H.
  { subst written. revert Hrun.
    unfold write_data_to_file, read_file, fs_write, fs_read.
    destruct (isdir filename) eqn:Hd; [done|].
    destruct (files s !! filename) as [old|] eqn:Hf; simpl.
    - unfold path_exists. rewrite Hd, Hf. simpl.
      intros [= <- <-]. simpl. by rewrite lookup_insert_eq.
    - destruct (parent_exists isdir filename); [|done].
      intros [= <- <-]. simpl. by rewrite lookup_insert_eq. }
  split; [done|]. intros Hcr. by rewrite H, (universal_newlines_id _ Hcr).
Qed.

Lemma read_file_after_write_witness :
  let s := mkState {[ "/tmp/notes.md" := "A" +:+ String carriage_return "" ]}
             ∅ PyNone [] in
  ∃ s', write_data_to_file sample_isdir "/tmp/notes.md" "B" s = (Ok true, s')
        ∧ read_file sample_isdir "/tmp/notes.md" s'
          = (Ok ("A" +:+ String newline "" +:+ "B"), s').
Proof.
  intros s. eexists. split; [vm_compute; reflexivity|].
  apply (proj1 (read_file_after_write sample_isdir "/tmp/notes.md" "B" s _ true
                  ltac:(vm_compute; reflexivity))).
Defined.

(** X28: [rename_file] returns True or raises, it never returns False.
    When it returns for a source that is not a directory and a
    destination that is not a directory, the source was a file, the
    destination now holds the text of the source, the source is gone,
    and no other file has changed, whether the move was a rename or a
    copy to another file system. *)
Theorem rename_file_moves (isdir : string → bool)
    (src_file dest_file : string) (s s' : state) (r : bool) :
  rename_file isdir src_file dest_file s = (Ok r, s') →
  r = true
  ∧ (isdir src_file = false → isdir dest_file = false →
     ∃ text,
       files s !! src_file = Some text
       ∧ files s' !! dest_file = Some text
       ∧ (src_file ≠ dest_file → files s' !! src_file = None)
       ∧ ∀ p, p ≠ src_file → p ≠ dest_file → files s' !! p = files s !! p).
Proof.
  intros Hrun. split.
  { unfold rename_file in Hrun.
    destruct (fs_move isdir (device s) (files s) src_file dest_file) as [fs' [e|]];
      [done|]. by injection Hrun as <- _. }
  intros Hs Hd.
  destruct (files s !! src_file) as [text|] eqn:Hsrc.
  - destruct (rename_file_ok isdir src_file dest_file text s r s' Hsrc Hs Hd Hrun)
      as [_ Hfs].
    exists text. rewrite Hfs.
    split; [done|]. split; [by rewrite lookup_insert_eq|]. split.
    + intros Hne. by rewrite lookup_insert_ne, lookup_delete_eq.
    + intros p Hp1 Hp2. by rewrite lookup_insert_ne, lookup_delete_ne.
  - revert Hrun. unfold rename_file, fs_move, fs_rename.
    rewrite Hd, Hs, Hsrc. done.
Qed.

Lemma rename_file_moves_witness :
  let s := mkWorld {[ "/tmp/notes.x.md" := "B"; "/notes.md" := "A" ]} ∅ PyNone []
             (λ _ _, OtherDevice) in
  let s' := set_files (λ _, {[ "/notes.md" := "B" ]}) s in
  rename_file sample_isdir "/tmp/notes.x.md" "/notes.md" s = (Ok true, s')
  ∧ ∃ text,
      files s !! "/tmp/notes.x.md" = Some text
      ∧ files s' !! "/notes.md" = Some text
      ∧ ("/tmp/notes.x.md" ≠ "/notes.md" → files s' !! "/tmp/notes.x.md" = None)
      ∧ ∀ p, p ≠ "/tmp/notes.x.md" → p ≠ "/notes.md" →
             files s' !! p = files s !! p.
Proof.
  intros s s'.
  assert (rename_file sample_isdir "/tmp/notes.x.md" "/notes.md" s = (Ok true, s'))
    as Hrun by (vm_compute; reflexivity).
  split; [exact Hrun|].
  exact (proj2 (rename_file_moves sample_isdir "/tmp/notes.x.md" "/notes.md"
                  s s' true Hrun) eq_refl eq_refl).
Defined.
